(** * Shortage pipeline: transform, shortage evaluation, quality gate, KPIs

    A shallow embedding of the core of the invoice shortage pipeline
    ([src/transform.py], [src/shortage_logic.py], [src/quality.py],
    [src/analytics.py], with the configuration records of [src/utils.py]).

    Modelling conventions.
    - A [DataFrame] is the list of its rows, in index order; a row is a
      record with one field per column the four stages read or write.  A
      vectorised column expression of the source is the same expression
      applied to every row, so every stage is a [map] over the rows.
    - A float64 cell is [option Q]: [Some q] is the finite value [q], [None]
      is NaN, which is also pandas' missing value for a float column.
      Arithmetic is exact on [Q]; binary rounding error and the infinities
      are outside the row model.  Where a property depends on them (the
      delta Transform computes), the amounts are embedded a second time in
      IEEE binary64, in [Float64].
    - The type of a field fixes the dtype of its column.  A frame whose
      amounts pandas read as [int64] (a file of whole numbers) is outside
      the row model; the schema of the gate refuses such a frame on dtype.
    - A string cell is [option string] ([None] is [pd.NA]); characters are
      bytes, and case mapping and whitespace follow Python on ASCII text.
    - A date cell is a [datetime.date] object, a text still to be parsed, or
      a missing value.  [to_datetime] models [pd.to_datetime(..., errors=
      "coerce")] cell by cell on numeric day/month/year texts.
    - [date.today()] is read from the environment; it is the explicit
      argument [today] of the stages that call it. *)

From Stdlib Require Import ZArith QArith Qabs String Ascii List Lia Sorted.
From Stdlib Require Import DecimalString.
From Stdlib Require SpecFloat.
From stdpp Require Import base decidable option list gmap sets strings.

Import ListNotations.
Open Scope string_scope.
Open Scope Z_scope.

(** ** Strings *)

Module Str.

Definition is_lower (c : ascii) : bool :=
  let n := nat_of_ascii c in (97 <=? n)%nat && (n <=? 122)%nat.

Definition is_upper (c : ascii) : bool :=
  let n := nat_of_ascii c in (65 <=? n)%nat && (n <=? 90)%nat.

Definition upper_char (c : ascii) : ascii :=
  if is_lower c then ascii_of_nat (nat_of_ascii c - 32) else c.

Definition lower_char (c : ascii) : ascii :=
  if is_upper c then ascii_of_nat (nat_of_ascii c + 32) else c.

Fixpoint map_chars (f : ascii -> ascii) (s : string) : string :=
  match s with
  | EmptyString => EmptyString
  | String c rest => String (f c) (map_chars f rest)
  end.

(** [str.upper()] and [str.lower()]. *)
Definition upper : string -> string := map_chars upper_char.
Definition lower : string -> string := map_chars lower_char.

(** The characters [str.strip()] removes: tab, line feed, vertical tab,
    form feed, carriage return, the four separators 0x1c-0x1f and space. *)
Definition is_space (c : ascii) : bool :=
  let n := nat_of_ascii c in
  ((9 <=? n)%nat && (n <=? 13)%nat)
  || ((28 <=? n)%nat && (n <=? 32)%nat).

Fixpoint lstrip (s : string) : string :=
  match s with
  | EmptyString => EmptyString
  | String c rest => if is_space c then lstrip rest else s
  end.

(** Right strip: a character is kept when it is not a space or when
    something survives to its right. *)
Fixpoint rstrip (s : string) : string :=
  match s with
  | EmptyString => EmptyString
  | String c rest =>
      match rstrip rest with
      | EmptyString => if is_space c then EmptyString else String c EmptyString
      | kept => String c kept
      end
  end.

Definition strip (s : string) : string := rstrip (lstrip s).

Fixpoint all_chars (p : ascii -> bool) (s : string) : bool :=
  match s with
  | EmptyString => true
  | String c rest => p c && all_chars p rest
  end.

End Str.

(** ** Calendar dates *)

Record date := Date { year : Z; month : Z; day : Z }.

Module Calendar.

(** [datetime._is_leap]. *)
Definition is_leap (y : Z) : bool :=
  (y mod 4 =? 0) && (negb (y mod 100 =? 0) || (y mod 400 =? 0)).

(** [datetime._days_in_month]. *)
Definition days_in_month (y m : Z) : Z :=
  if m =? 2 then (if is_leap y then 29 else 28)
  else if (m =? 4) || (m =? 6) || (m =? 9) || (m =? 11) then 30
  else 31.

(** [datetime._days_before_year]: days before January 1st of year [y]. *)
Definition days_before_year (y : Z) : Z :=
  let p := y - 1 in p * 365 + p / 4 - p / 100 + p / 400.

(** [datetime._days_before_month]: days in year [y] before the first day
    of month [m]. *)
Fixpoint days_before_month_aux (y : Z) (k : nat) : Z :=
  match k with
  | O => 0
  | S k' => days_before_month_aux y k' + days_in_month y (Z.of_nat k)
  end.

Definition days_before_month (y m : Z) : Z :=
  days_before_month_aux y (Z.to_nat (m - 1)).

(** [date.toordinal()]: January 1st of year 1 is day 1. *)
Definition toordinal (d : date) : Z :=
  days_before_year (year d) + days_before_month (year d) (month d) + day d.

(** The dates a [datetime.date] can hold. *)
Definition valid (d : date) : bool :=
  (1 <=? year d) && (year d <=? 9999)
  && (1 <=? month d) && (month d <=? 12)
  && (1 <=? day d) && (day d <=? days_in_month (year d) (month d)).

(** [a > b] on dates: year, month and day are compared in that order. *)
Definition date_gt (a b : date) : bool :=
  (year b <? year a)
  || ((year b =? year a)
      && ((month b <? month a)
          || ((month b =? month a) && (day b <? day a)))).

End Calendar.

(** ** Parsing dates: [pd.to_datetime(..., errors="coerce")] *)

Inductive date_cell :=
| DateValue (d : date)      (* a [datetime.date] object *)
| DateText (s : string)     (* a text, not parsed yet *)
| DateNull.                 (* None / NaT / NA *)

Module DateParse.

Definition is_digit (c : ascii) : bool :=
  let n := nat_of_ascii c in (48 <=? n)%nat && (n <=? 57)%nat.

Definition digit_value (c : ascii) : Z := Z.of_nat (nat_of_ascii c - 48).

Definition is_sep (c : ascii) : bool :=
  match c with
  | "/"%char | "-"%char | "."%char => true
  | _ => false
  end.

(** A numeric field: how many digits it has, and its value. *)
Definition field := (nat * Z)%type.

(** Splits a text into its numeric fields; [cur] is the field being read.
    Any character that is neither a digit nor a separator, and any empty
    field, makes the text unparseable. *)
Fixpoint fields (s : string) (cur : option field) : option (list field) :=
  match s with
  | EmptyString =>
      match cur with
      | Some f => Some [f]
      | None => None
      end
  | String c rest =>
      if is_digit c then
        match cur with
        | Some (n, v) => fields rest (Some (S n, v * 10 + digit_value c))
        | None => fields rest (Some (1%nat, digit_value c))
        end
      else if is_sep c then
        match cur with
        | Some f =>
            match fields rest None with
            | Some fs => Some (f :: fs)
            | None => None
            end
        | None => None
        end
      else None
  end.

Definition checked (d : date) : option date :=
  if Calendar.valid d then Some d else None.

(** First reading, and the other order of day and month when the first
    one is not a date of the calendar. *)
Definition first_valid (a b : date) : option date :=
  match checked a with
  | Some d => Some d
  | None => checked b
  end.

(** The texts read here: [YYYY-MM-DD] (the order is fixed whatever
    [dayfirst] says) and [A/B/YYYY], where [dayfirst] decides whether [A]
    is the day or the month.  Separators are [/], [-] and [.]. *)
Definition parse (dayfirst : bool) (s : string) : option date :=
  match fields (Str.strip s) None with
  | Some [(4%nat, y); (_, m); (_, d)] => checked (Date y m d)
  | Some [(_, a); (_, b); (4%nat, y)] =>
      if dayfirst
      then first_valid (Date y b a) (Date y a b)
      else first_valid (Date y a b) (Date y b a)
  | _ => None
  end.

End DateParse.

(** [pd.to_datetime(cell, dayfirst=..., errors="coerce")]: a date object is
    taken as it is, a text is parsed, and whatever cannot be read is NaT. *)
Definition to_datetime (dayfirst : bool) (c : date_cell) : option date :=
  match c with
  | DateValue d => Some d
  | DateText s => DateParse.parse dayfirst s
  | DateNull => None
  end.

(** ** Float cells *)

Module Float.

(** [np.rint]: the nearest integer, ties to the even one. *)
Definition rint (q : Q) : Z :=
  let n := Qnum q in
  let d := Zpos (Qden q) in
  let fl := n / d in
  match (2 * (n mod d)) ?= d with
  | Lt => fl
  | Gt => fl + 1
  | Eq => if Z.even fl then fl else fl + 1
  end.

(** [np.round(x, decimals)] on exact values: scale by a power of ten,
    [rint], scale back.  On exact values this is also Python's
    [round(x, decimals)].  In binary64 the scaled value is itself rounded,
    so a decimal just below or above a half may go the other way: see
    [Float64.round]. *)
Definition round (decimals : Z) (q : Q) : Q :=
  if 0 <=? decimals then
    let scale := inject_Z (10 ^ decimals) in
    Qred (inject_Z (rint (q * scale)) / scale)
  else
    let scale := inject_Z (10 ^ (- decimals)) in
    Qred (inject_Z (rint (q / scale)) * scale).

(** [a > b] on finite values. *)
Definition gtb (a b : Q) : bool := negb (Qle_bool a b).

(** [Series.fillna(v)]. *)
Definition fillna (v : Q) (c : option Q) : option Q :=
  match c with
  | Some q => Some q
  | None => Some v
  end.

(** [a - b] on cells: NaN propagates. *)
Definition sub (a b : option Q) : option Q :=
  match a, b with
  | Some x, Some y => Some (x - y)%Q
  | _, _ => None
  end.

(** [Series.round(decimals)]. *)
Definition round_cell (decimals : Z) (c : option Q) : option Q :=
  option_map (round decimals) c.

(** [series > v]: a comparison with NaN is False. *)
Definition gt_cell (c : option Q) (v : Q) : bool :=
  match c with
  | Some q => gtb q v
  | None => false
  end.

(** [series >= v] as pandera's [Check.ge] sees it (nulls are dropped
    before the check runs). *)
Definition ge_cell (c : option Q) (v : Q) : bool :=
  match c with
  | Some q => Qle_bool v q
  | None => true
  end.

(** [Series.sum()]: missing values are skipped. *)
Fixpoint sum (cs : list (option Q)) : Q :=
  match cs with
  | [] => 0%Q
  | Some q :: rest => (q + sum rest)%Q
  | None :: rest => sum rest
  end.

End Float.

(** ** Configuration ([src/utils.py]) *)

Record SettingsConfig := {
  input_raw_dir : string;
  output_processed_dir : string;
  date_format : string;
  aging_days_threshold : Z;
  currency_expected : string;
  round_decimals : Z;
  partition_by_year : bool;
  tolerance_small_delta_usd : Q
}.

Record RulesConfig := {
  eligible_statuses : list string;
  shortage_required_flags : list string;
  use_strict_currency_check : bool
}.

(** ** Rows *)

(** A row as ingestion delivers it (the columns the core reads). *)
Record RawRow := {
  Invoice_Date : date_cell;
  Payment_Due_Date : date_cell;
  Invoice_Status : option string;
  Actual_Paid_Amount : option Q;
  Paid_Amount_Currency : option string;
  Invoice_Creation_Date : date_cell;
  Randomized_Invoice : option string;
  Invoice_Amount : option Q;
  Invoice_Currency : option string;
  Any_Deductions : bool;
  Randomized_Latest_Child_Invoice : option string;
  Randomized_PO : option string
}.

(** A row after [transform_invoices]: the raw columns and three new ones. *)
Record TransformedRow := {
  raw : RawRow;
  Invoice_Delta : option Q;
  Child_Invoice_Present : bool;
  Payment_Year : option Z
}.

(** A row after [apply_shortage_logic]: four more columns. *)
Record FlaggedRow := {
  transformed : TransformedRow;
  Shortage_Flag : bool;
  Shortage_Amount_USD : option Q;
  Days_Past_Due : Z;
  Age_Bucket : string
}.

(** ** Transform ([src/transform.py]) *)

(** The [dayfirst] argument built from the settings. *)
Definition dayfirst_of (settings : SettingsConfig) : bool :=
  bool_decide (Str.lower (date_format settings) ∈ ["dayfirst"; "dd/mm/yyyy"]).

(** [child_series.str.strip().fillna("").ne("").astype(bool)]. *)
Definition child_invoice_present (child : option string) : bool :=
  let stripped := option_map Str.strip child in
  let filled := default "" stripped in
  negb (String.eqb filled "").

(** The local [payment_due] of [transform_invoices]. *)
Definition transform_payment_due (settings : SettingsConfig) (c : date_cell)
  : option date :=
  to_datetime (dayfirst_of settings) c.

Definition transform_row (settings : SettingsConfig) (r : RawRow)
  : TransformedRow :=
  let invoice_amount := Float.fillna 0 (Invoice_Amount r) in
  let actual_paid_amount := Float.fillna 0 (Actual_Paid_Amount r) in
  let working := {|
    Invoice_Date := Invoice_Date r;
    Payment_Due_Date := Payment_Due_Date r;
    Invoice_Status := Invoice_Status r;
    Actual_Paid_Amount := actual_paid_amount;
    Paid_Amount_Currency := Paid_Amount_Currency r;
    Invoice_Creation_Date := Invoice_Creation_Date r;
    Randomized_Invoice := Randomized_Invoice r;
    Invoice_Amount := invoice_amount;
    Invoice_Currency := Invoice_Currency r;
    Any_Deductions := Any_Deductions r;
    Randomized_Latest_Child_Invoice := Randomized_Latest_Child_Invoice r;
    Randomized_PO := Randomized_PO r
  |} in
  let invoice_delta :=
    Float.round_cell (round_decimals settings)
      (Float.sub (Invoice_Amount working) (Actual_Paid_Amount working)) in
  let payment_due := transform_payment_due settings (Payment_Due_Date working) in
  {| raw := working;
     Invoice_Delta := invoice_delta;
     Child_Invoice_Present :=
       child_invoice_present (Randomized_Latest_Child_Invoice working);
     Payment_Year := option_map year payment_due |}.

Definition transform_invoices (df : list RawRow) (settings : SettingsConfig)
  : list TransformedRow :=
  map (transform_row settings) df.

(** ** The amounts of Transform in binary64 *)

(** The two amount columns as pandas holds them when a value is missing or
    has a decimal point: float64, with NaN for a missing value and with
    the two infinities.  Values and operations are those of IEEE binary64
    with rounding to nearest, ties to even ([SpecFloat], precision 53). *)
Module Float64.

Definition float64 : Type := SpecFloat.spec_float.

Definition prec : Z := 53.
Definition emax : Z := 1024.

Definition nan : float64 := SpecFloat.S754_nan.
Definition inf (negative : bool) : float64 := SpecFloat.S754_infinity negative.
Definition zero : float64 := SpecFloat.S754_zero false.

(** The float of an integer, and of a decimal literal [n / d] with [n] and
    [d] below [2 ^ 53]: the nearest float. *)
Definition of_int (n : Z) : float64 :=
  SpecFloat.binary_normalize prec emax n 0 false.

Definition sub : float64 -> float64 -> float64 := SpecFloat.SFsub prec emax.
Definition mul : float64 -> float64 -> float64 := SpecFloat.SFmul prec emax.
Definition div : float64 -> float64 -> float64 := SpecFloat.SFdiv prec emax.

Definition of_ratio (n d : Z) : float64 := div (of_int n) (of_int d).

(** [isna()]: NaN is the missing value of a float column. *)
Definition isna (x : float64) : bool :=
  match x with
  | SpecFloat.S754_nan => true
  | _ => false
  end.

Definition is_finite (x : float64) : bool :=
  match x with
  | SpecFloat.S754_finite _ _ _ => true
  | _ => false
  end.

(** [Series.fillna(v)]. *)
Definition fillna (v x : float64) : float64 := if isna x then v else x.

(** [m / 2 ^ k] rounded to the nearest integer, ties to the even one. *)
Definition nearest_even (m k : Z) : Z :=
  let q := Z.shiftr m k in
  let r := m - Z.shiftl q k in
  match (2 * r) ?= Z.shiftl 1 k with
  | Lt => q
  | Gt => q + 1
  | Eq => if Z.even q then q else q + 1
  end.

(** [np.rint]: the nearest integral float, ties to the even one; zeros,
    infinities and NaN are returned as they are. *)
Definition rint (x : float64) : float64 :=
  match x with
  | SpecFloat.S754_finite s m e =>
      if 0 <=? e then x
      else
        match nearest_even (Zpos m) (- e) with
        | Zpos n =>
            SpecFloat.binary_normalize prec emax
              (SpecFloat.cond_Zopp s (Zpos n)) 0 s
        | _ => SpecFloat.S754_zero s
        end
  | _ => x
  end.

Fixpoint times_ten (k : nat) (x : float64) : float64 :=
  match k with
  | O => x
  | S k' => times_ten k' (mul x (of_int 10))
  end.

(** numpy's [power_of_ten(n)], for [0 <= n]: read from a table below
    [10 ^ 9], and [1e9] multiplied by ten [n - 9] times from there on. *)
Definition power_of_ten (n : Z) : float64 :=
  if n <? 9 then of_int (10 ^ n)
  else times_ten (Z.to_nat (n - 9)) (of_int (10 ^ 9)).

(** [Series.round(decimals)] on a float64 column, which is numpy's
    [round]: [rint] alone for no decimals; otherwise multiply by the power
    of ten, [rint], divide (divide, [rint], multiply for negative
    [decimals]). *)
Definition round (decimals : Z) (x : float64) : float64 :=
  if 0 <=? decimals then
    if decimals =? 0 then rint x
    else
      let f := power_of_ten decimals in
      div (rint (mul x f)) f
  else
    let f := power_of_ten (- decimals) in
    mul (rint (div x f)) f.

(** The amount columns of an ingested row, and of a transformed one. *)
Record RawAmounts := {
  Invoice_Amount : float64;
  Actual_Paid_Amount : float64
}.

Record Amounts := {
  raw : RawAmounts;
  Invoice_Delta : float64
}.

(** The three assignments of [transform_invoices] to the amount
    columns. *)
Definition transform_row (settings : SettingsConfig) (r : RawAmounts)
  : Amounts :=
  let invoice_amount := fillna zero (Invoice_Amount r) in
  let actual_paid_amount := fillna zero (Actual_Paid_Amount r) in
  let working := {|
    Invoice_Amount := invoice_amount;
    Actual_Paid_Amount := actual_paid_amount
  |} in
  {| raw := working;
     Invoice_Delta :=
       round (round_decimals settings)
         (sub (Invoice_Amount working) (Actual_Paid_Amount working)) |}.

Definition transform_invoices (df : list RawAmounts)
    (settings : SettingsConfig) : list Amounts :=
  map (transform_row settings) df.

(** Both amounts are infinite, with the same sign. *)
Definition same_infinity (a b : float64) : Prop :=
  exists negative, a = inf negative /\ b = inf negative.

End Float64.

(** ** Shortage evaluation ([src/shortage_logic.py]) *)

(** [normalized_status.isin(allowed_statuses)]: a missing status is in no
    set. *)
Definition isin (c : option string) (allowed : gset string) : bool :=
  match c with
  | Some s => bool_decide (s ∈ allowed)
  | None => false
  end.

(** The local [payment_due] of [apply_shortage_logic]. *)
Definition shortage_payment_due (c : date_cell) : option date :=
  to_datetime true c.

(** [(today_value - payment_due).dt.days]: missing for NaT. *)
Definition days_between (today : date) (due : option date) : option Z :=
  option_map (fun d => Calendar.toordinal today - Calendar.toordinal d) due.

(** [.clip(lower=0).fillna(0).astype(int)]. *)
Definition clip_fill (days : option Z) : Z :=
  default 0 (option_map (Z.max 0) days).

Definition shortage_row (today : date) (settings : SettingsConfig)
    (rules : RulesConfig) (r : TransformedRow) : FlaggedRow :=
  let tolerance := tolerance_small_delta_usd settings in
  let normalized_status := option_map Str.upper (Invoice_Status (raw r)) in
  let allowed_statuses : gset string := list_to_set (eligible_statuses rules) in
  let shortage_condition :=
    Float.gt_cell (Invoice_Delta r) tolerance
    && (Any_Deductions (raw r) || Child_Invoice_Present r)
    && isin normalized_status allowed_statuses in
  let payment_due := shortage_payment_due (Payment_Due_Date (raw r)) in
  let days_past_due := clip_fill (days_between today payment_due) in
  {| transformed := r;
     Shortage_Flag := shortage_condition;
     Shortage_Amount_USD :=
       if shortage_condition then Invoice_Delta r else Some 0%Q;
     Days_Past_Due := days_past_due;
     Age_Bucket :=
       if aging_days_threshold settings <? days_past_due
       then "Aged" else "Current" |}.

Definition apply_shortage_logic (today : date) (df : list TransformedRow)
    (settings : SettingsConfig) (rules : RulesConfig) : list FlaggedRow :=
  map (shortage_row today settings rules) df.

(** ** Quality gate ([src/quality.py]) *)

(** What [run_quality_checks] can raise. *)
Inductive exn :=
| ValueError (msg : string)
| SchemaErrors (failure_cases : list (string * string)).

(** The validator receives a reference to the caller's frame.  A check is a
    computation over that frame: it returns the frame as it leaves it, and
    either the exception it raised or its result. *)
Definition Check (A : Type) : Type :=
  list FlaggedRow -> list FlaggedRow * (exn + A).

#[export] Instance Check_ret : MRet Check := fun A x df => (df, inr x).

#[export] Instance Check_bind : MBind Check := fun A B f m df =>
  match m df with
  | (df', inl e) => (df', inl e)
  | (df', inr x) => f x df'
  end.

Definition raise {A : Type} (e : exn) : Check A := fun df => (df, inl e).

(** Reading the frame: [df.empty], [df[column]] and the like. *)
Definition read {A : Type} (f : list FlaggedRow -> A) : Check A :=
  fun df => (df, inr (f df)).

(** Writing the frame in place: an assignment such as [df[column] = ...]
    or [df.loc[i, column] = ...]. *)
Definition write (f : list FlaggedRow -> list FlaggedRow) : Check unit :=
  fun df => (f df, inr tt).

(** A cell of any column, as the schema sees it. *)
Inductive cell :=
| CDate (c : date_cell)
| CStr (c : option string)
| CFloat (c : option Q)
| CBool (b : bool)
| CInt (c : option Z).

(** The columns of an evaluated row, by name.  Each cell has the type of
    its field, which is the dtype the schema of the gate expects: the
    dtype check of the schema cannot fail on a frame of such rows. *)
Definition columns (r : FlaggedRow) : list (string * cell) :=
  let t := transformed r in
  let w := raw t in
  [ ("Invoice Date", CDate (Invoice_Date w));
    ("Payment Due Date", CDate (Payment_Due_Date w));
    ("Invoice Status", CStr (Invoice_Status w));
    ("Actual Paid Amount", CFloat (Actual_Paid_Amount w));
    ("Paid Amount Currency", CStr (Paid_Amount_Currency w));
    ("Invoice Creation Date", CDate (Invoice_Creation_Date w));
    ("Randomized Invoice", CStr (Randomized_Invoice w));
    ("Invoice Amount", CFloat (Invoice_Amount w));
    ("Invoice Currency", CStr (Invoice_Currency w));
    ("Any Deductions", CBool (Any_Deductions w));
    ("Randomized Latest Child Invoice",
      CStr (Randomized_Latest_Child_Invoice w));
    ("Randomized PO", CStr (Randomized_PO w));
    ("Invoice_Delta", CFloat (Invoice_Delta t));
    ("Child_Invoice_Present", CBool (Child_Invoice_Present t));
    ("Payment_Year", CInt (Payment_Year t));
    ("Shortage_Flag", CBool (Shortage_Flag r));
    ("Shortage_Amount_USD", CFloat (Shortage_Amount_USD r));
    ("Days_Past_Due", CInt (Some (Days_Past_Due r)));
    ("Age_Bucket", CStr (Some (Age_Bucket r))) ].

Fixpoint assoc {A : Type} (name : string) (l : list (string * A)) : option A :=
  match l with
  | [] => None
  | (k, v) :: rest => if String.eqb name k then Some v else assoc name rest
  end.

Definition column (name : string) (r : FlaggedRow) : option cell :=
  assoc name (columns r).

Module Pandera.

Inductive dtype := Object | String | Float | Bool | Int64.

(** The one check the schema uses: [Check.ge(0)]. *)
Inductive check := ge (bound : Z).

Record Column := {
  col_dtype : dtype;
  nullable : bool;
  checks : list check
}.

(** [pa.DataFrameSchema(columns, strict=..., name=...)]. *)
Record DataFrameSchema := {
  schema_columns : list (string * Column);
  strict : bool;
  schema_name : string
}.

Definition is_null (c : cell) : bool :=
  match c with
  | CDate DateNull => true
  | CStr None | CFloat None | CInt None => true
  | _ => false
  end.

Definition has_dtype (t : dtype) (c : cell) : bool :=
  match t, c with
  | Object, CDate _ | String, CStr _ | Float, CFloat _
  | Bool, CBool _ | Int64, CInt _ => true
  | _, _ => false
  end.

(** A check holds of a cell; missing values are not checked. *)
Definition holds (k : check) (c : cell) : bool :=
  match k, c with
  | ge b, CFloat x => Float.ge_cell x (inject_Z b)
  | ge b, CInt (Some n) => b <=? n
  | ge b, CInt None => true
  | ge b, _ => false
  end.

(** The names under which failures are reported. *)
Definition dtype_name (t : dtype) : string :=
  match t with
  | Object => "object"
  | String => "str"
  | Float => "float64"
  | Bool => "bool"
  | Int64 => "int64"
  end.

Definition check_name (k : check) : string :=
  match k with
  | ge b =>
      "greater_than_or_equal_to(" ++ NilZero.string_of_int (Z.to_int b) ++ ")"
  end.

(** The failures of one column of the frame against the schema column that
    describes it.  A column the frame lacks is one failure, reported under
    the name of the schema; so is a column of another dtype, under its own
    name; every missing value of a column that is not nullable and every
    value a check refuses is a failure of its own. *)
Definition column_failures (schema : string) (name : string) (col : Column)
    (df : list FlaggedRow) : list (string * string) :=
  match mapM (column name) df with
  | None => [(schema, "column_in_dataframe")]
  | Some cells =>
      (if forallb (has_dtype (col_dtype col)) cells then []
       else [(name, "dtype('" ++ dtype_name (col_dtype col) ++ "')")])
      ++ (if nullable col then []
          else flat_map
                 (fun v => if is_null v then [(name, "not_nullable")] else [])
                 cells)
      ++ flat_map
           (fun k =>
              flat_map
                (fun v => if holds k v then [] else [(name, check_name k)])
                cells)
           (checks col)
  end.

(** [schema.validate(df, lazy=True)]: every failure is collected, column
    by column.  With [strict=False] the columns of the frame the schema
    does not name are left alone. *)
Definition failures (schema : DataFrameSchema) (df : list FlaggedRow)
  : list (string * string) :=
  flat_map
    (fun '(name, col) => column_failures (schema_name schema) name col df)
    (schema_columns schema).

Definition validate (schema : DataFrameSchema) : Check unit :=
  fs ← read (failures schema);
  match fs with
  | [] => mret tt
  | _ => raise (SchemaErrors fs)
  end.

End Pandera.

Definition _build_schema (settings : SettingsConfig) : Pandera.DataFrameSchema :=
  let col t n ks := Pandera.Build_Column t n ks in
  {| Pandera.schema_columns :=
       [ ("Invoice Date", col Pandera.Object false []);
         ("Payment Due Date", col Pandera.Object false []);
         ("Invoice Status", col Pandera.String false []);
         ("Actual Paid Amount", col Pandera.Float false [Pandera.ge 0]);
         ("Paid Amount Currency", col Pandera.String false []);
         ("Invoice Creation Date", col Pandera.Object false []);
         ("Randomized Invoice", col Pandera.String false []);
         ("Invoice Amount", col Pandera.Float false [Pandera.ge 0]);
         ("Invoice Currency", col Pandera.String false []);
         ("Any Deductions", col Pandera.Bool false []);
         ("Randomized PO", col Pandera.String false []);
         ("Invoice_Delta", col Pandera.Float false []);
         ("Child_Invoice_Present", col Pandera.Bool false []);
         ("Payment_Year", col Pandera.Int64 true []);
         ("Shortage_Flag", col Pandera.Bool false []);
         ("Shortage_Amount_USD", col Pandera.Float false []);
         ("Days_Past_Due", col Pandera.Int64 false [Pandera.ge 0]);
         ("Age_Bucket", col Pandera.String false []) ];
     Pandera.strict := false;
     Pandera.schema_name := "ShortageDataFrame" |}.

(** [series.str.upper() == expected_upper] as a mask: a missing value
    equals nothing.  That is how the comparison selects rows and how an
    object column compares; on a ['string'] column the comparison of a
    missing value is [NA], which [.all()] skips.  The gate reaches its
    currency check only once the schema has found every currency present,
    and properties of the check alone are stated for present currencies. *)
Definition upper_eq (c : option string) (expected_upper : string) : bool :=
  match c with
  | Some s => String.eqb (Str.upper s) expected_upper
  | None => false
  end.

Definition _validate_currency (expected_currency : string) : Check unit :=
  let expected_upper := Str.upper expected_currency in
  paid_valid ← read (map (fun r =>
    upper_eq (Paid_Amount_Currency (raw (transformed r))) expected_upper));
  invoice_valid ← read (map (fun r =>
    upper_eq (Invoice_Currency (raw (transformed r))) expected_upper));
  if negb (forallb (fun '(p, i) => p && i) (combine paid_valid invoice_valid))
  then raise (ValueError "Non-compliant currency detected during quality checks.")
  else mret tt.

(** The three date columns, in the order the validator visits them. *)
Definition date_columns : list (string * (RawRow -> date_cell)) :=
  [ ("Invoice Date", Invoice_Date);
    ("Payment Due Date", Payment_Due_Date);
    ("Invoice Creation Date", Invoice_Creation_Date) ].

(** [df.empty]: no rows. *)
Definition df_empty (df : list FlaggedRow) : bool :=
  match df with
  | [] => true
  | _ :: _ => false
  end.

(** [isna()] on a parsed date: NaT. *)
Definition isna (d : option date) : bool :=
  match d with
  | Some _ => false
  | None => true
  end.

Definition is_future (today : date) (d : option date) : bool :=
  match d with
  | Some x => Calendar.date_gt x today
  | None => false
  end.

(** The body of the loop of [_validate_dates] for one column. *)
Definition validate_date_column (today_value : date)
    (col : string * (RawRow -> date_cell)) : Check unit :=
  let '(column, get) := col in
  parsed ← read (map (fun r => to_datetime false (get (raw (transformed r)))));
  if existsb isna parsed
  then raise (ValueError ("Invalid date values found in column " ++ column))
  else if existsb (is_future today_value) parsed
  then raise (ValueError ("Future-dated values found in column " ++ column))
  else mret tt.

Fixpoint for_each {A : Type} (body : A -> Check unit) (l : list A) : Check unit :=
  match l with
  | [] => mret tt
  | x :: rest => body x ;; for_each body rest
  end.

Definition _validate_dates (today : date) : Check unit :=
  let today_value := today in
  for_each (validate_date_column today_value) date_columns.

Definition run_quality_checks (today : date) (settings : SettingsConfig)
    (rules : RulesConfig) : Check unit :=
  empty ← read df_empty;
  if empty : bool
  then raise (ValueError "Quality check failed: dataframe is empty.")
  else
    let schema := _build_schema settings in
    (Pandera.validate schema ;;
     _validate_currency (currency_expected settings) ;;
     _validate_dates today : Check unit).

(** ** Aggregation ([src/analytics.py]) *)

Module GroupBy.

(** Puts a key at its place in an ascending list without repeats. *)
Fixpoint insert_key (k : Z) (ks : list Z) : list Z :=
  match ks with
  | [] => [k]
  | k' :: rest =>
      if k <? k' then k :: ks
      else if k =? k' then ks
      else k' :: insert_key k rest
  end.

(** The group keys of [groupby(key, dropna=True)] (with the default
    [sort=True]): the distinct keys present, ascending; rows whose key is
    missing belong to no group. *)
Definition keys {A : Type} (key : A -> option Z) (rows : list A) : list Z :=
  foldr insert_key [] (omap key rows).

(** The rows of the group of key [k], in frame order. *)
Definition members {A : Type} (key : A -> option Z) (rows : list A) (k : Z)
  : list A :=
  filter (fun r => key r = Some k) rows.

(** [groupby(...).agg(...).reset_index()]: one output row per group. *)
Definition agg {A B : Type} (key : A -> option Z) (f : Z -> list A -> B)
    (rows : list A) : list B :=
  map (fun k => f k (members key rows k)) (keys key rows).

End GroupBy.

(** Column aggregations. *)
Module Agg.

(** ["sum"] on a boolean column. *)
Definition sum_bool {A : Type} (col : A -> bool) (rows : list A) : Z :=
  Z.of_nat (length (filter (fun r => col r = true) rows)).

(** ["count"]: the cells that are not missing. *)
Definition count {A B : Type} (col : A -> option B) (rows : list A) : Z :=
  Z.of_nat (length (filter (fun r => is_Some (col r)) rows)).

(** ["sum"] on a float column. *)
Definition sum {A : Type} (col : A -> option Q) (rows : list A) : Q :=
  Float.sum (map col rows).

(** ["mean"] on a float column: NaN when every cell is missing. *)
Definition mean {A : Type} (col : A -> option Q) (rows : list A) : option Q :=
  let n := count col rows in
  if n =? 0 then None else Some (sum col rows / inject_Z n)%Q.

End Agg.

Module TotalShortage.
Record row := { Shortage_Count : Z; Total_Shortage_USD : Q }.
End TotalShortage.

Module AnnualShortages.
Record row := {
  Payment_Year : Z;
  Shortage_Count : Z;
  Total_Shortage_USD : Q;
  Mean_Shortage_USD : option Q
}.
End AnnualShortages.

Module AgedShortages.
Record row := {
  Payment_Year : Z;
  Shortage_Count : Z;
  Total_Shortage_USD : Q
}.
End AgedShortages.

Module AgedInvoices.
Record row := {
  Payment_Year : Z;
  Invoice_Count : Z;
  Shortage_Count : Z;
  Total_Invoice_USD : Q;
  Total_Shortage_USD : Q
}.
End AgedInvoices.

(** The dictionary [compute_kpis] returns, one field per key. *)
Record KpiTables := {
  total_shortage : list TotalShortage.row;
  annual_shortages : list AnnualShortages.row;
  aged_shortages_by_year : list AgedShortages.row;
  aged_invoices_by_year : list AgedInvoices.row
}.

Definition payment_year (r : FlaggedRow) : option Z :=
  Payment_Year (transformed r).

Definition invoice_amount (r : FlaggedRow) : option Q :=
  Invoice_Amount (raw (transformed r)).

Definition randomized_invoice (r : FlaggedRow) : option string :=
  Randomized_Invoice (raw (transformed r)).

Definition is_aged (r : FlaggedRow) : Prop := Age_Bucket r = "Aged".

Definition compute_kpis (df : list FlaggedRow) (settings : SettingsConfig)
  : KpiTables :=
  let decimals := round_decimals settings in
  let shortage_df := filter (fun r => Shortage_Flag r = true) df in
  let total_shortage_amount :=
    Float.round decimals (Agg.sum Shortage_Amount_USD shortage_df) in
  let total_shortage :=
    [ {| TotalShortage.Shortage_Count := Z.of_nat (length shortage_df);
         TotalShortage.Total_Shortage_USD := total_shortage_amount |} ] in
  let annual_shortages :=
    GroupBy.agg payment_year
      (fun y g =>
         {| AnnualShortages.Payment_Year := y;
            AnnualShortages.Shortage_Count := Agg.sum_bool Shortage_Flag g;
            AnnualShortages.Total_Shortage_USD := Agg.sum Shortage_Amount_USD g;
            AnnualShortages.Mean_Shortage_USD := Agg.mean Shortage_Amount_USD g |})
      shortage_df in
  let annual_shortages :=
    map (fun t =>
           {| AnnualShortages.Payment_Year := AnnualShortages.Payment_Year t;
              AnnualShortages.Shortage_Count := AnnualShortages.Shortage_Count t;
              AnnualShortages.Total_Shortage_USD :=
                Float.round decimals (AnnualShortages.Total_Shortage_USD t);
              AnnualShortages.Mean_Shortage_USD :=
                Float.round_cell decimals (AnnualShortages.Mean_Shortage_USD t) |})
        annual_shortages in
  let aged_shortages := filter is_aged shortage_df in
  let aged_shortages_by_year :=
    GroupBy.agg payment_year
      (fun y g =>
         {| AgedShortages.Payment_Year := y;
            AgedShortages.Shortage_Count := Agg.sum_bool Shortage_Flag g;
            AgedShortages.Total_Shortage_USD := Agg.sum Shortage_Amount_USD g |})
      aged_shortages in
  let aged_shortages_by_year :=
    map (fun t =>
           {| AgedShortages.Payment_Year := AgedShortages.Payment_Year t;
              AgedShortages.Shortage_Count := AgedShortages.Shortage_Count t;
              AgedShortages.Total_Shortage_USD :=
                Float.round decimals (AgedShortages.Total_Shortage_USD t) |})
        aged_shortages_by_year in
  let aged_invoices := filter is_aged df in
  let aged_invoices_by_year :=
    GroupBy.agg payment_year
      (fun y g =>
         {| AgedInvoices.Payment_Year := y;
            AgedInvoices.Invoice_Count := Agg.count randomized_invoice g;
            AgedInvoices.Shortage_Count := Agg.sum_bool Shortage_Flag g;
            AgedInvoices.Total_Invoice_USD := Agg.sum invoice_amount g;
            AgedInvoices.Total_Shortage_USD := Agg.sum Shortage_Amount_USD g |})
      aged_invoices in
  let aged_invoices_by_year :=
    match aged_invoices_by_year with
    | [] => aged_invoices_by_year
    | _ :: _ =>
        map (fun t =>
               {| AgedInvoices.Payment_Year := AgedInvoices.Payment_Year t;
                  AgedInvoices.Invoice_Count := AgedInvoices.Invoice_Count t;
                  AgedInvoices.Shortage_Count := AgedInvoices.Shortage_Count t;
                  AgedInvoices.Total_Invoice_USD :=
                    Float.round decimals (AgedInvoices.Total_Invoice_USD t);
                  AgedInvoices.Total_Shortage_USD :=
                    Float.round decimals (AgedInvoices.Total_Shortage_USD t) |})
            aged_invoices_by_year
    end in
  {| total_shortage := total_shortage;
     annual_shortages := annual_shortages;
     aged_shortages_by_year := aged_shortages_by_year;
     aged_invoices_by_year := aged_invoices_by_year |}.

(** ** Fixtures of the test suite ([tests/]) *)

Module Fixtures.

(** [_settings()] of the tests. *)
Definition settings : SettingsConfig :=
  {| input_raw_dir := "data/raw";
     output_processed_dir := "data/processed";
     date_format := "dayfirst";
     aging_days_threshold := 90;
     currency_expected := "USD";
     round_decimals := 2;
     partition_by_year := true;
     tolerance_small_delta_usd := 0.01 |}.

(** The same settings with a month-first date convention. *)
Definition settings_monthfirst : SettingsConfig :=
  {| input_raw_dir := "data/raw";
     output_processed_dir := "data/processed";
     date_format := "monthfirst";
     aging_days_threshold := 90;
     currency_expected := "USD";
     round_decimals := 2;
     partition_by_year := true;
     tolerance_small_delta_usd := 0.01 |}.

(** [_rules()] of the tests. *)
Definition rules : RulesConfig :=
  {| eligible_statuses :=
       [ "PAID"; "PAID_PRICE_DISCREPANCY";
         "PROCESSING_PENDING_AMAZON_ACTION"; "QUEUED_FOR_PAYMENT" ];
     shortage_required_flags := ["Any Deductions"; "Child_Invoice_Present"];
     use_strict_currency_check := true |}.

(** The day the examples are evaluated on, and days around it. *)
Definition today : date := Date 2024 6 15.
Definition tomorrow : date := Date 2024 6 16.
Definition five_days_ago : date := Date 2024 6 10.
Definition ten_days_ago : date := Date 2024 6 5.
Definition hundred_days_ago : date := Date 2024 3 7.

(** The row of [_valid_dataframe()] in [tests/test_quality.py], with the
    payment due date left open. *)
Definition valid_row (due : date_cell) : FlaggedRow :=
  {| transformed :=
       {| raw :=
            {| Invoice_Date := DateValue today;
               Payment_Due_Date := due;
               Invoice_Status := Some "PAID";
               Actual_Paid_Amount := Some 95%Q;
               Paid_Amount_Currency := Some "USD";
               Invoice_Creation_Date := DateValue ten_days_ago;
               Randomized_Invoice := Some "INV-001";
               Invoice_Amount := Some 100%Q;
               Invoice_Currency := Some "USD";
               Any_Deductions := true;
               Randomized_Latest_Child_Invoice := None;
               Randomized_PO := Some "PO-123" |};
          Invoice_Delta := Some 5%Q;
          Child_Invoice_Present := false;
          Payment_Year := Some 2024 |};
     Shortage_Flag := true;
     Shortage_Amount_USD := Some 5%Q;
     Days_Past_Due := 5;
     Age_Bucket := "Current" |}.

Definition valid_dataframe : list FlaggedRow :=
  [valid_row (DateValue five_days_ago)].

Definition future_dataframe : list FlaggedRow :=
  [valid_row (DateValue tomorrow)].

(** [df.loc[i, "Payment Due Date"] = due], the assignment by which
    [test_quality_checks_fail_for_future_dates] prepares its frame. *)
Definition set_payment_due_date (due : date_cell) (r : FlaggedRow)
  : FlaggedRow :=
  let t := transformed r in
  let w := raw t in
  {| transformed :=
       {| raw :=
            {| Invoice_Date := Invoice_Date w;
               Payment_Due_Date := due;
               Invoice_Status := Invoice_Status w;
               Actual_Paid_Amount := Actual_Paid_Amount w;
               Paid_Amount_Currency := Paid_Amount_Currency w;
               Invoice_Creation_Date := Invoice_Creation_Date w;
               Randomized_Invoice := Randomized_Invoice w;
               Invoice_Amount := Invoice_Amount w;
               Invoice_Currency := Invoice_Currency w;
               Any_Deductions := Any_Deductions w;
               Randomized_Latest_Child_Invoice :=
                 Randomized_Latest_Child_Invoice w;
               Randomized_PO := Randomized_PO w |};
          Invoice_Delta := Invoice_Delta t;
          Child_Invoice_Present := Child_Invoice_Present t;
          Payment_Year := Payment_Year t |};
     Shortage_Flag := Shortage_Flag r;
     Shortage_Amount_USD := Shortage_Amount_USD r;
     Days_Past_Due := Days_Past_Due r;
     Age_Bucket := Age_Bucket r |}.

Definition loc_set_payment_due_date (i : nat) (due : date_cell) : Check unit :=
  write (alter (set_payment_due_date due) i).

(** A raw row: amounts, child invoice and due date vary. *)
Definition raw_row (amount paid : option Q) (child : option string)
    (due : date_cell) : RawRow :=
  {| Invoice_Date := DateValue ten_days_ago;
     Payment_Due_Date := due;
     Invoice_Status := Some "Paid";
     Actual_Paid_Amount := paid;
     Paid_Amount_Currency := Some "USD";
     Invoice_Creation_Date := DateValue ten_days_ago;
     Randomized_Invoice := Some "INV-1";
     Invoice_Amount := amount;
     Invoice_Currency := Some "USD";
     Any_Deductions := true;
     Randomized_Latest_Child_Invoice := child;
     Randomized_PO := Some "PO-1" |}.

(** A transformed row as [tests/test_shortage_logic.py] builds them. *)
Definition transformed_row (delta : option Q) (deductions child : bool)
    (status : option string) (due : date_cell) : TransformedRow :=
  {| raw :=
       {| Invoice_Date := DateNull;
          Payment_Due_Date := due;
          Invoice_Status := status;
          Actual_Paid_Amount := None;
          Paid_Amount_Currency := None;
          Invoice_Creation_Date := DateNull;
          Randomized_Invoice := None;
          Invoice_Amount := None;
          Invoice_Currency := None;
          Any_Deductions := deductions;
          Randomized_Latest_Child_Invoice := None;
          Randomized_PO := None |};
     Invoice_Delta := delta;
     Child_Invoice_Present := child;
     Payment_Year := None |}.

(** An evaluated row as [tests/test_analytics.py] builds them. *)
Definition evaluated_row (y : option Z) (flag : bool) (shortage amount : Q)
    (invoice : option string) (bucket : string) : FlaggedRow :=
  {| transformed :=
       {| raw :=
            {| Invoice_Date := DateNull;
               Payment_Due_Date := DateNull;
               Invoice_Status := None;
               Actual_Paid_Amount := None;
               Paid_Amount_Currency := None;
               Invoice_Creation_Date := DateNull;
               Randomized_Invoice := invoice;
               Invoice_Amount := Some amount;
               Invoice_Currency := None;
               Any_Deductions := false;
               Randomized_Latest_Child_Invoice := None;
               Randomized_PO := None |};
          Invoice_Delta := None;
          Child_Invoice_Present := false;
          Payment_Year := y |};
     Shortage_Flag := flag;
     Shortage_Amount_USD := Some shortage;
     Days_Past_Due := 0;
     Age_Bucket := bucket |}.

(** The frame of [test_compute_kpis_produces_aged_invoice_summary]. *)
Definition kpi_dataframe : list FlaggedRow :=
  [ evaluated_row (Some 2023) true 10 110 (Some "INV-1") "Aged";
    evaluated_row (Some 2024) false 0 120 (Some "INV-2") "Aged" ].

End Fixtures.

(** ** Vocabulary of the statements *)

(** The aged records of payment year [y]. *)
Definition aged_of_year (df : list FlaggedRow) (y : Z) : list FlaggedRow :=
  filter (fun r => payment_year r = Some y /\ is_aged r) df.

(** The row [compute_kpis] builds for the group [g] of year [y] in the
    table of aged invoices, totals rounded. *)
Definition aged_invoice_row (decimals : Z) (y : Z) (g : list FlaggedRow)
  : AgedInvoices.row :=
  {| AgedInvoices.Payment_Year := y;
     AgedInvoices.Invoice_Count := Agg.count randomized_invoice g;
     AgedInvoices.Shortage_Count := Agg.sum_bool Shortage_Flag g;
     AgedInvoices.Total_Invoice_USD :=
       Float.round decimals (Agg.sum invoice_amount g);
     AgedInvoices.Total_Shortage_USD :=
       Float.round decimals (Agg.sum Shortage_Amount_USD g) |}.

(** The settings with another [date_format], everything else unchanged. *)
Definition with_date_format (fmt : string) (s : SettingsConfig)
  : SettingsConfig :=
  {| input_raw_dir := input_raw_dir s;
     output_processed_dir := output_processed_dir s;
     date_format := fmt;
     aging_days_threshold := aging_days_threshold s;
     currency_expected := currency_expected s;
     round_decimals := round_decimals s;
     partition_by_year := partition_by_year s;
     tolerance_small_delta_usd := tolerance_small_delta_usd s |}.

(** A check that leaves the frame as it found it. *)
Definition read_only {A : Type} (m : Check A) : Prop :=
  forall df, fst (m df) = df.

(** A date that fails the check of a column: it cannot be read, or it is
    later than today. *)
Definition bad_date (today : date) (c : date_cell) : Prop :=
  to_datetime false c = None
  \/ exists d, to_datetime false c = Some d /\ Calendar.date_gt d today = true.

(** ** Ingestion helpers ([src/io.py]) *)

Module Io.

Definition EXPECTED_COLUMNS : list string :=
  [ "Marketplace"; "Invoice Date"; "Payment Due Date"; "Invoice Status";
    "Actual Paid Amount"; "Paid Amount Currency"; "Payee";
    "Invoice Creation Date"; "Randomized Invoice"; "Invoice Amount";
    "Invoice Currency"; "Any Deductions"; "Quantity Variance Amount";
    "Price Variance Amount"; "Quick Pay Discount Amount";
    "Randomized Latest Child Invoice"; "Randomized PO" ].

Definition REQUIRED_COLUMNS : list string :=
  [ "Invoice Date"; "Payment Due Date"; "Invoice Status";
    "Actual Paid Amount"; "Paid Amount Currency"; "Invoice Creation Date";
    "Randomized Invoice"; "Invoice Amount"; "Invoice Currency";
    "Any Deductions"; "Randomized PO" ].

Definition TRUE_VALUES : list string := ["true"; "t"; "yes"; "y"; "1"; "on"].
Definition FALSE_VALUES : list string := ["false"; "f"; "no"; "n"; "0"; "off"].

(** What a cell of the boolean column holds when [_to_bool] sees it: the
    column is read as text, so a text or a missing value; a boolean when
    the frame was built by hand. *)
Inductive value :=
| VBool (b : bool)
| VNA
| VStr (s : string).

(** [_to_bool]. *)
Definition _to_bool (v : value) : exn + bool :=
  match v with
  | VBool b => inr b
  | VNA =>
      inl (ValueError "Encountered missing value in required boolean column.")
  | VStr s =>
      let normalized := Str.lower (Str.strip s) in
      if bool_decide (normalized ∈ TRUE_VALUES) then inr true
      else if bool_decide (normalized ∈ FALSE_VALUES) then inr false
      else inl (ValueError ("Cannot convert value '" ++ s ++ "' to boolean."))
  end.

(** The mask of [_filter_currency] for one row; a missing currency gives a
    missing comparison, which the selection treats as False. *)
Definition compliant_mask (expected_currency : string) (w : RawRow) : bool :=
  let mask_paid :=
    upper_eq (Paid_Amount_Currency w) (Str.upper expected_currency) in
  let mask_invoice :=
    upper_eq (Invoice_Currency w) (Str.upper expected_currency) in
  mask_paid && mask_invoice.

(** [_filter_currency]: the rows whose mask is True, renumbered. *)
Definition _filter_currency (df : list RawRow) (expected_currency : string)
  : list RawRow :=
  filter (fun w => compliant_mask expected_currency w = true) df.

(** [repr] of a text without quotes or escapes, and of a list of them. *)
Definition py_repr_str (s : string) : string := "'" ++ s ++ "'".

Fixpoint join (sep : string) (l : list string) : string :=
  match l with
  | [] => ""
  | [x] => x
  | x :: rest => x ++ sep ++ join sep rest
  end.

Definition py_repr_list (l : list string) : string :=
  "[" ++ join ", " (map py_repr_str l) ++ "]".

(** [_assert_required_columns]. *)
Definition _assert_required_columns (columns : list string) : exn + unit :=
  let missing :=
    filter (fun column => column ∉ columns) REQUIRED_COLUMNS in
  match missing with
  | [] => inr tt
  | _ :: _ =>
      inl (ValueError ("Missing required columns: " ++ py_repr_list missing))
  end.

(** A frame as ingestion handles it: a number of rows and named columns,
    in header order.  [V] is the type of the cells. *)
Record Frame (V : Type) := {
  nrows : nat;
  cols : list (string * list V)
}.

Arguments nrows {V} _.
Arguments cols {V} _.

(** [df.columns]. *)
Definition header {V : Type} (df : Frame V) : list string :=
  map fst (cols df).

(** [df[column] = value] for a column the frame does not have yet: a new
    last column, the value in every row. *)
Definition add_column {V : Type} (column : string) (v : V) (df : Frame V)
  : Frame V :=
  {| nrows := nrows df;
     cols := (cols df ++ [(column, replicate (nrows df) v)])%list |}.

(** [_add_missing_optional_columns]: the frame is updated in place, column
    after column. *)
Definition _add_missing_optional_columns {V : Type} (na : V) (df : Frame V)
  : Frame V :=
  foldl (fun df column =>
           if bool_decide (column ∈ header df) then df
           else add_column column na df)
        df EXPECTED_COLUMNS.

End Io.

(** ** Loading the rules ([src/utils.py]) *)

(** A YAML document as [yaml.safe_load] returns it. *)
#[local] Set Warnings "-register-all".
Inductive yaml :=
| YNull
| YBool (b : bool)
| YInt (n : Z)
| YFloat (q : option Q)
| YStr (s : string)
| YList (items : list yaml)
| YDict (entries : list (string * yaml)).
#[local] Set Warnings "register-all".

(** What is found at a path. *)
Inductive node :=
| File (text : string)
| Directory.

(** What loading a configuration can raise. *)
Inductive config_error :=
| FileNotFoundError (msg : string)
| IsADirectoryError (path : string)
| YAMLError (msg : string)
| ConfigValueError (msg : string)
| KeyError (key : string)
| TypeError (msg : string).

Module Utils.

(** Python's truth value of a document: [None], [False], zero, the empty
    text, the empty list and the empty mapping are false. *)
Definition truthy (v : yaml) : bool :=
  match v with
  | YNull => false
  | YBool b => b
  | YInt n => negb (n =? 0)
  | YFloat (Some q) => negb (Qeq_bool q 0)
  | YFloat None => true
  | YStr s => negb (String.eqb s "")
  | YList items => match items with [] => false | _ :: _ => true end
  | YDict entries => match entries with [] => false | _ :: _ => true end
  end.

Fixpoint chars (s : string) : list yaml :=
  match s with
  | EmptyString => []
  | String c rest => YStr (String c EmptyString) :: chars rest
  end.

(** What a [for] loop over a document visits: the items of a list, the
    characters of a text, the keys of a mapping; anything else is not
    iterable. *)
Definition iterate (v : yaml) : config_error + list yaml :=
  match v with
  | YList items => inr items
  | YStr s => inr (chars s)
  | YDict entries => inr (map (fun e => YStr (fst e)) entries)
  | YNull => inl (TypeError "'NoneType' object is not iterable")
  | YBool _ => inl (TypeError "'bool' object is not iterable")
  | YInt _ => inl (TypeError "'int' object is not iterable")
  | YFloat _ => inl (TypeError "'float' object is not iterable")
  end.

(** [raw[key]]. *)
Definition getitem (raw : list (string * yaml)) (key : string)
  : config_error + yaml :=
  match assoc key raw with
  | Some v => inr v
  | None => inl (KeyError key)
  end.

Section Loading.

(** The parser [yaml.safe_load] and the text [str] gives for a document
    that is not a text are taken as they are. *)
Variable safe_load : string -> config_error + yaml.
Variable str_of : yaml -> string.

(** [str(v)]. *)
Definition py_str (v : yaml) : string :=
  match v with
  | YStr s => s
  | _ => str_of v
  end.

(** [load_yaml]. *)
Definition load_yaml (fs : gmap string node) (path : string)
  : config_error + list (string * yaml) :=
  match fs !! path with
  | None => inl (FileNotFoundError ("Configuration file not found: " ++ path))
  | Some Directory => inl (IsADirectoryError path)
  | Some (File text) =>
      match safe_load text with
      | inl e => inl e
      | inr document =>
          let data := if truthy document then document else YDict [] in
          match data with
          | YDict entries => inr entries
          | _ => inl (ConfigValueError ("Unexpected YAML structure in " ++ path))
          end
      end
  end.

(** [load_rules]: the three fields are computed in the order of the
    constructor call. *)
Definition load_rules (fs : gmap string node) (path : string)
  : config_error + RulesConfig :=
  match load_yaml fs path with
  | inl e => inl e
  | inr raw =>
      match getitem raw "eligible_statuses" with
      | inl e => inl e
      | inr statuses_value =>
          match iterate statuses_value with
          | inl e => inl e
          | inr statuses =>
              match getitem raw "shortage_required_flags" with
              | inl e => inl e
              | inr flags_value =>
                  match iterate flags_value with
                  | inl e => inl e
                  | inr flags =>
                      match getitem raw "use_strict_currency_check" with
                      | inl e => inl e
                      | inr strict =>
                          inr {| eligible_statuses :=
                                   map (fun status => Str.upper (py_str status))
                                       statuses;
                                 shortage_required_flags := map py_str flags;
                                 use_strict_currency_check := truthy strict |}
                      end
                  end
              end
          end
      end
  end.

End Loading.

End Utils.

(** ** Exports ([src/io.py], [src/report.py]) and the pipeline
    ([src/pipeline.py]) *)

(** A table of [compute_kpis], whichever it is. *)
Inductive kpi_table :=
| TotalShortageTable (rows : list TotalShortage.row)
| AnnualShortagesTable (rows : list AnnualShortages.row)
| AgedShortagesTable (rows : list AgedShortages.row)
| AgedInvoicesTable (rows : list AgedInvoices.row).

(** The dictionary [compute_kpis] returns, by key. *)
Definition tables_dict (k : KpiTables) : gmap string kpi_table :=
  {[ "total_shortage" := TotalShortageTable (total_shortage k);
     "annual_shortages" := AnnualShortagesTable (annual_shortages k);
     "aged_shortages_by_year" := AgedShortagesTable (aged_shortages_by_year k);
     "aged_invoices_by_year" := AgedInvoicesTable (aged_invoices_by_year k) ]}.

(** What gets written. *)
Inductive dataset :=
| TransformedFrame (df : list TransformedRow)
| FlaggedFrame (df : list FlaggedRow)
| KpiTable (table : kpi_table).

(** The effects of the exports on the file system, in the order they
    happen.  Writes are taken to succeed. *)
Inductive event :=
| MakeDirs (path : string)
    (* [mkdir(parents=True, exist_ok=True)] *)
| RemoveExisting (path : string)
    (* [rmtree] or [unlink] of what is at the path, if anything *)
| ToParquet (path : string) (data : dataset)
| ToPartitionedParquet (path : string) (partition_col : string)
    (data : dataset)
| ToCsv (path : string) (data : dataset).

(** Why a run of the pipeline stops. *)
Inductive failure :=
| LoadFailed (e : config_error)
| IngestFailed (what : string)
| PipelineValueError (msg : string)
| GateFailed (e : exn).

Section Exports.

(** [pathlib]'s [/] and [.parent] are taken as they are. *)
Variable joinpath : string -> string -> string.
Variable parent : string -> string.

(** [ensure_directories]. *)
Definition ensure_directories (paths : list string) : list event :=
  map MakeDirs paths.

(** [io.write_parquet], [io.write_partitioned_parquet], [io.write_csv]:
    the effects, and the path returned. *)
Definition write_parquet (data : dataset) (output_path : string)
  : list event * string :=
  ((ensure_directories [parent output_path]
    ++ [ToParquet output_path data])%list,
   output_path).

Definition write_partitioned_parquet (data : dataset) (output_path : string)
    (partition_col : string) : list event * string :=
  ((ensure_directories [parent output_path]
    ++ [RemoveExisting output_path;
        ToPartitionedParquet output_path partition_col data])%list,
   output_path).

Definition write_csv (data : dataset) (output_path : string)
  : list event * string :=
  ((ensure_directories [parent output_path] ++ [ToCsv output_path data])%list,
   output_path).

(** [report.export_clean_dataset]. *)
Definition export_clean_dataset (df : list TransformedRow)
    (settings : SettingsConfig) : list event * string :=
  let target :=
    joinpath (output_processed_dir settings) "invoices_clean.parquet" in
  if partition_by_year settings
  then write_partitioned_parquet (TransformedFrame df) target "Payment_Year"
  else write_parquet (TransformedFrame df) target.

(** [report.export_shortage_outputs]. *)
Definition export_shortage_outputs (df : list FlaggedRow)
    (settings : SettingsConfig) : list event * list (string * string) :=
  let flagged_path :=
    joinpath (output_processed_dir settings) "shortages_flagged.parquet" in
  let shortages_only :=
    joinpath (output_processed_dir settings) "shortages_only.parquet" in
  let '(events1, _) := write_parquet (FlaggedFrame df) flagged_path in
  let shortage_records := filter (fun r => Shortage_Flag r = true) df in
  let '(events2, _) :=
    write_parquet (FlaggedFrame shortage_records) shortages_only in
  ((events1 ++ events2)%list,
   [("shortages_flagged", flagged_path); ("shortages_only", shortages_only)]).

(** The file of each table, in the order of the loop. *)
Definition mapping : list (string * string) :=
  [ ("total_shortage", "total_shortage.csv");
    ("annual_shortages", "annual_shortages.csv");
    ("aged_shortages_by_year", "aged_shortages_by_year.csv");
    ("aged_invoices_by_year", "aged_invoices_by_year.csv") ].

(** [report.export_analytics_tables]: the loop carries the effects so far
    and [output_paths]. *)
Definition export_analytics_tables (tables : gmap string kpi_table)
    (settings : SettingsConfig) : list event * list (string * string) :=
  foldl
    (fun '(events, output_paths) '(key, filename) =>
       match tables !! key with
       | None => (events, output_paths)
       | Some table =>
           let path := joinpath (output_processed_dir settings) filename in
           let '(written, _) := write_csv (KpiTable table) path in
           ((events ++ written)%list, (output_paths ++ [(key, path)])%list)
       end)
    ([], []) mapping.

(** What one turn of the loop of [export_analytics_tables] does for an
    entry of the mapping: the effects, and the entry of [output_paths]. *)
Definition csv_events (tables : gmap string kpi_table)
    (settings : SettingsConfig) (entry : string * string) : list event :=
  match tables !! fst entry with
  | None => []
  | Some table =>
      let path := joinpath (output_processed_dir settings) (snd entry) in
      [MakeDirs (parent path); ToCsv path (KpiTable table)]
  end.

Definition csv_path (tables : gmap string kpi_table)
    (settings : SettingsConfig) (entry : string * string)
  : option (string * string) :=
  match tables !! fst entry with
  | None => None
  | Some _ =>
      Some (fst entry, joinpath (output_processed_dir settings) (snd entry))
  end.

Section Pipeline.

(** The collaborators of [run_pipeline]: where the project is, the two
    configuration loaders, ingestion, and the clock. *)
Variable project_root : string.
Variable load_settings : string -> config_error + SettingsConfig.
Variable load_rules : string -> config_error + RulesConfig.
Variable ingest_invoices : SettingsConfig -> string + list RawRow.
Variable today : date.

(** [invoices_raw.empty]. *)
Definition raw_empty (df : list RawRow) : bool :=
  match df with
  | [] => true
  | _ :: _ => false
  end.

(** [run_pipeline]: the effects of the run, and the dictionary of paths it
    returns or what stopped it. *)
Definition run_pipeline : list event * (failure + list (string * string)) :=
  let root := project_root in
  match load_settings (joinpath (joinpath root "config") "settings.yaml") with
  | inl e => ([], inl (LoadFailed e))
  | inr settings =>
  match load_rules (joinpath (joinpath root "config") "rules.yaml") with
  | inl e => ([], inl (LoadFailed e))
  | inr rules =>
  let events0 := ensure_directories [output_processed_dir settings] in
  match ingest_invoices settings with
  | inl what => (events0, inl (IngestFailed what))
  | inr invoices_raw =>
  if raw_empty invoices_raw
  then (events0,
        inl (PipelineValueError "No invoice data available after ingestion."))
  else
    let invoices_transformed := transform_invoices invoices_raw settings in
    let invoices_flagged :=
      apply_shortage_logic today invoices_transformed settings rules in
    match run_quality_checks today settings rules invoices_flagged with
    | (_, inl e) => (events0, inl (GateFailed e))
    | (invoices_flagged, inr _) =>
        let '(events1, clean_path) :=
          export_clean_dataset invoices_transformed settings in
        let '(events2, shortage_paths) :=
          export_shortage_outputs invoices_flagged settings in
        let analytics_tables := compute_kpis invoices_flagged settings in
        let '(events3, analytics_paths) :=
          export_analytics_tables (tables_dict analytics_tables) settings in
        ((events0 ++ events1 ++ events2 ++ events3)%list,
         inr ((("clean_dataset", clean_path) :: shortage_paths)
              ++ analytics_paths)%list)
    end
  end end end.

End Pipeline.

End Exports.

(** An event that writes data. *)
Definition is_write (ev : event) : Prop :=
  match ev with
  | MakeDirs _ => False
  | _ => True
  end.

(** ** Vocabulary of the further properties *)

(** A currency cell that equals the expected currency, letter case apart. *)
Definition currency_matches (expected : string) (c : option string) : Prop :=
  exists s, c = Some s /\ Str.upper s = Str.upper expected.

(** Both currency columns of a row match the expected currency. *)
Definition currency_compliant (expected : string) (w : RawRow) : Prop :=
  currency_matches expected (Paid_Amount_Currency w)
  /\ currency_matches expected (Invoice_Currency w).

(** Neither currency of the row is missing. *)
Definition currencies_present (w : RawRow) : Prop :=
  Paid_Amount_Currency w <> None /\ Invoice_Currency w <> None.

(** The errors of the date check. *)
Definition date_error (e : exn) : Prop :=
  exists column,
    e = ValueError ("Invalid date values found in column " ++ column)
    \/ e = ValueError ("Future-dated values found in column " ++ column).

(** The error of the currency check. *)
Definition currency_error : exn :=
  ValueError "Non-compliant currency detected during quality checks.".

(** A text of ASCII characters only. *)
Definition ascii_text (s : string) : Prop :=
  Str.all_chars (fun c => (N_of_ascii c <? 128)%N) s = true.

(** A date cell the date check accepts: it can be read (month first, the
    default of [pd.to_datetime]) and is not later than today. *)
Definition date_ok (today : date) (c : date_cell) : Prop :=
  exists d, to_datetime false c = Some d /\ Calendar.date_gt d today = false.

(** Every row of the frame has an acceptable date in the column. *)
Definition column_clean (today : date) (col : string * (RawRow -> date_cell))
    (df : list FlaggedRow) : Prop :=
  Forall (fun r => date_ok today (snd col (raw (transformed r)))) df.

Definition dates_ok (today : date) (w : RawRow) : Prop :=
  date_ok today (Invoice_Date w)
  /\ date_ok today (Payment_Due_Date w)
  /\ date_ok today (Invoice_Creation_Date w).

(** A float cell that holds a value, and a non-negative one. *)
Definition present_nonneg (c : option Q) : Prop :=
  exists q, c = Some q /\ (0 <= q)%Q.

(** A cell that gives the schema column nothing to report. *)
Definition cell_passes (col : Pandera.Column) (v : cell) : bool :=
  Pandera.has_dtype (Pandera.col_dtype col) v
  && (Pandera.nullable col || negb (Pandera.is_null v))
  && forallb (fun k => Pandera.holds k v) (Pandera.checks col).

(** What the schema asks of the values of an evaluated row: the cells that
    must not be missing, and the amounts and day counts that must not be
    negative. *)
Definition schema_ok (r : FlaggedRow) : Prop :=
  let t := transformed r in
  let w := raw t in
  Invoice_Date w <> DateNull
  /\ Payment_Due_Date w <> DateNull
  /\ Invoice_Status w <> None
  /\ present_nonneg (Actual_Paid_Amount w)
  /\ Paid_Amount_Currency w <> None
  /\ Invoice_Creation_Date w <> DateNull
  /\ Randomized_Invoice w <> None
  /\ present_nonneg (Invoice_Amount w)
  /\ Invoice_Currency w <> None
  /\ Randomized_PO w <> None
  /\ Invoice_Delta t <> None
  /\ Shortage_Amount_USD r <> None
  /\ 0 <= Days_Past_Due r.

(** What is left of it for a raw row that will go through Transform and
    the shortage evaluation: its own cells, where a missing amount is no
    longer a failure. *)
Definition raw_schema_ok (w : RawRow) : Prop :=
  Invoice_Date w <> DateNull
  /\ Payment_Due_Date w <> DateNull
  /\ Invoice_Status w <> None
  /\ (forall q, Actual_Paid_Amount w = Some q -> (0 <= q)%Q)
  /\ Paid_Amount_Currency w <> None
  /\ Invoice_Creation_Date w <> DateNull
  /\ Randomized_Invoice w <> None
  /\ (forall q, Invoice_Amount w = Some q -> (0 <= q)%Q)
  /\ Invoice_Currency w <> None
  /\ Randomized_PO w <> None.

(** The row with another status, everything else unchanged. *)
Definition with_status (status : option string) (r : TransformedRow)
  : TransformedRow :=
  let w := raw r in
  {| raw :=
       {| Invoice_Date := Invoice_Date w;
          Payment_Due_Date := Payment_Due_Date w;
          Invoice_Status := status;
          Actual_Paid_Amount := Actual_Paid_Amount w;
          Paid_Amount_Currency := Paid_Amount_Currency w;
          Invoice_Creation_Date := Invoice_Creation_Date w;
          Randomized_Invoice := Randomized_Invoice w;
          Invoice_Amount := Invoice_Amount w;
          Invoice_Currency := Invoice_Currency w;
          Any_Deductions := Any_Deductions w;
          Randomized_Latest_Child_Invoice := Randomized_Latest_Child_Invoice w;
          Randomized_PO := Randomized_PO w |};
     Invoice_Delta := Invoice_Delta r;
     Child_Invoice_Present := Child_Invoice_Present r;
     Payment_Year := Payment_Year r |}.

(** The rules with another list of eligible statuses. *)
Definition with_eligible_statuses (statuses : list string) (rules : RulesConfig)
  : RulesConfig :=
  {| eligible_statuses := statuses;
     shortage_required_flags := shortage_required_flags rules;
     use_strict_currency_check := use_strict_currency_check rules |}.

(** The flagged records of payment year [y], and the aged ones among
    them. *)
Definition flagged_of_year (df : list FlaggedRow) (y : Z) : list FlaggedRow :=
  filter (fun r => payment_year r = Some y /\ Shortage_Flag r = true) df.

Definition aged_flagged_of_year (df : list FlaggedRow) (y : Z)
  : list FlaggedRow :=
  filter (fun r => payment_year r = Some y
                   /\ is_aged r /\ Shortage_Flag r = true) df.

(** The rows [compute_kpis] builds for a group of flagged records, totals
    and mean rounded. *)
Definition annual_shortage_row (decimals : Z) (y : Z) (g : list FlaggedRow)
  : AnnualShortages.row :=
  {| AnnualShortages.Payment_Year := y;
     AnnualShortages.Shortage_Count := Agg.sum_bool Shortage_Flag g;
     AnnualShortages.Total_Shortage_USD :=
       Float.round decimals (Agg.sum Shortage_Amount_USD g);
     AnnualShortages.Mean_Shortage_USD :=
       Float.round_cell decimals (Agg.mean Shortage_Amount_USD g) |}.

Definition aged_shortage_row (decimals : Z) (y : Z) (g : list FlaggedRow)
  : AgedShortages.row :=
  {| AgedShortages.Payment_Year := y;
     AgedShortages.Shortage_Count := Agg.sum_bool Shortage_Flag g;
     AgedShortages.Total_Shortage_USD :=
       Float.round decimals (Agg.sum Shortage_Amount_USD g) |}.

(** The sum of a column of counts. *)
Definition sum_counts (l : list Z) : Z := foldr Z.add 0 l.

(** Every record that is not flagged carries a shortage amount of zero, as
    the shortage evaluation leaves them. *)
Definition zero_when_unflagged (df : list FlaggedRow) : Prop :=
  Forall (fun r => Shortage_Flag r = false -> Shortage_Amount_USD r = Some 0%Q)
    df.

(** ** Further fixtures *)

Module MoreFixtures.

(** [df.loc[i, "Invoice Creation Date"] = d] on one row. *)
Definition set_invoice_creation_date (d : date_cell) (r : FlaggedRow)
  : FlaggedRow :=
  let t := transformed r in
  let w := raw t in
  {| transformed :=
       {| raw :=
            {| Invoice_Date := Invoice_Date w;
               Payment_Due_Date := Payment_Due_Date w;
               Invoice_Status := Invoice_Status w;
               Actual_Paid_Amount := Actual_Paid_Amount w;
               Paid_Amount_Currency := Paid_Amount_Currency w;
               Invoice_Creation_Date := d;
               Randomized_Invoice := Randomized_Invoice w;
               Invoice_Amount := Invoice_Amount w;
               Invoice_Currency := Invoice_Currency w;
               Any_Deductions := Any_Deductions w;
               Randomized_Latest_Child_Invoice :=
                 Randomized_Latest_Child_Invoice w;
               Randomized_PO := Randomized_PO w |};
          Invoice_Delta := Invoice_Delta t;
          Child_Invoice_Present := Child_Invoice_Present t;
          Payment_Year := Payment_Year t |};
     Shortage_Flag := Shortage_Flag r;
     Shortage_Amount_USD := Shortage_Amount_USD r;
     Days_Past_Due := Days_Past_Due r;
     Age_Bucket := Age_Bucket r |}.

(** A record that fails three checks at once: the paid amount is
    negative, the paid currency is not the expected one and the payment
    due date is tomorrow. *)
Definition bad_row : FlaggedRow :=
  {| transformed :=
       {| raw :=
            {| Invoice_Date := DateValue Fixtures.today;
               Payment_Due_Date := DateValue Fixtures.tomorrow;
               Invoice_Status := Some "PAID";
               Actual_Paid_Amount := Some (-1)%Q;
               Paid_Amount_Currency := Some "EUR";
               Invoice_Creation_Date := DateValue Fixtures.ten_days_ago;
               Randomized_Invoice := Some "INV-002";
               Invoice_Amount := Some 100%Q;
               Invoice_Currency := Some "USD";
               Any_Deductions := true;
               Randomized_Latest_Child_Invoice := None;
               Randomized_PO := Some "PO-124" |};
          Invoice_Delta := Some 101%Q;
          Child_Invoice_Present := false;
          Payment_Year := Some 2024 |};
     Shortage_Flag := true;
     Shortage_Amount_USD := Some 101%Q;
     Days_Past_Due := 0;
     Age_Bucket := "Current" |}.

(** A rules file, and the document its text parses to: the statuses are
    written in mixed case. *)
Definition rules_path : string := "config/rules.yaml".

Definition rules_document : yaml :=
  YDict
    [ ("eligible_statuses", YList [YStr "Paid"; YStr "queued_for_payment"]);
      ("shortage_required_flags",
        YList [YStr "Any Deductions"; YStr "Child_Invoice_Present"]);
      ("use_strict_currency_check", YBool true) ].

Definition rules_files : gmap string node :=
  {[ rules_path := File "eligible_statuses: [Paid, queued_for_payment]" ]}.

Definition parse (text : string) : config_error + yaml := inr rules_document.

Definition str_of (v : yaml) : string := "".

(** Collaborators for a run of the pipeline: a separator-joined [/], a
    parent taken as the text before the file name, loaders that return the
    fixtures of the tests, and an ingestion that delivers the given
    frame. *)
Definition joinpath (a b : string) : string := a ++ "/" ++ b.

Definition parent (p : string) : string := "data/processed".

Definition load_settings (path : string) : config_error + SettingsConfig :=
  inr Fixtures.settings.

Definition load_rules (path : string) : config_error + RulesConfig :=
  inr Fixtures.rules.

Definition ingest (df : list RawRow) (settings : SettingsConfig)
  : string + list RawRow :=
  inr df.

(** An ingested record that passes the gate: a shortage of five, due a
    hundred days ago. *)
Definition good_raw_row : RawRow :=
  Fixtures.raw_row (Some 105%Q) (Some 100%Q) None
    (DateValue Fixtures.hundred_days_ago).

(** An ingested record the gate refuses: it is due tomorrow. *)
Definition future_raw_row : RawRow :=
  Fixtures.raw_row (Some 105%Q) (Some 100%Q) None
    (DateValue Fixtures.tomorrow).

End MoreFixtures.

(** * Properties *)

(** ** Rows of a mapped frame *)

Lemma map_lookup {A B : Type} (f : A -> B) (l : list A) (i : nat) :
  map f l !! i = f <$> (l !! i).
Proof.
  revert i. induction l as [|x l IH]; intros [|i]; simpl; auto.
Qed.

Lemma map_lookup_Some {A B : Type} (f : A -> B) (l : list A) (i : nat) (y : B) :
  map f l !! i = Some y -> exists x, l !! i = Some x /\ y = f x.
Proof.
  rewrite map_lookup. destruct (l !! i) as [x|]; simpl; intros H.
  - exists x. split; congruence.
  - discriminate.
Qed.

(** ** Comparisons on float cells *)

Lemma gtb_lt (a b : Q) : Float.gtb a b = true <-> (b < a)%Q.
Proof.
  unfold Float.gtb. rewrite negb_true_iff. split.
  - intros H. apply Qnot_le_lt. intros Hle.
    apply Qle_bool_iff in Hle. congruence.
  - intros H. destruct (Qle_bool a b) eqn:E; auto.
    apply Qle_bool_iff in E. exfalso. exact (Qlt_not_le _ _ H E).
Qed.

Lemma gt_cell_iff (c : option Q) (v : Q) :
  Float.gt_cell c v = true <-> exists q, c = Some q /\ (v < q)%Q.
Proof.
  destruct c as [q|]; simpl.
  - rewrite gtb_lt. split.
    + intros H. exists q. auto.
    + intros (q' & Hq & Hlt). congruence.
  - split; [discriminate | intros (q & Hq & _); discriminate].
Qed.

Lemma isin_iff (c : option string) (l : list string) :
  isin c (list_to_set l) = true <-> exists s, c = Some s /\ s ∈ l.
Proof.
  destruct c as [s|]; simpl.
  - rewrite bool_decide_eq_true, elem_of_list_to_set. split.
    + intros H. exists s. auto.
    + intros (s' & Hs & Hin). congruence.
  - split; [discriminate | intros (s & Hs & _); discriminate].
Qed.

(** The shortage predicate of one row, spelled out. *)
Lemma shortage_row_flag (today : date) (settings : SettingsConfig)
    (rules : RulesConfig) (r : TransformedRow) :
  Shortage_Flag (shortage_row today settings rules r) = true <->
    (exists delta, Invoice_Delta r = Some delta
                   /\ (tolerance_small_delta_usd settings < delta)%Q)
    /\ (Any_Deductions (raw r) = true \/ Child_Invoice_Present r = true)
    /\ (exists status, Invoice_Status (raw r) = Some status
                       /\ Str.upper status ∈ eligible_statuses rules).
Proof.
  unfold shortage_row; simpl.
  rewrite !andb_true_iff, orb_true_iff, gt_cell_iff, isin_iff.
  split.
  - intros [[Hd Hf] (s & Hs & Hin)]. repeat split; auto.
    destruct (Invoice_Status (raw r)) as [status|]; simpl in Hs; [|discriminate].
    exists status. split; congruence.
  - intros (Hd & Hf & (status & Hs & Hin)). repeat split; auto.
    exists (Str.upper status). rewrite Hs. auto.
Qed.

(** C1. For every record of the frame, the evaluated record carries
    [Shortage_Flag = True] if and only if its delta is strictly greater than
    the configured tolerance, and the record has deductions or a child
    invoice, and its upper-cased status is one of the eligible statuses.  A
    delta equal to the tolerance is therefore never flagged. *)
Theorem shortage_flag_iff (today : date) (settings : SettingsConfig)
    (rules : RulesConfig) (df : list TransformedRow) (i : nat)
    (r : TransformedRow) :
  df !! i = Some r ->
  exists r',
    apply_shortage_logic today df settings rules !! i = Some r'
    /\ transformed r' = r
    /\ (Shortage_Flag r' = true <->
          (exists delta, Invoice_Delta r = Some delta
                         /\ (tolerance_small_delta_usd settings < delta)%Q)
          /\ (Any_Deductions (raw r) = true \/ Child_Invoice_Present r = true)
          /\ (exists status, Invoice_Status (raw r) = Some status
                             /\ Str.upper status ∈ eligible_statuses rules))
    /\ (forall delta, Invoice_Delta r = Some delta ->
                      (delta == tolerance_small_delta_usd settings)%Q ->
                      Shortage_Flag r' = false).
Proof.
  intros Hi. exists (shortage_row today settings rules r).
  unfold apply_shortage_logic. rewrite map_lookup, Hi. simpl.
  split; [reflexivity|]. split; [reflexivity|]. split.
  - apply (shortage_row_flag today settings rules r).
  - intros delta Hd Heq.
    destruct (Shortage_Flag (shortage_row today settings rules r)) eqn:E; auto.
    apply shortage_row_flag in E. destruct E as ((q & Hq & Hlt) & _).
    assert (q = delta) by congruence. subst q.
    rewrite Heq in Hlt. exfalso. exact (Qlt_irrefl _ Hlt).
Qed.

(** A frame at the boundary: delta equal to the tolerance, deductions
    present, eligible status. *)
Lemma shortage_flag_iff_witness :
  let df := [Fixtures.transformed_row (Some 0.01%Q) true false (Some "paid")
               DateNull] in
  let r := Fixtures.transformed_row (Some 0.01%Q) true false (Some "paid")
             DateNull in
  df !! 0%nat = Some r
  /\ exists r',
       apply_shortage_logic Fixtures.today df Fixtures.settings Fixtures.rules
         !! 0%nat = Some r'
       /\ transformed r' = r
       /\ (Shortage_Flag r' = true <->
             (exists delta, Invoice_Delta r = Some delta
                /\ (tolerance_small_delta_usd Fixtures.settings < delta)%Q)
             /\ (Any_Deductions (raw r) = true \/ Child_Invoice_Present r = true)
             /\ (exists status, Invoice_Status (raw r) = Some status
                   /\ Str.upper status ∈ eligible_statuses Fixtures.rules))
       /\ (forall delta, Invoice_Delta r = Some delta ->
             (delta == tolerance_small_delta_usd Fixtures.settings)%Q ->
             Shortage_Flag r' = false).
Proof.
  split; [reflexivity|].
  apply (shortage_flag_iff Fixtures.today Fixtures.settings Fixtures.rules
           [Fixtures.transformed_row (Some 0.01%Q) true false (Some "paid")
              DateNull] 0%nat).
  reflexivity.
Defined.

(** C2. For every record after shortage evaluation, the shortage amount is
    the record's delta, the very same cell, when the record is flagged, and
    exactly zero when it is not, whatever the sign of the delta.  When the
    delta is not the zero cell, the amount therefore tells the two cases
    apart. *)
Theorem shortage_amount_exact (today : date) (settings : SettingsConfig)
    (rules : RulesConfig) (df : list TransformedRow) (i : nat)
    (r' : FlaggedRow) :
  apply_shortage_logic today df settings rules !! i = Some r' ->
  (Shortage_Flag r' = true ->
     Shortage_Amount_USD r' = Invoice_Delta (transformed r'))
  /\ (Shortage_Flag r' = false -> Shortage_Amount_USD r' = Some 0%Q)
  /\ (Invoice_Delta (transformed r') <> Some 0%Q ->
        (Shortage_Amount_USD r' = Invoice_Delta (transformed r')
           <-> Shortage_Flag r' = true)
        /\ (Shortage_Amount_USD r' = Some 0%Q <-> Shortage_Flag r' = false)).
Proof.
  intros Hi. apply map_lookup_Some in Hi. destruct Hi as (r & _ & ->).
  unfold shortage_row; simpl.
  match goal with |- context [if ?c then Invoice_Delta r else _] =>
    destruct c eqn:E end.
  - split; [reflexivity|]. split; [discriminate|]. intros Hnz.
    split; split; intros H; try reflexivity; try discriminate; congruence.
  - split; [discriminate|]. split; [reflexivity|]. intros Hnz.
    split; split; intros H; try reflexivity; try discriminate; congruence.
Qed.

(** A flagged record with a negative delta (the tolerance is lower
    still). *)
Lemma shortage_amount_exact_witness :
  let settings :=
    {| input_raw_dir := "data/raw";
       output_processed_dir := "data/processed";
       date_format := "dayfirst";
       aging_days_threshold := 90;
       currency_expected := "USD";
       round_decimals := 2;
       partition_by_year := true;
       tolerance_small_delta_usd := (-1)%Q |} in
  let r := Fixtures.transformed_row (Some (-0.5)%Q) true false (Some "PAID")
             DateNull in
  let r' := shortage_row Fixtures.today settings Fixtures.rules r in
  apply_shortage_logic Fixtures.today [r] settings Fixtures.rules !! 0%nat
    = Some r'
  /\ Shortage_Flag r' = true
  /\ Shortage_Amount_USD r' = Some (-0.5)%Q
  /\ (Shortage_Flag r' = true ->
        Shortage_Amount_USD r' = Invoice_Delta (transformed r'))
  /\ (Shortage_Flag r' = false -> Shortage_Amount_USD r' = Some 0%Q)
  /\ (Invoice_Delta (transformed r') <> Some 0%Q ->
        (Shortage_Amount_USD r' = Invoice_Delta (transformed r')
           <-> Shortage_Flag r' = true)
        /\ (Shortage_Amount_USD r' = Some 0%Q <-> Shortage_Flag r' = false)).
Proof.
  intros settings r r'.
  split; [reflexivity|]. split; [reflexivity|]. split; [reflexivity|].
  apply (shortage_amount_exact Fixtures.today settings Fixtures.rules [r]
           0%nat r').
  reflexivity.
Defined.

(** The frame of [test_shortage_flag_triggers_when_conditions_met]: the
    first record is flagged, with its delta as amount, and aged; the second
    is not flagged and its amount is zero. *)
Example shortage_scenarios :
  let df :=
    [ Fixtures.transformed_row (Some 5%Q) true false (Some "PAID")
        (DateValue Fixtures.hundred_days_ago);
      Fixtures.transformed_row (Some 0.005%Q) false false (Some "PAID")
        (DateValue Fixtures.ten_days_ago) ] in
  let flagged :=
    apply_shortage_logic Fixtures.today df Fixtures.settings Fixtures.rules in
  map Shortage_Flag flagged = [true; false]
  /\ map Shortage_Amount_USD flagged = [Some 5%Q; Some 0%Q]
  /\ map Age_Bucket flagged = ["Aged"; "Current"].
Proof. repeat split; vm_compute; reflexivity. Qed.

(** C3. For every record after shortage evaluation, [Days_Past_Due] is an
    integer that is never negative: it is the number of days from the due
    date (read day first) to today when that number is positive, zero when
    the due date is today or later, and zero when the due date cannot be
    read.  [Age_Bucket] is ["Aged"] if and only if [Days_Past_Due] is
    strictly greater than the configured threshold, and ["Current"]
    otherwise. *)
Theorem days_past_due_age_bucket (today : date) (settings : SettingsConfig)
    (rules : RulesConfig) (df : list TransformedRow) (i : nat)
    (r' : FlaggedRow) :
  apply_shortage_logic today df settings rules !! i = Some r' ->
  let due := to_datetime true (Payment_Due_Date (raw (transformed r'))) in
  0 <= Days_Past_Due r'
  /\ (forall d, due = Some d ->
        Days_Past_Due r'
          = Z.max 0 (Calendar.toordinal today - Calendar.toordinal d))
  /\ (forall d, due = Some d ->
        Calendar.toordinal today <= Calendar.toordinal d ->
        Days_Past_Due r' = 0)
  /\ (due = None -> Days_Past_Due r' = 0)
  /\ (Age_Bucket r' = "Aged"
        <-> aging_days_threshold settings < Days_Past_Due r')
  /\ (Age_Bucket r' = "Current"
        <-> Days_Past_Due r' <= aging_days_threshold settings).
Proof.
  intros Hi. apply map_lookup_Some in Hi. destruct Hi as (r & _ & ->).
  unfold shortage_row; cbv zeta; cbn [transformed Days_Past_Due Age_Bucket].
  unfold shortage_payment_due, days_between, clip_fill.
  destruct (to_datetime true (Payment_Due_Date (raw r))) as [d|];
    cbn [option_map default]; cbv [id].
  - split; [lia|]. split; [intros d' [= <-]; reflexivity|].
    split; [intros d' [= <-] Hle; lia|]. split; [discriminate|].
    destruct (Z.ltb_spec (aging_days_threshold settings)
                (Z.max 0 (Calendar.toordinal today - Calendar.toordinal d)));
      split; split; intros; try reflexivity; try discriminate; lia.
  - split; [lia|]. split; [discriminate|]. split; [discriminate|].
    split; [reflexivity|].
    destruct (Z.ltb_spec (aging_days_threshold settings) 0);
      split; split; intros; try reflexivity; try discriminate; lia.
Qed.

(** A record due a hundred days ago, with a threshold of ninety days. *)
Lemma days_past_due_age_bucket_witness :
  let r := Fixtures.transformed_row (Some 5%Q) true false (Some "PAID")
             (DateValue Fixtures.hundred_days_ago) in
  let r' := shortage_row Fixtures.today Fixtures.settings Fixtures.rules r in
  let due := to_datetime true (Payment_Due_Date (raw (transformed r'))) in
  apply_shortage_logic Fixtures.today [r] Fixtures.settings Fixtures.rules
    !! 0%nat = Some r'
  /\ Days_Past_Due r' = 100
  /\ 0 <= Days_Past_Due r'
  /\ (forall d, due = Some d ->
        Days_Past_Due r'
          = Z.max 0 (Calendar.toordinal Fixtures.today - Calendar.toordinal d))
  /\ (forall d, due = Some d ->
        Calendar.toordinal Fixtures.today <= Calendar.toordinal d ->
        Days_Past_Due r' = 0)
  /\ (due = None -> Days_Past_Due r' = 0)
  /\ (Age_Bucket r' = "Aged"
        <-> aging_days_threshold Fixtures.settings < Days_Past_Due r')
  /\ (Age_Bucket r' = "Current"
        <-> Days_Past_Due r' <= aging_days_threshold Fixtures.settings).
Proof.
  intros r r' due.
  split; [reflexivity|]. split; [reflexivity|].
  exact (days_past_due_age_bucket Fixtures.today Fixtures.settings
           Fixtures.rules [r] 0%nat r' eq_refl).
Defined.

(** Due dates that are not in the past, or cannot be read, give zero days
    and the bucket of current invoices. *)
Example days_past_due_clipped :
  let df :=
    [ Fixtures.transformed_row (Some 5%Q) true false (Some "PAID")
        (DateValue Fixtures.ten_days_ago);
      Fixtures.transformed_row (Some 5%Q) true false (Some "PAID")
        (DateValue Fixtures.tomorrow);
      Fixtures.transformed_row (Some 5%Q) true false (Some "PAID")
        (DateText "soon");
      Fixtures.transformed_row (Some 5%Q) true false (Some "PAID") DateNull ] in
  let out :=
    apply_shortage_logic Fixtures.today df Fixtures.settings Fixtures.rules in
  map Days_Past_Due out = [10; 0; 0; 0]
  /\ map Age_Bucket out = ["Current"; "Current"; "Current"; "Current"].
Proof. split; reflexivity. Qed.

(** ** The delta in binary64 *)

Lemma shr_1_nonneg (mrs : SpecFloat.shr_record) :
  0 <= SpecFloat.shr_m mrs -> 0 <= SpecFloat.shr_m (SpecFloat.shr_1 mrs).
Proof.
  destruct mrs as [m r s]; simpl.
  destruct m as [|p|p]; [simpl; lia| |lia].
  destruct p; simpl; lia.
Qed.

Lemma iter_shr_1_nonneg (p : positive) (mrs : SpecFloat.shr_record) :
  0 <= SpecFloat.shr_m mrs ->
  0 <= SpecFloat.shr_m (SpecFloat.iter_pos SpecFloat.shr_1 p mrs).
Proof.
  revert mrs. induction p as [p IH|p IH|]; intros mrs H; simpl.
  - apply IH, IH, shr_1_nonneg, H.
  - apply IH, IH, H.
  - apply shr_1_nonneg, H.
Qed.

Lemma shr_fexp_nonneg (m e : Z) (l : SpecFloat.location) :
  0 <= m ->
  0 <= SpecFloat.shr_m
         (fst (SpecFloat.shr_fexp Float64.prec Float64.emax m e l)).
Proof.
  intros H. unfold SpecFloat.shr_fexp, SpecFloat.shr.
  assert (H0 : 0 <= SpecFloat.shr_m (SpecFloat.shr_record_of_loc m l))
    by (destruct l as [|[]]; exact H).
  destruct (_ - e); cbn [fst]; auto using iter_shr_1_nonneg.
Qed.

Lemma round_nearest_even_nonneg (m : Z) (l : SpecFloat.location) :
  0 <= m -> 0 <= SpecFloat.round_nearest_even m l.
Proof.
  intros H. destruct l as [|[]]; simpl; try lia.
  destruct (Z.even m); lia.
Qed.

(** Rounding a magnitude to the format gives a zero, a finite value or an
    infinity, never NaN. *)
Lemma binary_round_aux_isna (s : bool) (m e : Z) (l : SpecFloat.location) :
  0 <= m ->
  Float64.isna
    (SpecFloat.binary_round_aux Float64.prec Float64.emax s m e l) = false.
Proof.
  intros H. unfold SpecFloat.binary_round_aux.
  pose proof (shr_fexp_nonneg m e l H) as H1.
  destruct (SpecFloat.shr_fexp Float64.prec Float64.emax m e l) as [mrs' e'].
  cbn [fst] in H1.
  pose proof (shr_fexp_nonneg _ e' SpecFloat.loc_Exact
                (round_nearest_even_nonneg _
                   (SpecFloat.loc_of_shr_record mrs') H1)) as H2.
  destruct (SpecFloat.shr_fexp Float64.prec Float64.emax _ e'
              SpecFloat.loc_Exact) as [mrs'' e''].
  cbn [fst] in H2.
  destruct (SpecFloat.shr_m mrs'') as [|p|p]; [reflexivity| |lia].
  destruct (e'' <=? Float64.emax - Float64.prec); reflexivity.
Qed.

Lemma binary_normalize_isna (m e : Z) (s : bool) :
  Float64.isna
    (SpecFloat.binary_normalize Float64.prec Float64.emax m e s) = false.
Proof.
  destruct m as [|p|p]; [reflexivity| |];
    unfold SpecFloat.binary_normalize, SpecFloat.binary_round;
    destruct (SpecFloat.shl_align _ _ _) as [mz ez];
    apply binary_round_aux_isna; lia.
Qed.

(** A difference of two values is NaN only as infinity minus the same
    infinity. *)
Lemma sub_isna (a b : Float64.float64) :
  Float64.isna a = false -> Float64.isna b = false ->
  Float64.isna (Float64.sub a b) = true <-> Float64.same_infinity a b.
Proof.
  unfold Float64.same_infinity, Float64.inf.
  destruct a as [sa|sa| |sa ma ea], b as [sb|sb| |sb mb eb];
    cbn [Float64.isna]; try discriminate; intros _ _;
    try (unfold Float64.sub; cbn [SpecFloat.SFsub];
         try (destruct sa, sb; cbn [Float64.isna]);
         (split; [discriminate | intros (n & Ha & Hb); congruence])).
  - unfold Float64.sub; cbn [SpecFloat.SFsub].
    destruct sa, sb; cbn [Float64.isna]; split; try discriminate;
      try (intros (n & [= <-] & [= ?]); discriminate);
      intros _; eauto.
  - unfold Float64.sub; cbn [SpecFloat.SFsub]. cbv zeta.
    rewrite binary_normalize_isna.
    split; [discriminate | intros (n & Ha & Hb); congruence].
Qed.

Lemma mul_isna (x f : Float64.float64) :
  Float64.is_finite f = true ->
  Float64.isna (Float64.mul x f) = Float64.isna x.
Proof.
  destruct f as [| | |sf mf ef]; try discriminate. intros _.
  destruct x as [sx|sx| |sx mx ex]; try reflexivity.
  unfold Float64.mul; cbn [SpecFloat.SFmul].
  apply binary_round_aux_isna. lia.
Qed.

Lemma div_isna (x f : Float64.float64) :
  Float64.is_finite f = true ->
  Float64.isna (Float64.div x f) = Float64.isna x.
Proof.
  destruct f as [| | |sf mf ef]; try discriminate. intros _.
  destruct x as [sx|sx| |sx mx ex]; try reflexivity.
  unfold Float64.div; cbn [SpecFloat.SFdiv Float64.isna].
  unfold SpecFloat.SFdiv_core_binary. cbv zeta.
  match goal with
  | |- context [Z.div_eucl ?a ?b] =>
      pose proof (Z.div_pos a b) as Hq;
      unfold Z.div in Hq; destruct (Z.div_eucl a b) as [q r] eqn:E;
      cbn [fst] in Hq
  end.
  apply binary_round_aux_isna. apply Hq; [|lia].
  destruct (_ - _ - _); try lia. apply Z.shiftl_nonneg. lia.
Qed.

Lemma rint_isna (x : Float64.float64) :
  Float64.isna (Float64.rint x) = Float64.isna x.
Proof.
  destruct x as [s|s| |s m e]; try reflexivity.
  unfold Float64.rint. destruct (0 <=? e); [reflexivity|].
  destruct (Float64.nearest_even _ _); try reflexivity.
  apply binary_normalize_isna.
Qed.

(** The powers of ten up to [10 ^ 308] are finite floats; the next one
    overflows. *)
Lemma powers_of_ten_finite :
  forallb (fun d => Float64.is_finite (Float64.power_of_ten d))
    (map Z.of_nat (seq 0 309)) = true
  /\ Float64.power_of_ten 309 = Float64.inf false.
Proof. split; vm_compute; reflexivity. Qed.

Lemma power_of_ten_finite (d : Z) :
  0 <= d <= 308 -> Float64.is_finite (Float64.power_of_ten d) = true.
Proof.
  intros H. destruct powers_of_ten_finite as [P _].
  rewrite forallb_forall in P. apply P.
  apply in_map_iff. exists (Z.to_nat d). split; [lia|].
  apply in_seq. lia.
Qed.

(** Rounding neither makes nor removes a missing value. *)
Lemma round_isna (decimals : Z) (x : Float64.float64) :
  -308 <= decimals <= 308 ->
  Float64.isna (Float64.round decimals x) = Float64.isna x.
Proof.
  intros H. unfold Float64.round. destruct (Z.leb_spec 0 decimals).
  - destruct (decimals =? 0); [apply rint_isna|]. cbv zeta.
    rewrite div_isna, rint_isna, mul_isna;
      try reflexivity; apply power_of_ten_finite; lia.
  - cbv zeta. rewrite mul_isna, rint_isna, div_isna;
      try reflexivity; apply power_of_ten_finite; lia.
Qed.

Lemma fillna_isna (x : Float64.float64) :
  Float64.isna (Float64.fillna Float64.zero x) = false.
Proof. destruct x; reflexivity. Qed.

Lemma fillna_same_infinity (a b : Float64.float64) :
  Float64.same_infinity (Float64.fillna Float64.zero a)
    (Float64.fillna Float64.zero b)
  <-> Float64.same_infinity a b.
Proof.
  unfold Float64.same_infinity, Float64.inf.
  destruct a, b; cbn; split; intros (n & Ha & Hb);
    try discriminate; exists n; split; assumption.
Qed.

(** C4, as the spec states it, fails: with an infinite invoice amount and
    an infinite paid amount of the same sign (a file may hold [inf]), no
    amount is missing, the difference is NaN, and the delta of the record
    is missing. *)
Lemma transform_delta_missing :
  let r := {| Float64.Invoice_Amount := Float64.inf false;
              Float64.Actual_Paid_Amount := Float64.inf false |} in
  Float64.isna (Float64.Invoice_Amount r) = false
  /\ Float64.isna (Float64.Actual_Paid_Amount r) = false
  /\ exists t,
       Float64.transform_invoices [r] Fixtures.settings !! 0%nat = Some t
       /\ Float64.isna (Float64.Invoice_Delta t) = true.
Proof.
  intros r. split; [reflexivity|]. split; [reflexivity|].
  exists (Float64.transform_row Fixtures.settings r).
  split; reflexivity.
Qed.

(** C4, amended.  For every record of a frame with float64 amounts and a
    number of decimals between -308 and 308, Transform replaces a missing
    invoice amount or paid amount by 0 and sets the delta to their
    difference rounded as [Series.round] does (scale by the power of ten,
    round to the nearest integer with ties to the even one, scale back).
    The delta is missing exactly when the two amounts are infinite with
    the same sign; in every other case, and so whenever an amount is
    finite or missing, it is a value. *)
Theorem transform_delta_float64 (settings : SettingsConfig)
    (df : list Float64.RawAmounts) (i : nat) (r : Float64.RawAmounts) :
  -308 <= round_decimals settings <= 308 ->
  df !! i = Some r ->
  let invoice_amount :=
    Float64.fillna Float64.zero (Float64.Invoice_Amount r) in
  let actual_paid_amount :=
    Float64.fillna Float64.zero (Float64.Actual_Paid_Amount r) in
  exists t,
    Float64.transform_invoices df settings !! i = Some t
    /\ Float64.Invoice_Amount (Float64.raw t) = invoice_amount
    /\ Float64.Actual_Paid_Amount (Float64.raw t) = actual_paid_amount
    /\ Float64.Invoice_Delta t
       = Float64.round (round_decimals settings)
           (Float64.sub invoice_amount actual_paid_amount)
    /\ (Float64.isna (Float64.Invoice_Delta t) = true
        <-> Float64.same_infinity (Float64.Invoice_Amount r)
              (Float64.Actual_Paid_Amount r)).
Proof.
  intros Hd Hi invoice_amount actual_paid_amount.
  exists (Float64.transform_row settings r).
  unfold Float64.transform_invoices. rewrite map_lookup, Hi.
  split; [reflexivity|]. split; [reflexivity|]. split; [reflexivity|].
  split; [reflexivity|].
  unfold Float64.transform_row.
  cbn [Float64.Invoice_Delta Float64.Invoice_Amount
       Float64.Actual_Paid_Amount].
  rewrite round_isna by exact Hd.
  rewrite sub_isna by apply fillna_isna.
  apply fillna_same_infinity.
Qed.

(** A record whose paid amount is missing: the delta is [100.5 - 0]. *)
Lemma transform_delta_float64_witness :
  let r := {| Float64.Invoice_Amount := Float64.of_ratio 1005 10;
              Float64.Actual_Paid_Amount := Float64.nan |} in
  -308 <= round_decimals Fixtures.settings <= 308
  /\ [r] !! 0%nat = Some r
  /\ exists t,
       Float64.transform_invoices [r] Fixtures.settings !! 0%nat = Some t
       /\ Float64.Invoice_Amount (Float64.raw t) = Float64.of_ratio 1005 10
       /\ Float64.Actual_Paid_Amount (Float64.raw t) = Float64.zero
       /\ Float64.Invoice_Delta t
          = Float64.round 2
              (Float64.sub (Float64.of_ratio 1005 10) Float64.zero)
       /\ (Float64.isna (Float64.Invoice_Delta t) = true
           <-> Float64.same_infinity (Float64.of_ratio 1005 10) Float64.nan).
Proof.
  intros r.
  assert (Hd : -308 <= round_decimals Fixtures.settings <= 308)
    by (cbn; lia).
  split; [exact Hd|]. split; [reflexivity|].
  exact (transform_delta_float64 Fixtures.settings [r] 0%nat r Hd eq_refl).
Defined.

(** [Series.round] on float64: 8.345 is rounded up to 8.35 and 2.675 to
    2.68, since their products with 100 lie above the half; 0.125 is a tie
    and goes to the even 0.12; 100.5 - 40.05 is 60.45; a missing amount
    counts as 0. *)
Example series_round_scenarios :
  Float64.round 2 (Float64.of_ratio 8345 1000) = Float64.of_ratio 835 100
  /\ Float64.round 2 (Float64.of_ratio 2675 1000) = Float64.of_ratio 268 100
  /\ Float64.round 2 (Float64.of_ratio 125 1000) = Float64.of_ratio 12 100
  /\ Float64.round 0 (Float64.of_ratio 5 2) = Float64.of_int 2
  /\ Float64.round (-2) (Float64.of_int 12350) = Float64.of_int 12400
  /\ map Float64.Invoice_Delta
       (Float64.transform_invoices
          [ {| Float64.Invoice_Amount := Float64.of_ratio 1005 10;
               Float64.Actual_Paid_Amount := Float64.of_ratio 4005 100 |};
            {| Float64.Invoice_Amount := Float64.nan;
               Float64.Actual_Paid_Amount := Float64.of_ratio 1005 1000 |} ]
          Fixtures.settings)
     = [ Float64.of_ratio 6045 100; Float64.of_ratio (-1) 1 ].
Proof. repeat split; vm_compute; reflexivity. Qed.

(** The frame of [test_transform_adds_expected_columns]. *)
Example transform_scenario :
  let r := Fixtures.raw_row (Some 105%Q) (Some 100%Q) (Some "CHILD-123")
             (DateValue (Date 2024 6 1)) in
  let t := transform_row Fixtures.settings r in
  Invoice_Delta t = Some 5%Q
  /\ Child_Invoice_Present t = true
  /\ Payment_Year t = Some 2024.
Proof. repeat split; vm_compute; reflexivity. Qed.

(** ** Trimming *)

Lemma lstrip_empty (s : string) :
  Str.lstrip s = "" <-> Str.all_chars Str.is_space s = true.
Proof.
  induction s as [|c rest IH]; simpl.
  - split; reflexivity.
  - destruct (Str.is_space c); simpl; [exact IH|].
    split; discriminate.
Qed.

Lemma rstrip_empty (s : string) :
  Str.rstrip s = "" <-> Str.all_chars Str.is_space s = true.
Proof.
  induction s as [|c rest IH]; simpl.
  - split; reflexivity.
  - destruct (Str.rstrip rest) as [|k kept].
    + assert (Hrest : Str.all_chars Str.is_space rest = true)
        by (apply IH; reflexivity).
      rewrite Hrest, andb_true_r.
      destruct (Str.is_space c); split; auto; discriminate.
    + split; [discriminate|]. intros H.
      apply andb_true_iff in H. destruct H as [_ H].
      apply IH in H. discriminate.
Qed.

Lemma lstrip_all_space (s : string) :
  Str.all_chars Str.is_space (Str.lstrip s) = Str.all_chars Str.is_space s.
Proof.
  induction s as [|c rest IH]; simpl; auto.
  destruct (Str.is_space c) eqn:E; simpl; auto.
  rewrite E. reflexivity.
Qed.

(** Trimming leaves nothing exactly when the text is made of whitespace. *)
Lemma strip_empty (s : string) :
  Str.strip s = "" <-> Str.all_chars Str.is_space s = true.
Proof.
  unfold Str.strip. rewrite rstrip_empty, lstrip_all_space. reflexivity.
Qed.

(** C5. For every record, Transform sets [Child_Invoice_Present] to true if
    and only if the child-invoice field holds a text that is not empty once
    trimmed; a missing field gives false, and so does a field made of
    whitespace only. *)
Theorem child_invoice_present_iff (settings : SettingsConfig)
    (df : list RawRow) (i : nat) (r : RawRow) :
  df !! i = Some r ->
  exists t,
    transform_invoices df settings !! i = Some t
    /\ (Child_Invoice_Present t = true <->
          exists s, Randomized_Latest_Child_Invoice r = Some s
                    /\ Str.strip s <> "")
    /\ (Randomized_Latest_Child_Invoice r = None ->
          Child_Invoice_Present t = false)
    /\ (forall s, Randomized_Latest_Child_Invoice r = Some s ->
                  Str.all_chars Str.is_space s = true ->
                  Child_Invoice_Present t = false).
Proof.
  intros Hi. exists (transform_row settings r).
  unfold transform_invoices. rewrite map_lookup, Hi.
  split; [reflexivity|].
  unfold transform_row; cbn [Child_Invoice_Present Randomized_Latest_Child_Invoice].
  unfold child_invoice_present.
  destruct (Randomized_Latest_Child_Invoice r) as [s|];
    cbn [option_map default]; cbv [id].
  - rewrite negb_true_iff. split; [|split].
    + split.
      * intros H. exists s. split; [reflexivity|].
        intros E. rewrite E in H. discriminate.
      * intros (s' & [= <-] & Hne).
        destruct (String.eqb_spec (Str.strip s) ""); congruence.
    + discriminate.
    + intros s' [= <-] Hsp. apply strip_empty in Hsp. rewrite Hsp. reflexivity.
  - split; [|split].
    + split; [discriminate | intros (s & Hs & _); discriminate].
    + reflexivity.
    + discriminate.
Qed.

(** A child-invoice field made of blanks. *)
Lemma child_invoice_present_iff_witness :
  let r := Fixtures.raw_row (Some 105%Q) (Some 100%Q) (Some "   ") DateNull in
  [r] !! 0%nat = Some r
  /\ exists t,
       transform_invoices [r] Fixtures.settings !! 0%nat = Some t
       /\ (Child_Invoice_Present t = true <->
             exists s, Randomized_Latest_Child_Invoice r = Some s
                       /\ Str.strip s <> "")
       /\ (Randomized_Latest_Child_Invoice r = None ->
             Child_Invoice_Present t = false)
       /\ (forall s, Randomized_Latest_Child_Invoice r = Some s ->
                     Str.all_chars Str.is_space s = true ->
                     Child_Invoice_Present t = false).
Proof.
  intros r. split; [reflexivity|].
  exact (child_invoice_present_iff Fixtures.settings [r] 0%nat r eq_refl).
Defined.

(** ** The quality gate reads, and never writes *)

Lemma read_only_ret {A : Type} (x : A) : read_only (mret x).
Proof. intros df. reflexivity. Qed.

Lemma read_only_raise {A : Type} (e : exn) : read_only (raise (A := A) e).
Proof. intros df. reflexivity. Qed.

Lemma read_only_read {A : Type} (f : list FlaggedRow -> A) : read_only (read f).
Proof. intros df. reflexivity. Qed.

Lemma read_only_bind {A B : Type} (m : Check A) (f : A -> Check B) :
  read_only m -> (forall x, read_only (f x)) -> read_only (m ≫= f).
Proof.
  intros Hm Hf df. unfold mbind, Check_bind.
  specialize (Hm df). destruct (m df) as [df' [e|x]]; simpl in *; subst df'.
  - reflexivity.
  - apply Hf.
Qed.

Lemma read_only_for_each {A : Type} (body : A -> Check unit) (l : list A) :
  (forall x, read_only (body x)) -> read_only (for_each body l).
Proof.
  intros Hb. induction l as [|x l IH]; simpl.
  - apply read_only_ret.
  - apply read_only_bind; auto.
Qed.

Ltac read_only_step :=
  first [ apply read_only_bind; [|intros ?]
        | apply read_only_ret
        | apply read_only_raise
        | apply read_only_read
        | match goal with |- read_only (if ?c then _ else _) => destruct c end
        | match goal with |- read_only (match ?c with _ => _ end) => destruct c end ].

Lemma validate_read_only (schema : Pandera.DataFrameSchema) :
  read_only (Pandera.validate schema).
Proof. unfold Pandera.validate. repeat read_only_step. Qed.

Lemma validate_currency_read_only (expected : string) :
  read_only (_validate_currency expected).
Proof. unfold _validate_currency. repeat read_only_step. Qed.

Lemma validate_date_column_read_only (today : date)
    (col : string * (RawRow -> date_cell)) :
  read_only (validate_date_column today col).
Proof.
  destruct col as [name get]. unfold validate_date_column.
  repeat read_only_step.
Qed.

Lemma validate_dates_read_only (today : date) : read_only (_validate_dates today).
Proof.
  unfold _validate_dates. apply read_only_for_each.
  intros col. apply validate_date_column_read_only.
Qed.

Lemma run_quality_checks_read_only (today : date) (settings : SettingsConfig)
    (rules : RulesConfig) :
  read_only (run_quality_checks today settings rules).
Proof.
  unfold run_quality_checks.
  apply read_only_bind; [apply read_only_read|]. intros [|].
  - apply read_only_raise.
  - cbv zeta. apply read_only_bind; [apply validate_read_only|]. intros _.
    apply read_only_bind; [apply validate_currency_read_only|]. intros _.
    apply validate_dates_read_only.
Qed.

(** An assignment is not read-only: the one of the test suite turns the
    valid frame into the frame with a future due date. *)
Example assignment_writes :
  fst (Fixtures.loc_set_payment_due_date 0 (DateValue Fixtures.tomorrow)
         Fixtures.valid_dataframe) = Fixtures.future_dataframe
  /\ ~ read_only
        (Fixtures.loc_set_payment_due_date 0 (DateValue Fixtures.tomorrow)).
Proof.
  split; [reflexivity|].
  intros H. specialize (H Fixtures.valid_dataframe).
  vm_compute in H. discriminate H.
Qed.

(** What a sequence of two checks raises. *)
Lemma bind_raises_l {A B : Type} (m : Check A) (f : A -> Check B)
    (df : list FlaggedRow) (e : exn) :
  snd (m df) = inl e -> snd ((m ≫= f) df) = inl e.
Proof.
  intros H. unfold mbind, Check_bind.
  destruct (m df) as [df' [e'|x]]; simpl in *; congruence.
Qed.

Lemma bind_continues {A B : Type} (m : Check A) (f : A -> Check B)
    (df : list FlaggedRow) (x : A) :
  read_only m -> snd (m df) = inr x -> (m ≫= f) df = f x df.
Proof.
  intros Hm H. unfold mbind, Check_bind. specialize (Hm df).
  destruct (m df) as [df' [e|y]]; simpl in *; [discriminate|].
  congruence.
Qed.

(** A check followed by one that raises on the same frame raises. *)
Lemma bind_raises_r {A B : Type} (m : Check A) (f : A -> Check B)
    (df : list FlaggedRow) :
  read_only m ->
  (forall x, exists e, snd (f x df) = inl e) ->
  exists e, snd ((m ≫= f) df) = inl e.
Proof.
  intros Hm Hf. destruct (snd (m df)) as [e|x] eqn:E.
  - exists e. apply bind_raises_l, E.
  - rewrite (bind_continues m f df x Hm E). apply Hf.
Qed.

(** C6. Given an empty record set, the quality gate raises, with the
    message of the emptiness check: that check comes first, so nothing in
    the settings or the rules can make another one answer. *)
Theorem empty_frame_raises (today : date) (settings : SettingsConfig)
    (rules : RulesConfig) :
  run_quality_checks today settings rules []
  = ([], inl (ValueError "Quality check failed: dataframe is empty.")).
Proof. reflexivity. Qed.

(** ** Date sanity *)

Lemma existsb_map {A B : Type} (f : B -> bool) (g : A -> B) (l : list A) :
  existsb f (map g l) = true <-> exists x, x ∈ l /\ f (g x) = true.
Proof.
  induction l as [|a l IH]; simpl.
  - split; [discriminate|]. intros (x & Hx & _). inversion Hx.
  - rewrite orb_true_iff, IH. split.
    + intros [H|(x & Hx & H)].
      * exists a. split; [left|exact H].
      * exists x. split; [right; exact Hx|exact H].
    + intros (x & Hx & H). apply elem_of_cons in Hx. destruct Hx as [->|Hx].
      * left. exact H.
      * right. exists x. auto.
Qed.

Lemma validate_date_column_raises (today : date) (name : string)
    (get : RawRow -> date_cell) (df : list FlaggedRow) (r : FlaggedRow) :
  r ∈ df ->
  bad_date today (get (raw (transformed r))) ->
  exists msg,
    snd (validate_date_column today (name, get) df) = inl (ValueError msg).
Proof.
  intros Hr Hbad. unfold validate_date_column, mbind, Check_bind, read.
  cbn [fst snd].
  destruct (existsb isna _) eqn:Ena; [eexists; reflexivity|].
  destruct (existsb (is_future today) _) eqn:Efu; [eexists; reflexivity|].
  exfalso. destruct Hbad as [Hnone|(d & Hd & Hgt)].
  - assert (H : existsb isna
                  (map (fun r0 => to_datetime false (get (raw (transformed r0))))
                     df) = true).
    { apply existsb_map. exists r. rewrite Hnone. auto. }
    congruence.
  - assert (H : existsb (is_future today)
                  (map (fun r0 => to_datetime false (get (raw (transformed r0))))
                     df) = true).
    { apply existsb_map. exists r. rewrite Hd. auto. }
    congruence.
Qed.

Lemma validate_date_column_exn (today : date)
    (col : string * (RawRow -> date_cell)) (df : list FlaggedRow) (e : exn) :
  snd (validate_date_column today col df) = inl e ->
  exists msg, e = ValueError msg.
Proof.
  destruct col as [name get].
  unfold validate_date_column, mbind, Check_bind, read. cbn [fst snd].
  destruct (existsb isna _); [intros [= <-]; eexists; reflexivity|].
  destruct (existsb (is_future today) _); [intros [= <-]; eexists; reflexivity|].
  discriminate.
Qed.

(** A loop raises as soon as one of its iterations does, the frame being
    the same at every iteration. *)
Lemma for_each_raises {A : Type} (body : A -> Check unit) (P : exn -> Prop)
    (l : list A) (x : A) (df : list FlaggedRow) :
  (forall y, read_only (body y)) ->
  (forall y e, snd (body y df) = inl e -> P e) ->
  x ∈ l ->
  (exists e, snd (body x df) = inl e) ->
  exists e, snd (for_each body l df) = inl e /\ P e.
Proof.
  intros Hro HP Hx Hraise. induction l as [|y l IH]; [inversion Hx|].
  cbn [for_each]. destruct (snd (body y df)) as [e|[]] eqn:E.
  - exists e. split; [apply bind_raises_l, E | apply (HP y), E].
  - rewrite (bind_continues (body y) _ df () (Hro y) E).
    apply elem_of_cons in Hx. destruct Hx as [->|Hx].
    + destruct Hraise as (e & He). congruence.
    + apply IH, Hx.
Qed.

Lemma validate_dates_raises (today : date) (df : list FlaggedRow)
    (r : FlaggedRow) (name : string) (get : RawRow -> date_cell) :
  r ∈ df ->
  (name, get) ∈ date_columns ->
  bad_date today (get (raw (transformed r))) ->
  exists msg, snd (_validate_dates today df) = inl (ValueError msg).
Proof.
  intros Hr Hcol Hbad. unfold _validate_dates. cbv zeta.
  destruct (for_each_raises (validate_date_column today)
              (fun e => exists msg, e = ValueError msg)
              date_columns (name, get) df) as (e & He & (msg & ->)).
  - intros col. apply validate_date_column_read_only.
  - intros col e. apply validate_date_column_exn.
  - exact Hcol.
  - destruct (validate_date_column_raises today name get df r Hr Hbad)
      as (msg & Hmsg).
    eexists. exact Hmsg.
  - exists msg. exact He.
Qed.

(** C7. If some record of the frame has, in one of its three date columns,
    a date that cannot be read or that is strictly later than today, the
    quality gate raises; the date check, run on that frame, raises a
    [ValueError]. *)
Theorem bad_date_raises (today : date) (settings : SettingsConfig)
    (rules : RulesConfig) (df : list FlaggedRow) (r : FlaggedRow)
    (name : string) (get : RawRow -> date_cell) :
  r ∈ df ->
  (name, get) ∈ date_columns ->
  (to_datetime false (get (raw (transformed r))) = None
   \/ exists d, to_datetime false (get (raw (transformed r))) = Some d
                /\ Calendar.date_gt d today = true) ->
  (exists e, snd (run_quality_checks today settings rules df) = inl e)
  /\ (exists msg, snd (_validate_dates today df) = inl (ValueError msg)).
Proof.
  intros Hr Hcol Hbad.
  pose proof (validate_dates_raises today df r name get Hr Hcol Hbad) as Hdates.
  split; [|exact Hdates].
  unfold run_quality_checks.
  apply bind_raises_r; [apply read_only_read|]. intros [|].
  - eexists. reflexivity.
  - cbv zeta. apply bind_raises_r; [apply validate_read_only|]. intros _.
    apply bind_raises_r; [apply validate_currency_read_only|]. intros _.
    destruct Hdates as (msg & Hmsg). eexists. exact Hmsg.
Qed.

(** The frame of [test_quality_checks_fail_for_future_dates]: the payment
    due date is tomorrow. *)
Lemma bad_date_raises_witness :
  let df := Fixtures.future_dataframe in
  let r := Fixtures.valid_row (DateValue Fixtures.tomorrow) in
  r ∈ df
  /\ ("Payment Due Date", Payment_Due_Date) ∈ date_columns
  /\ (to_datetime false (Payment_Due_Date (raw (transformed r))) = None
      \/ exists d,
           to_datetime false (Payment_Due_Date (raw (transformed r))) = Some d
           /\ Calendar.date_gt d Fixtures.today = true)
  /\ (exists e,
        snd (run_quality_checks Fixtures.today Fixtures.settings
               Fixtures.rules df) = inl e)
  /\ (exists msg,
        snd (_validate_dates Fixtures.today df) = inl (ValueError msg)).
Proof.
  intros df r.
  assert (Hr : r ∈ df) by (left).
  assert (Hcol : ("Payment Due Date", Payment_Due_Date) ∈ date_columns)
    by (right; left).
  assert (Hbad :
            to_datetime false (Payment_Due_Date (raw (transformed r))) = None
            \/ exists d,
                 to_datetime false (Payment_Due_Date (raw (transformed r)))
                   = Some d
                 /\ Calendar.date_gt d Fixtures.today = true)
    by (right; exists Fixtures.tomorrow; split; reflexivity).
  split; [exact Hr|]. split; [exact Hcol|]. split; [exact Hbad|].
  exact (bad_date_raises Fixtures.today Fixtures.settings Fixtures.rules df r
           "Payment Due Date" Payment_Due_Date Hr Hcol Hbad).
Defined.

(** The two scenarios of the test suite, evaluated: the valid frame passes,
    and the frame with a payment due date one day ahead is refused by the
    date check. *)
Example quality_scenarios :
  snd (run_quality_checks Fixtures.today Fixtures.settings Fixtures.rules
         Fixtures.valid_dataframe) = inr tt
  /\ snd (run_quality_checks Fixtures.today Fixtures.settings Fixtures.rules
            Fixtures.future_dataframe)
     = inl (ValueError "Future-dated values found in column Payment Due Date").
Proof. split; vm_compute; reflexivity. Qed.

(** C8. The quality gate has no effect on the record set: whether it
    passes or raises, the frame it was given is the frame it leaves, and
    what it returns is either nothing or the exception, never a table. *)
Theorem quality_checks_frame (today : date) (settings : SettingsConfig)
    (rules : RulesConfig) (df : list FlaggedRow) :
  fst (run_quality_checks today settings rules df) = df
  /\ (run_quality_checks today settings rules df = (df, inr tt)
      \/ exists e, run_quality_checks today settings rules df = (df, inl e)).
Proof.
  pose proof (run_quality_checks_read_only today settings rules df) as Hfst.
  split; [exact Hfst|].
  destruct (run_quality_checks today settings rules df) as [df' [e|[]]];
    simpl in Hfst; subst df'.
  - right. exists e. reflexivity.
  - left. reflexivity.
Qed.

(** ** Grouping *)

Lemma insert_key_elem (k x : Z) (ks : list Z) :
  x ∈ GroupBy.insert_key k ks <-> x = k \/ x ∈ ks.
Proof.
  induction ks as [|k' rest IH]; simpl.
  - rewrite list_elem_of_singleton. split; [auto|].
    intros [H|H]; [exact H|inversion H].
  - destruct (Z.ltb_spec k k').
    + rewrite elem_of_cons. reflexivity.
    + destruct (Z.eqb_spec k k') as [->|Hne].
      * rewrite elem_of_cons. tauto.
      * rewrite !elem_of_cons, IH. tauto.
Qed.

Lemma insert_key_sorted (k : Z) (ks : list Z) :
  StronglySorted Z.lt ks -> StronglySorted Z.lt (GroupBy.insert_key k ks).
Proof.
  induction ks as [|k' rest IH]; simpl; intros Hs.
  - repeat constructor.
  - apply StronglySorted_inv in Hs. destruct Hs as [Hrest Hall].
    destruct (Z.ltb_spec k k').
    + constructor; [constructor; assumption|].
      constructor; [assumption|].
      eapply Forall_impl; [exact Hall|]. intros; simpl in *; lia.
    + destruct (Z.eqb_spec k k') as [->|Hne].
      * constructor; assumption.
      * constructor; [apply IH, Hrest|].
        apply Forall_forall. intros x Hx. apply insert_key_elem in Hx.
        destruct Hx as [->|Hx]; [lia|].
        rewrite Forall_forall in Hall. apply Hall, Hx.
Qed.

Lemma keys_sorted {A : Type} (key : A -> option Z) (rows : list A) :
  StronglySorted Z.lt (GroupBy.keys key rows).
Proof.
  unfold GroupBy.keys. induction (omap key rows) as [|k ks IH]; simpl.
  - constructor.
  - apply insert_key_sorted, IH.
Qed.

Lemma keys_elem {A : Type} (key : A -> option Z) (rows : list A) (k : Z) :
  k ∈ GroupBy.keys key rows <-> exists r, r ∈ rows /\ key r = Some k.
Proof.
  unfold GroupBy.keys. rewrite <- list_elem_of_omap.
  induction (omap key rows) as [|k' ks IH]; simpl.
  - reflexivity.
  - rewrite insert_key_elem, elem_of_cons, IH. reflexivity.
Qed.

Lemma sorted_lt_NoDup (l : list Z) : StronglySorted Z.lt l -> NoDup l.
Proof.
  induction 1 as [|x l Hs IH Hall]; constructor; auto.
  intros Hx. rewrite Forall_forall in Hall. specialize (Hall x Hx). lia.
Qed.

(** The table of aged invoices, in closed form: one rounded row per key. *)
Lemma aged_invoices_table (df : list FlaggedRow) (settings : SettingsConfig) :
  aged_invoices_by_year (compute_kpis df settings)
  = map (fun y => aged_invoice_row (round_decimals settings) y
                    (GroupBy.members payment_year (filter is_aged df) y))
        (GroupBy.keys payment_year (filter is_aged df)).
Proof.
  unfold compute_kpis. cbv zeta. cbn [aged_invoices_by_year].
  unfold GroupBy.agg.
  destruct (GroupBy.keys payment_year (filter is_aged df)) as [|k ks];
    [reflexivity|].
  cbn [map]. rewrite map_map. reflexivity.
Qed.

Lemma members_aged (df : list FlaggedRow) (y : Z) :
  GroupBy.members payment_year (filter is_aged df) y = aged_of_year df y.
Proof.
  unfold GroupBy.members, aged_of_year. apply list_filter_filter.
Qed.

(** C9. The table [aged_invoices_by_year] has exactly one row for every
    payment year found among the records whose bucket is ["Aged"], flagged
    as shortages or not, and no other row (records without a payment year
    form no group); the rows come in ascending order of year.  The row of a
    year holds, over the aged records of that year: the number of records
    that carry an invoice identifier (all of them when none is missing),
    the number of flagged records, the total invoice amount and the total
    shortage amount, both rounded to the configured decimals. *)
Theorem aged_invoices_by_year_rows (df : list FlaggedRow)
    (settings : SettingsConfig) :
  let table := aged_invoices_by_year (compute_kpis df settings) in
  let years := map AgedInvoices.Payment_Year table in
  let decimals := round_decimals settings in
  StronglySorted Z.lt years
  /\ NoDup years
  /\ (forall y, y ∈ years <->
        exists r, r ∈ df /\ Age_Bucket r = "Aged" /\ payment_year r = Some y)
  /\ Forall
       (fun t =>
          let g := aged_of_year df (AgedInvoices.Payment_Year t) in
          AgedInvoices.Invoice_Count t
            = Z.of_nat
                (length (filter (fun r => is_Some (randomized_invoice r)) g))
          /\ (Forall (fun r => is_Some (randomized_invoice r)) g ->
                AgedInvoices.Invoice_Count t = Z.of_nat (length g))
          /\ AgedInvoices.Shortage_Count t
               = Z.of_nat (length (filter (fun r => Shortage_Flag r = true) g))
          /\ AgedInvoices.Total_Invoice_USD t
               = Float.round decimals (Float.sum (map invoice_amount g))
          /\ AgedInvoices.Total_Shortage_USD t
               = Float.round decimals (Float.sum (map Shortage_Amount_USD g)))
       table.
Proof.
  intros table years decimals.
  assert (Hyears : years = GroupBy.keys payment_year (filter is_aged df)).
  { unfold years, table. rewrite aged_invoices_table, map_map. simpl.
    apply map_id. }
  assert (Hsorted : StronglySorted Z.lt years)
    by (rewrite Hyears; apply keys_sorted).
  split; [exact Hsorted|]. split; [apply sorted_lt_NoDup, Hsorted|]. split.
  - intros y. rewrite Hyears, keys_elem. split.
    + intros (r & Hr & Hy). apply list_elem_of_filter in Hr.
      destruct Hr as [Haged Hr]. exists r. auto.
    + intros (r & Hr & Haged & Hy). exists r. split; [|exact Hy].
      apply list_elem_of_filter. auto.
  - unfold table. rewrite aged_invoices_table. apply Forall_map.
    apply Forall_forall. intros y _.
    cbn [aged_invoice_row AgedInvoices.Payment_Year AgedInvoices.Invoice_Count
         AgedInvoices.Shortage_Count AgedInvoices.Total_Invoice_USD
         AgedInvoices.Total_Shortage_USD].
    rewrite members_aged. unfold Agg.count, Agg.sum_bool, Agg.sum.
    repeat split.
    intros Hall. f_equal. f_equal.
    induction (aged_of_year df y) as [|r g IH]; [reflexivity|].
    apply Forall_cons in Hall. destruct Hall as [Hr Hg].
    rewrite filter_cons_True by exact Hr. simpl. f_equal. apply IH, Hg.
Qed.

(** Scenario 6: two aged records, of years 2023 and 2024. *)
Example aged_invoices_scenario :
  aged_invoices_by_year (compute_kpis Fixtures.kpi_dataframe Fixtures.settings)
  = [ {| AgedInvoices.Payment_Year := 2023;
         AgedInvoices.Invoice_Count := 1;
         AgedInvoices.Shortage_Count := 1;
         AgedInvoices.Total_Invoice_USD := 110;
         AgedInvoices.Total_Shortage_USD := 10 |};
      {| AgedInvoices.Payment_Year := 2024;
         AgedInvoices.Invoice_Count := 1;
         AgedInvoices.Shortage_Count := 0;
         AgedInvoices.Total_Invoice_USD := 120;
         AgedInvoices.Total_Shortage_USD := 0 |} ].
Proof. vm_compute. reflexivity. Qed.

(** ** Two readings of the payment due date *)

(** C10. The shortage evaluation reads the payment due date day first
    whatever [date_format] says: its result does not depend on that
    setting, and [Days_Past_Due] is counted from the day-first reading.
    Transform reads the same column with the configured convention to get
    [Payment_Year].  With a month-first configuration the text
    ["03/04/2024"] is therefore 3 April 2024 for the evaluation and
    4 March 2024 for Transform; on 15 June 2024, with a threshold of 90
    days, the evaluation finds the record 73 days past due and current,
    where the configured reading gives 103 days. *)
Theorem due_date_conventions_differ :
  (forall today df settings rules fmt,
     apply_shortage_logic today df (with_date_format fmt settings) rules
     = apply_shortage_logic today df settings rules)
  /\ (forall today settings rules r,
        Days_Past_Due (shortage_row today settings rules r)
        = clip_fill (days_between today
                       (to_datetime true (Payment_Due_Date (raw r)))))
  /\ (forall settings r,
        Payment_Year (transform_row settings r)
        = option_map year
            (to_datetime (dayfirst_of settings) (Payment_Due_Date r)))
  /\ dayfirst_of Fixtures.settings = true
  /\ dayfirst_of Fixtures.settings_monthfirst = false
  /\ (let due := DateText "03/04/2024" in
      let settings := Fixtures.settings_monthfirst in
      let r := Fixtures.raw_row (Some 105%Q) (Some 100%Q) None due in
      let t := transform_row settings r in
      let r' := shortage_row Fixtures.today settings Fixtures.rules t in
      shortage_payment_due due = Some (Date 2024 4 3)
      /\ transform_payment_due settings due = Some (Date 2024 3 4)
      /\ shortage_payment_due due <> transform_payment_due settings due
      /\ Payment_Year t = Some 2024
      /\ Days_Past_Due r' = 73
      /\ Age_Bucket r' = "Current"
      /\ clip_fill (days_between Fixtures.today
                      (transform_payment_due settings due)) = 103).
Proof.
  split; [|split; [|split; [|split; [|split]]]].
  - intros today df settings rules fmt. reflexivity.
  - intros today settings rules r. reflexivity.
  - intros settings r. reflexivity.
  - reflexivity.
  - reflexivity.
  - cbv zeta. repeat split; try (vm_compute; reflexivity).
    vm_compute. discriminate.
Qed.


(** * Further properties *)

(** ** The currency check *)

Lemma upper_eq_matches (c : option string) (expected : string) :
  upper_eq c (Str.upper expected) = true <-> currency_matches expected c.
Proof.
  unfold currency_matches. destruct c as [s|]; simpl.
  - rewrite String.eqb_eq. split.
    + intros H. exists s. auto.
    + intros (s' & [= <-] & H). exact H.
  - split; [discriminate | intros (s & Hs & _); discriminate].
Qed.

Lemma forallb_combine_map {A : Type} (f g : A -> bool) (l : list A) :
  forallb (fun '(p, i) => p && i) (combine (map f l) (map g l))
  = forallb (fun x => f x && g x) l.
Proof.
  induction l as [|x l IH]; simpl; [reflexivity|]. rewrite IH. reflexivity.
Qed.

Lemma forallb_Forall {A : Type} (f : A -> bool) (P : A -> Prop) (l : list A) :
  (forall x, f x = true <-> P x) ->
  forallb f l = true <-> Forall P l.
Proof.
  intros Hf. induction l as [|x l IH]; simpl.
  - split; constructor.
  - rewrite andb_true_iff, Forall_cons, Hf, IH. reflexivity.
Qed.

Lemma validate_currency_run (expected : string) (df : list FlaggedRow) :
  _validate_currency expected df
  = (df,
     if forallb
          (fun r =>
             upper_eq (Paid_Amount_Currency (raw (transformed r)))
               (Str.upper expected)
             && upper_eq (Invoice_Currency (raw (transformed r)))
                  (Str.upper expected)) df
     then inr tt
     else inl (ValueError
                 "Non-compliant currency detected during quality checks.")).
Proof.
  unfold _validate_currency, mbind, Check_bind, read. cbv zeta.
  rewrite forallb_combine_map.
  destruct (forallb _ df); reflexivity.
Qed.

Lemma compliant_forallb (expected : string) (df : list FlaggedRow) :
  forallb
    (fun r =>
       upper_eq (Paid_Amount_Currency (raw (transformed r)))
         (Str.upper expected)
       && upper_eq (Invoice_Currency (raw (transformed r)))
            (Str.upper expected)) df = true
  <-> Forall (fun r => currency_compliant expected (raw (transformed r))) df.
Proof.
  apply forallb_Forall. intros r. unfold currency_compliant.
  rewrite andb_true_iff, !upper_eq_matches. reflexivity.
Qed.

(** X1. On a frame in which no currency is missing, the currency check
    passes exactly when, in every record, both currencies equal the
    expected currency once both sides are upper-cased; otherwise it raises
    its one [ValueError], whatever the record at fault. *)
Theorem validate_currency_passes_iff (expected : string)
    (df : list FlaggedRow) :
  Forall (fun r => currencies_present (raw (transformed r))) df ->
  (snd (_validate_currency expected df) = inr tt
   <-> Forall (fun r => currency_compliant expected (raw (transformed r))) df)
  /\ (snd (_validate_currency expected df) = inr tt
      \/ snd (_validate_currency expected df) = inl currency_error).
Proof.
  intros _. rewrite validate_currency_run. cbn [snd].
  rewrite <- compliant_forallb. unfold currency_error.
  destruct (forallb _ df); split; auto; split; auto; discriminate.
Qed.

(** The frame of the tests, checked against the expected currency written
    in lower case. *)
Lemma validate_currency_passes_iff_witness :
  let df := Fixtures.valid_dataframe in
  Forall (fun r => currencies_present (raw (transformed r))) df
  /\ (snd (_validate_currency "usd" df) = inr tt
      <-> Forall (fun r => currency_compliant "usd" (raw (transformed r))) df)
  /\ (snd (_validate_currency "usd" df) = inr tt
      \/ snd (_validate_currency "usd" df) = inl currency_error).
Proof.
  intros df.
  assert (H : Forall (fun r => currencies_present (raw (transformed r))) df)
    by (repeat constructor; discriminate).
  split; [exact H|].
  exact (validate_currency_passes_iff "usd" df H).
Defined.

(** ** The date check *)

Lemma existsb_map_false {A B : Type} (f : B -> bool) (g : A -> B) (l : list A) :
  existsb f (map g l) = false <-> Forall (fun x => f (g x) = false) l.
Proof.
  induction l as [|a l IH]; simpl.
  - split; constructor.
  - rewrite orb_false_iff, Forall_cons, IH. reflexivity.
Qed.

Lemma validate_date_column_run (today : date) (name : string)
    (get : RawRow -> date_cell) (df : list FlaggedRow) :
  let parsed := map (fun r => to_datetime false (get (raw (transformed r)))) df in
  validate_date_column today (name, get) df
  = (df,
     if existsb isna parsed
     then inl (ValueError ("Invalid date values found in column " ++ name))
     else if existsb (is_future today) parsed
     then inl (ValueError ("Future-dated values found in column " ++ name))
     else inr tt).
Proof.
  cbv zeta. unfold validate_date_column, mbind, Check_bind, read.
  destruct (existsb isna _); [reflexivity|].
  destruct (existsb (is_future today) _); reflexivity.
Qed.

Lemma date_ok_bools (today : date) (c : date_cell) :
  date_ok today c
  <-> isna (to_datetime false c) = false
      /\ is_future today (to_datetime false c) = false.
Proof.
  unfold date_ok. destruct (to_datetime false c) as [d|]; simpl.
  - split.
    + intros (d' & [= <-] & H). auto.
    + intros [_ H]. exists d. auto.
  - split; [intros (d & Hd & _); discriminate | intros [H _]; discriminate].
Qed.

Lemma validate_date_column_passes (today : date)
    (col : string * (RawRow -> date_cell)) (df : list FlaggedRow) :
  snd (validate_date_column today col df) = inr tt
  <-> column_clean today col df.
Proof.
  destruct col as [name get]. rewrite validate_date_column_run. cbn [snd].
  unfold column_clean. cbn [snd].
  transitivity
    (existsb isna
       (map (fun r => to_datetime false (get (raw (transformed r)))) df) = false
     /\ existsb (is_future today)
          (map (fun r => to_datetime false (get (raw (transformed r)))) df)
        = false).
  - destruct (existsb isna _); [split; [discriminate|intros [? _]; discriminate]|].
    destruct (existsb (is_future today) _);
      [split; [discriminate|intros [_ ?]; discriminate]|].
    split; auto.
  - rewrite !existsb_map_false, <- Forall_and.
    apply Forall_iff. intros r. symmetry. apply date_ok_bools.
Qed.

(** A loop passes exactly when every iteration passes on the frame. *)
Lemma for_each_passes {A : Type} (body : A -> Check unit) (l : list A)
    (df : list FlaggedRow) :
  (forall y, read_only (body y)) ->
  snd (for_each body l df) = inr tt
  <-> Forall (fun y => snd (body y df) = inr tt) l.
Proof.
  intros Hro. induction l as [|y l IH]; cbn [for_each].
  - split; [constructor | reflexivity].
  - rewrite Forall_cons. destruct (snd (body y df)) as [e|[]] eqn:E.
    + rewrite (bind_raises_l (body y) _ df e E).
      split; [discriminate | intros [H _]; discriminate].
    + rewrite (bind_continues (body y) _ df () (Hro y) E), IH.
      split; [auto | intros [_ H]; exact H].
Qed.

(** What a loop raises: the exception of the first iteration that does. *)
Lemma for_each_first {A : Type} (body : A -> Check unit) (pre post : list A)
    (x : A) (df : list FlaggedRow) (e : exn) :
  (forall y, read_only (body y)) ->
  Forall (fun y => snd (body y df) = inr tt) pre ->
  snd (body x df) = inl e ->
  snd (for_each body (pre ++ x :: post)%list df) = inl e.
Proof.
  intros Hro Hpre Hx. induction Hpre as [|y pre Hy _ IH]; cbn [for_each app].
  - apply bind_raises_l, Hx.
  - rewrite (bind_continues (body y) _ df () (Hro y) Hy). exact IH.
Qed.

(** X2. The date check passes exactly when every record has, in each of
    its three date columns, a date that can be read and is not later than
    today; a date equal to today passes. *)
Theorem validate_dates_passes_iff (today : date) (df : list FlaggedRow) :
  snd (_validate_dates today df) = inr tt
  <-> Forall (fun r => dates_ok today (raw (transformed r))) df.
Proof.
  unfold _validate_dates. cbv zeta.
  rewrite for_each_passes
    by (intros col; apply validate_date_column_read_only).
  unfold date_columns. rewrite !Forall_cons, Forall_nil.
  rewrite !validate_date_column_passes. unfold column_clean, dates_ok.
  cbn [snd]. rewrite !Forall_and. tauto.
Qed.

(** X3. The date check reports the first column, in the order invoice
    date, payment due date, invoice creation date, that holds an
    unacceptable date: as invalid when some date of that column cannot be
    read, as future-dated when all can be read and one is later than
    today.  Later columns are not examined. *)
Theorem validate_dates_first_offender (today : date) (df : list FlaggedRow)
    (pre post : list (string * (RawRow -> date_cell))) (name : string)
    (get : RawRow -> date_cell) :
  date_columns = (pre ++ (name, get) :: post)%list ->
  Forall (fun col => column_clean today col df) pre ->
  ~ column_clean today (name, get) df ->
  ((exists r, r ∈ df /\ to_datetime false (get (raw (transformed r))) = None) ->
     snd (_validate_dates today df)
     = inl (ValueError ("Invalid date values found in column " ++ name)))
  /\ ((forall r, r ∈ df ->
         to_datetime false (get (raw (transformed r))) <> None) ->
        snd (_validate_dates today df)
        = inl (ValueError ("Future-dated values found in column " ++ name))).
Proof.
  intros Hcols Hpre Hbad. unfold _validate_dates. cbv zeta. rewrite Hcols.
  assert (Hpre' : Forall
            (fun col => snd (validate_date_column today col df) = inr tt) pre).
  { eapply Forall_impl; [exact Hpre|]. intros col H.
    apply validate_date_column_passes, H. }
  split.
  - intros (r & Hr & Hnone).
    apply for_each_first;
      [intros col; apply validate_date_column_read_only | exact Hpre' |].
    rewrite validate_date_column_run. cbn [snd].
    assert (E : existsb isna
                  (map (fun r0 => to_datetime false (get (raw (transformed r0))))
                     df) = true).
    { apply existsb_map. exists r. rewrite Hnone. auto. }
    rewrite E. reflexivity.
  - intros Hall.
    apply for_each_first;
      [intros col; apply validate_date_column_read_only | exact Hpre' |].
    rewrite validate_date_column_run. cbn [snd].
    assert (E : existsb isna
                  (map (fun r0 => to_datetime false (get (raw (transformed r0))))
                     df) = false).
    { apply existsb_map_false. apply Forall_forall. intros r Hr.
      specialize (Hall r Hr).
      destruct (to_datetime false (get (raw (transformed r)))); [reflexivity|].
      congruence. }
    rewrite E.
    destruct (existsb (is_future today) _) eqn:F; [reflexivity|].
    exfalso. apply Hbad.
    apply (validate_date_column_passes today (name, get) df).
    rewrite validate_date_column_run. cbn [snd]. rewrite E, F. reflexivity.
Qed.

(** A frame whose invoice dates are fine, and whose payment due date and
    invoice creation date are both a day ahead: the payment due date is
    the column reported. *)
Lemma validate_dates_first_offender_witness :
  let r :=
    MoreFixtures.set_invoice_creation_date (DateValue Fixtures.tomorrow)
      (Fixtures.valid_row (DateValue Fixtures.tomorrow)) in
  let df := [r] in
  let pre := [("Invoice Date", Invoice_Date)] in
  let post := [("Invoice Creation Date", Invoice_Creation_Date)] in
  date_columns = (pre ++ ("Payment Due Date", Payment_Due_Date) :: post)%list
  /\ Forall (fun col => column_clean Fixtures.today col df) pre
  /\ ~ column_clean Fixtures.today ("Payment Due Date", Payment_Due_Date) df
  /\ snd (_validate_dates Fixtures.today df)
     = inl (ValueError "Future-dated values found in column Payment Due Date").
Proof.
  intros r df pre post.
  assert (Hcols : date_columns
                  = (pre ++ ("Payment Due Date", Payment_Due_Date) :: post)%list)
    by reflexivity.
  assert (Hpre : Forall (fun col => column_clean Fixtures.today col df) pre).
  { repeat constructor. exists Fixtures.today. split; reflexivity. }
  assert (Hbad : ~ column_clean Fixtures.today
                     ("Payment Due Date", Payment_Due_Date) df).
  { intros H. apply Forall_cons in H. destruct H as [(d & Hd & Hgt) _].
    cbn in Hd. injection Hd as <-. vm_compute in Hgt. discriminate Hgt. }
  split; [exact Hcols|]. split; [exact Hpre|]. split; [exact Hbad|].
  apply (validate_dates_first_offender Fixtures.today df pre post
           "Payment Due Date" Payment_Due_Date Hcols Hpre Hbad).
  intros r0 Hr0. apply list_elem_of_singleton in Hr0. subst r0.
  cbn. discriminate.
Defined.

(** ** The schema *)

Lemma flat_map_nil {A B : Type} (f : A -> list B) (l : list A) :
  flat_map f l = [] <-> Forall (fun x => f x = []) l.
Proof.
  induction l as [|x l IH]; simpl.
  - split; constructor.
  - rewrite Forall_cons, <- IH. split.
    + intros H. apply app_eq_nil in H. exact H.
    + intros [H1 H2]. rewrite H1, H2. reflexivity.
Qed.

(** The cells of a column of the frame, row by row. *)
Lemma column_cells (name : string) (df : list FlaggedRow) (cells : list cell)
    (P : cell -> Prop) :
  mapM (column name) df = Some cells ->
  Forall P cells
  <-> Forall (fun r => match column name r with
                       | Some v => P v
                       | None => False
                       end) df.
Proof.
  rewrite mapM_Some. induction 1 as [|r v df cells Hrv _ IH].
  - split; constructor.
  - rewrite !Forall_cons, IH, Hrv. reflexivity.
Qed.

(** A column has nothing to report when the frame has it and each of its
    cells passes. *)
Lemma column_failures_nil (schema name : string) (col : Pandera.Column)
    (df : list FlaggedRow) :
  Pandera.column_failures schema name col df = []
  <-> Forall (fun r => match column name r with
                       | Some v => cell_passes col v = true
                       | None => False
                       end) df.
Proof.
  unfold Pandera.column_failures.
  destruct (mapM (column name) df) as [cells|] eqn:E.
  - rewrite <- (column_cells name df cells _ E).
    rewrite !app_nil. unfold cell_passes.
    setoid_rewrite andb_true_iff. setoid_rewrite andb_true_iff.
    rewrite !Forall_and.
    rewrite <- (forallb_Forall (Pandera.has_dtype (Pandera.col_dtype col))
                  (fun v => Pandera.has_dtype (Pandera.col_dtype col) v = true))
      by reflexivity.
    assert (Hd : (if forallb (Pandera.has_dtype (Pandera.col_dtype col)) cells
                  then []
                  else [(name,
                         "dtype('" ++ Pandera.dtype_name (Pandera.col_dtype col)
                         ++ "')")]) = []
                 <-> forallb (Pandera.has_dtype (Pandera.col_dtype col)) cells
                     = true)
      by (destruct (forallb _ cells); split; congruence).
    assert (Hn : (if Pandera.nullable col then []
                  else flat_map
                         (fun v => if Pandera.is_null v
                                   then [(name, "not_nullable")] else [])
                         cells) = []
                 <-> Forall (fun v => Pandera.nullable col
                                      || negb (Pandera.is_null v) = true)
                       cells).
    { destruct (Pandera.nullable col); cbn [orb].
      - split; [intros _; apply Forall_forall; reflexivity | reflexivity].
      - rewrite flat_map_nil. apply Forall_iff. intros v.
        destruct (Pandera.is_null v); cbn [negb]; split; congruence. }
    assert (Hc : flat_map
                   (fun k =>
                      flat_map
                        (fun v => if Pandera.holds k v then []
                                  else [(name, Pandera.check_name k)])
                        cells)
                   (Pandera.checks col) = []
                 <-> Forall (fun v => forallb (fun k => Pandera.holds k v)
                                        (Pandera.checks col) = true) cells).
    { rewrite flat_map_nil. setoid_rewrite flat_map_nil.
      rewrite !Forall_forall. split.
      - intros H v Hv. apply forallb_forall. intros k Hk.
        apply list_elem_of_In in Hk. specialize (H k Hk).
        rewrite Forall_forall in H. specialize (H v Hv).
        destruct (Pandera.holds k v); congruence.
      - intros H k Hk. apply Forall_forall. intros v Hv.
        specialize (H v Hv). rewrite forallb_forall in H.
        rewrite (H k); [reflexivity | apply list_elem_of_In, Hk]. }
    rewrite Hd, Hn, Hc. tauto.
  - split; [discriminate|]. intros H.
    apply mapM_None, Exists_exists in E. destruct E as (r & Hr & Hnone).
    rewrite Forall_forall in H. specialize (H r Hr).
    rewrite Hnone in H. destruct H.
Qed.

(** The schema has nothing to report when every row passes in every
    column. *)
Lemma failures_nil (schema : Pandera.DataFrameSchema) (df : list FlaggedRow) :
  Pandera.failures schema df = []
  <-> Forall
        (fun r =>
           Forall (fun '(name, col) =>
                     match column name r with
                     | Some v => cell_passes col v = true
                     | None => False
                     end)
                  (Pandera.schema_columns schema))
        df.
Proof.
  unfold Pandera.failures. rewrite flat_map_nil.
  rewrite !Forall_forall. split.
  - intros H r Hr. apply Forall_forall. intros [name col] Hc.
    specialize (H (name, col) Hc). cbn in H.
    rewrite column_failures_nil, Forall_forall in H. apply H, Hr.
  - intros H [name col] Hc. rewrite column_failures_nil. apply Forall_forall.
    intros r Hr. specialize (H r Hr). rewrite Forall_forall in H.
    apply (H (name, col) Hc).
Qed.

Lemma date_cell_passes (c : date_cell) :
  cell_passes (Pandera.Build_Column Pandera.Object false []) (CDate c) = true
  <-> c <> DateNull.
Proof.
  destruct c; cbn; split; intros H; try reflexivity; try discriminate.
  congruence.
Qed.

Lemma str_cell_passes (c : option string) :
  cell_passes (Pandera.Build_Column Pandera.String false []) (CStr c) = true
  <-> c <> None.
Proof.
  destruct c; cbn; split; intros H; try reflexivity; try discriminate.
  congruence.
Qed.

Lemma float_cell_passes (c : option Q) :
  cell_passes (Pandera.Build_Column Pandera.Float false []) (CFloat c) = true
  <-> c <> None.
Proof.
  destruct c; cbn; split; intros H; try reflexivity; try discriminate.
  congruence.
Qed.

Lemma amount_cell_passes (c : option Q) :
  cell_passes (Pandera.Build_Column Pandera.Float false [Pandera.ge 0])
    (CFloat c) = true
  <-> present_nonneg c.
Proof.
  unfold present_nonneg, cell_passes.
  cbn [Pandera.has_dtype Pandera.col_dtype Pandera.nullable Pandera.checks
       Pandera.is_null Pandera.holds forallb andb orb].
  destruct c as [q|]; cbn [Float.ge_cell negb andb].
  - rewrite andb_true_r. change (inject_Z 0) with 0%Q.
    rewrite Qle_bool_iff. split.
    + intros H. exists q. auto.
    + intros (q' & [= <-] & Hq). exact Hq.
  - split; [discriminate | intros (q & Hq & _); discriminate].
Qed.

Lemma days_cell_passes (n : Z) :
  cell_passes (Pandera.Build_Column Pandera.Int64 false [Pandera.ge 0])
    (CInt (Some n)) = true
  <-> 0 <= n.
Proof.
  cbn. rewrite andb_true_r. apply Z.leb_le.
Qed.

Lemma row_passes_schema (settings : SettingsConfig) (r : FlaggedRow) :
  Forall (fun '(name, col) =>
            match column name r with
            | Some v => cell_passes col v = true
            | None => False
            end)
         (Pandera.schema_columns (_build_schema settings))
  <-> schema_ok r.
Proof.
  unfold _build_schema, schema_ok. cbv zeta. cbn [Pandera.schema_columns].
  rewrite !Forall_cons, Forall_nil.
  unfold column, columns. cbn [assoc String.eqb Ascii.eqb Bool.eqb].
  rewrite !date_cell_passes, !str_cell_passes, !amount_cell_passes,
    !float_cell_passes, days_cell_passes.
  cbn [cell_passes Pandera.has_dtype Pandera.is_null
       Pandera.col_dtype Pandera.nullable Pandera.checks negb andb orb
       forallb].
  assert (Hage : Some (Age_Bucket r) <> None) by discriminate.
  tauto.
Qed.

(** In the row model, where every column has the dtype the schema expects,
    the schema has nothing to report exactly when the values of every row
    are as it asks. *)
Lemma failures_nil_ok (settings : SettingsConfig) (df : list FlaggedRow) :
  Pandera.failures (_build_schema settings) df = [] <-> Forall schema_ok df.
Proof.
  rewrite failures_nil. apply Forall_iff. intros r.
  apply row_passes_schema.
Qed.

Lemma validate_run (schema : Pandera.DataFrameSchema) (df : list FlaggedRow) :
  snd (Pandera.validate schema df)
  = match Pandera.failures schema df with
    | [] => inr tt
    | fs => inl (SchemaErrors fs)
    end.
Proof.
  unfold Pandera.validate, mbind, Check_bind, read.
  destruct (Pandera.failures schema df); reflexivity.
Qed.

(** X4. The schema reports every record whose values are not as it asks:
    a record that lacks one of its three dates, its status, a currency, an
    identifier, its delta or its shortage amount, or whose invoice or paid
    amount is missing or negative, or whose day count is negative.  With
    such a record in the frame, validation raises [SchemaErrors] with at
    least one failure; a frame on which nothing is reported has no such
    record.  (The dtype of a column is not among the conditions: a frame
    with values as asked may still be refused on dtype.) *)
Theorem schema_reports_defects (settings : SettingsConfig)
    (df : list FlaggedRow) :
  (Pandera.failures (_build_schema settings) df = [] -> Forall schema_ok df)
  /\ (~ Forall schema_ok df ->
      exists f fs,
        Pandera.validate (_build_schema settings) df
        = (df, inl (SchemaErrors (f :: fs)))).
Proof.
  split; [apply failures_nil_ok|]. intros Hbad.
  unfold Pandera.validate, mbind, Check_bind, read.
  destruct (Pandera.failures (_build_schema settings) df) as [|f fs] eqn:E.
  - apply failures_nil_ok in E. contradiction.
  - exists f, fs. reflexivity.
Qed.

Lemma dates_pass (today : date) (df : list FlaggedRow) :
  snd (_validate_dates today df) = inr tt
  <-> Forall (fun r => dates_ok today (raw (transformed r))) df.
Proof.
  unfold _validate_dates. cbv zeta.
  rewrite for_each_passes
    by (intros col; apply validate_date_column_read_only).
  unfold date_columns. rewrite !Forall_cons, Forall_nil.
  rewrite !validate_date_column_passes. unfold column_clean, dates_ok.
  cbn [snd]. rewrite !Forall_and. tauto.
Qed.

(** ** The order of the checks *)

Lemma bind_run {A B : Type} (m : Check A) (f : A -> Check B)
    (df : list FlaggedRow) :
  read_only m ->
  snd ((m ≫= f) df)
  = match snd (m df) with
    | inl e => inl e
    | inr x => snd (f x df)
    end.
Proof.
  intros Hm. destruct (snd (m df)) as [e|x] eqn:E.
  - apply bind_raises_l, E.
  - rewrite (bind_continues m f df x Hm E). reflexivity.
Qed.

(** The gate, check by check. *)
Lemma run_quality_checks_run (today : date) (settings : SettingsConfig)
    (rules : RulesConfig) (df : list FlaggedRow) :
  snd (run_quality_checks today settings rules df)
  = match df with
    | [] => inl (ValueError "Quality check failed: dataframe is empty.")
    | _ :: _ =>
        match Pandera.failures (_build_schema settings) df with
        | (_ :: _) as fs => inl (SchemaErrors fs)
        | [] =>
            match snd (_validate_currency (currency_expected settings) df) with
            | inl e => inl e
            | inr _ => snd (_validate_dates today df)
            end
        end
    end.
Proof.
  unfold run_quality_checks.
  rewrite bind_run by apply read_only_read.
  destruct df as [|r df]; [reflexivity|].
  cbn [read snd df_empty]. cbv zeta.
  rewrite bind_run by apply validate_read_only.
  rewrite validate_run.
  destruct (Pandera.failures (_build_schema settings) (r :: df));
    [|reflexivity].
  rewrite bind_run by apply validate_currency_read_only.
  reflexivity.
Qed.

Lemma date_error_not_currency_error : ~ date_error currency_error.
Proof. intros (column & [H|H]); discriminate H. Qed.

(** What the gate answers, on a frame that is not empty and in terms of the
    values of its rows: the failures of the schema, else the error of the
    currency check, else the answer of the date check. *)
Lemma run_quality_checks_cases (today : date) (settings : SettingsConfig)
    (rules : RulesConfig) (df : list FlaggedRow) :
  df <> [] ->
  (~ Forall schema_ok df
   /\ exists f fs,
        snd (run_quality_checks today settings rules df)
        = inl (SchemaErrors (f :: fs)))
  \/ (Forall schema_ok df
      /\ ~ Forall (fun r => currency_compliant (currency_expected settings)
                              (raw (transformed r))) df
      /\ snd (run_quality_checks today settings rules df) = inl currency_error)
  \/ (Forall schema_ok df
      /\ Forall (fun r => currency_compliant (currency_expected settings)
                            (raw (transformed r))) df
      /\ snd (run_quality_checks today settings rules df)
         = snd (_validate_dates today df)).
Proof.
  intros Hne. rewrite run_quality_checks_run.
  destruct df as [|r df]; [congruence|].
  rewrite <- !failures_nil_ok with (settings := settings).
  rewrite <- !(compliant_forallb (currency_expected settings)).
  rewrite validate_currency_run. cbn [snd]. unfold currency_error.
  destruct (Pandera.failures (_build_schema settings) (r :: df)) as [|f fs].
  - right. destruct (forallb _ (r :: df)).
    + right. auto.
    + left. split; [reflexivity|]. split; [discriminate|reflexivity].
  - left. split; [discriminate|]. exists f, fs. reflexivity.
Qed.

(** What a loop raises was raised by one of its iterations. *)
Lemma for_each_raised_by {A : Type} (body : A -> Check unit) (l : list A)
    (df : list FlaggedRow) (e : exn) :
  (forall y, read_only (body y)) ->
  snd (for_each body l df) = inl e ->
  exists x, x ∈ l /\ snd (body x df) = inl e.
Proof.
  intros Hro. induction l as [|y l IH]; cbn [for_each]; [discriminate|].
  destruct (snd (body y df)) as [e'|[]] eqn:E.
  - rewrite (bind_raises_l (body y) _ df e' E). intros [= <-].
    exists y. split; [left|exact E].
  - rewrite (bind_continues (body y) _ df () (Hro y) E). intros H.
    destruct (IH H) as (x & Hx & Hxe). exists x. split; [right|]; assumption.
Qed.

Lemma validate_dates_error (today : date) (df : list FlaggedRow) (e : exn) :
  snd (_validate_dates today df) = inl e -> date_error e.
Proof.
  intros H. unfold _validate_dates in H. cbv zeta in H.
  apply for_each_raised_by in H;
    [|intros col; apply validate_date_column_read_only].
  destruct H as ([name get] & _ & H).
  rewrite validate_date_column_run in H. cbn [snd] in H.
  exists name.
  destruct (existsb isna _); [left; congruence|].
  destruct (existsb (is_future today) _); [right; congruence|discriminate].
Qed.

(** X5. The quality gate passes only on a frame that is not empty and in
    which every record has the values the schema asks for, both currencies
    equal to the expected one (letter case apart) and three dates that can
    be read and are not later than today.  A frame that misses any of this
    makes the gate raise. *)
Theorem quality_checks_pass_only_if (today : date)
    (settings : SettingsConfig) (rules : RulesConfig) (df : list FlaggedRow) :
  snd (run_quality_checks today settings rules df) = inr tt ->
  df <> []
  /\ Forall schema_ok df
  /\ Forall (fun r => currency_compliant (currency_expected settings)
                        (raw (transformed r))) df
  /\ Forall (fun r => dates_ok today (raw (transformed r))) df.
Proof.
  intros Hpass.
  assert (Hne : df <> []).
  { intros ->. rewrite run_quality_checks_run in Hpass. discriminate. }
  split; [exact Hne|].
  destruct (run_quality_checks_cases today settings rules df Hne)
    as [(_ & f & fs & H)|[(_ & _ & H)|(Hs & Hc & H)]];
    rewrite H in Hpass; try discriminate.
  apply dates_pass in Hpass. auto.
Qed.

(** The frame of the tests passes, and has all of it. *)
Lemma quality_checks_pass_only_if_witness :
  let df := Fixtures.valid_dataframe in
  snd (run_quality_checks Fixtures.today Fixtures.settings Fixtures.rules df)
  = inr tt
  /\ df <> []
  /\ Forall schema_ok df
  /\ Forall (fun r => currency_compliant "USD" (raw (transformed r))) df
  /\ Forall (fun r => dates_ok Fixtures.today (raw (transformed r))) df.
Proof.
  intros df. split; [reflexivity|].
  exact (quality_checks_pass_only_if Fixtures.today Fixtures.settings
           Fixtures.rules df eq_refl).
Defined.

(** X6. On a frame that is not empty the checks answer in a fixed order.
    A record whose values are not as the schema asks makes the gate raise
    [SchemaErrors], whatever the currencies and dates are.  The currency
    error is raised only when the values of every record are as the schema
    asks and some currency does not match, whatever the dates are.  An
    error of the date check is raised only when, besides, every currency
    matches; it is then the error the date check raises on its own. *)
Theorem quality_checks_order (today : date) (settings : SettingsConfig)
    (rules : RulesConfig) (df : list FlaggedRow) :
  df <> [] ->
  (~ Forall schema_ok df ->
     exists f fs,
       snd (run_quality_checks today settings rules df)
       = inl (SchemaErrors (f :: fs)))
  /\ (snd (run_quality_checks today settings rules df) = inl currency_error ->
      Forall schema_ok df
      /\ ~ Forall (fun r => currency_compliant (currency_expected settings)
                              (raw (transformed r))) df)
  /\ (forall e,
        date_error e ->
        snd (run_quality_checks today settings rules df) = inl e ->
        Forall schema_ok df
        /\ Forall (fun r => currency_compliant (currency_expected settings)
                              (raw (transformed r))) df
        /\ snd (_validate_dates today df) = inl e).
Proof.
  intros Hne.
  destruct (run_quality_checks_cases today settings rules df Hne)
    as [(Hs & f & fs & H)|[(Hs & Hc & H)|(Hs & Hc & H)]]; rewrite H.
  - split; [eauto|]. split; [discriminate|].
    intros e (column & [He|He]) [= <-]; discriminate He.
  - split; [contradiction|]. split; [auto|].
    intros e He [= <-]. destruct (date_error_not_currency_error He).
  - split; [contradiction|]. split.
    + intros He. apply validate_dates_error in He.
      destruct (date_error_not_currency_error He).
    + auto.
Qed.

(** A record with a negative paid amount, a foreign currency and a due
    date in the future: the schema has one failure to report, and it is
    the schema that answers. *)
Example schema_failure_scenario :
  Pandera.failures (_build_schema Fixtures.settings) [MoreFixtures.bad_row]
  = [("Actual Paid Amount", "greater_than_or_equal_to(0)")].
Proof. reflexivity. Qed.

Lemma quality_checks_order_witness :
  let df := [MoreFixtures.bad_row] in
  df <> []
  /\ exists f fs,
       snd (run_quality_checks Fixtures.today Fixtures.settings
              Fixtures.rules df)
       = inl (SchemaErrors (f :: fs)).
Proof.
  intros df.
  assert (Hne : df <> []) by discriminate.
  split; [exact Hne|].
  apply (quality_checks_order Fixtures.today Fixtures.settings Fixtures.rules
           df Hne).
  intros H. apply Forall_inv in H.
  destruct H as (_ & _ & _ & (q & [= <-] & Hq) & _).
  apply Qle_bool_iff in Hq. discriminate Hq.
Defined.

(** ** Evaluated frames and the schema *)

Lemma shortage_row_amount (today : date) (settings : SettingsConfig)
    (rules : RulesConfig) (r : TransformedRow) :
  exists q,
    Shortage_Amount_USD (shortage_row today settings rules r) = Some q
    /\ (Shortage_Flag (shortage_row today settings rules r) = true ->
          Invoice_Delta r = Some q
          /\ (tolerance_small_delta_usd settings < q)%Q)
    /\ (Shortage_Flag (shortage_row today settings rules r) = false ->
          q = 0%Q).
Proof.
  destruct (Shortage_Flag (shortage_row today settings rules r)) eqn:E.
  - pose proof E as E'. apply shortage_row_flag in E'.
    destruct E' as ((q & Hq & Hlt) & _). exists q.
    unfold shortage_row in *; cbn [Shortage_Amount_USD Shortage_Flag] in *.
    rewrite E. split; [exact Hq|]. split; [auto|discriminate].
  - exists 0%Q.
    unfold shortage_row in *; cbn [Shortage_Amount_USD Shortage_Flag] in *.
    rewrite E. split; [reflexivity|]. split; [discriminate|reflexivity].
Qed.

Lemma fillna_nonneg (c : option Q) :
  present_nonneg (Float.fillna 0 c) -> forall q, c = Some q -> (0 <= q)%Q.
Proof.
  intros (q' & Hq' & H) q ->. cbn in Hq'. congruence.
Qed.

(** The values the schema asks of an evaluated row were asked of the raw
    row it comes from. *)
Lemma evaluated_row_raw_ok (today : date) (settings : SettingsConfig)
    (rules : RulesConfig) (r : RawRow) :
  schema_ok (shortage_row today settings rules (transform_row settings r)) ->
  raw_schema_ok r.
Proof.
  unfold schema_ok, raw_schema_ok. cbv zeta.
  change (transformed
            (shortage_row today settings rules (transform_row settings r)))
    with (transform_row settings r).
  unfold transform_row; cbn [raw Invoice_Date Payment_Due_Date Invoice_Status
    Actual_Paid_Amount Paid_Amount_Currency Invoice_Creation_Date
    Randomized_Invoice Invoice_Amount Invoice_Currency Randomized_PO].
  intros (H1 & H2 & H3 & H4 & H5 & H6 & H7 & H8 & H9 & H10 & _).
  pose proof (fillna_nonneg _ H4) as H4'.
  pose proof (fillna_nonneg _ H8) as H8'.
  repeat split; assumption.
Qed.

(** X7. Transform and the shortage evaluation hide no defect of an
    ingested record from the schema.  Whenever an ingested record lacks
    one of its three dates, its status, a currency or an identifier, or has
    a negative amount, validating the evaluated frame raises
    [SchemaErrors]; an evaluated frame on which nothing is reported comes
    from records without such a defect.  A missing amount is not among
    the defects, since Transform replaces it by zero. *)
Theorem evaluated_frame_defects (today : date)
    (settings schema_settings : SettingsConfig) (rules : RulesConfig)
    (df : list RawRow) :
  let flagged :=
    apply_shortage_logic today (transform_invoices df settings)
      settings rules in
  (Pandera.failures (_build_schema schema_settings) flagged = [] ->
     Forall raw_schema_ok df)
  /\ (~ Forall raw_schema_ok df ->
      exists f fs,
        Pandera.validate (_build_schema schema_settings) flagged
        = (flagged, inl (SchemaErrors (f :: fs)))).
Proof.
  cbv zeta.
  set (flagged := apply_shortage_logic today
                    (transform_invoices df settings) settings rules).
  assert (Hraw : Forall schema_ok flagged -> Forall raw_schema_ok df).
  { unfold flagged, apply_shortage_logic, transform_invoices.
    rewrite !Forall_map. intros H. eapply Forall_impl; [exact H|].
    intros r. apply evaluated_row_raw_ok. }
  split.
  - intros H. apply Hraw, (failures_nil_ok schema_settings), H.
  - intros Hbad.
    unfold Pandera.validate, mbind, Check_bind, read.
    destruct (Pandera.failures (_build_schema schema_settings) flagged)
      as [|f fs] eqn:E.
    + apply failures_nil_ok in E. destruct (Hbad (Hraw E)).
    + exists f, fs. reflexivity.
Qed.

(** ** More on the shortage evaluation *)

(** X8. The shortage amount of an evaluated record is never missing, even
    when the delta is: it is a value above the tolerance when the record is
    flagged and zero when it is not, so that no shortage amount is negative
    as long as the tolerance is not. *)
Theorem shortage_amount_bounds (today : date) (settings : SettingsConfig)
    (rules : RulesConfig) (df : list TransformedRow) (i : nat)
    (r' : FlaggedRow) :
  apply_shortage_logic today df settings rules !! i = Some r' ->
  exists q,
    Shortage_Amount_USD r' = Some q
    /\ (Shortage_Flag r' = true -> (tolerance_small_delta_usd settings < q)%Q)
    /\ (Shortage_Flag r' = false -> q = 0%Q)
    /\ ((0 <= tolerance_small_delta_usd settings)%Q -> (0 <= q)%Q).
Proof.
  intros Hi. apply map_lookup_Some in Hi. destruct Hi as (r & _ & ->).
  destruct (shortage_row_amount today settings rules r) as (q & Hq & Ht & Hf).
  exists q. split; [exact Hq|]. split; [intros H; apply Ht, H|].
  split; [exact Hf|]. intros Htol.
  destruct (Shortage_Flag (shortage_row today settings rules r)).
  - apply Qlt_le_weak. eapply Qle_lt_trans; [exact Htol|]. apply Ht. reflexivity.
  - rewrite Hf by reflexivity. apply Qle_refl.
Qed.

(** A record whose delta is missing. *)
Lemma shortage_amount_bounds_witness :
  let r := Fixtures.transformed_row None true true (Some "PAID") DateNull in
  let r' := shortage_row Fixtures.today Fixtures.settings Fixtures.rules r in
  apply_shortage_logic Fixtures.today [r] Fixtures.settings Fixtures.rules
    !! 0%nat = Some r'
  /\ Invoice_Delta r = None
  /\ exists q,
       Shortage_Amount_USD r' = Some q
       /\ (Shortage_Flag r' = true ->
             (tolerance_small_delta_usd Fixtures.settings < q)%Q)
       /\ (Shortage_Flag r' = false -> q = 0%Q)
       /\ ((0 <= tolerance_small_delta_usd Fixtures.settings)%Q -> (0 <= q)%Q).
Proof.
  intros r r'. split; [reflexivity|]. split; [reflexivity|].
  exact (shortage_amount_bounds Fixtures.today Fixtures.settings Fixtures.rules
           [r] 0%nat r' eq_refl).
Defined.

(** X9. With a threshold that is not negative, an evaluated record is aged
    exactly when its due date can be read (day first) and lies more than
    the threshold number of days before today: a record whose due date is
    missing, unreadable, today or in the future is never aged.  With a
    negative threshold every record is aged, those without a readable due
    date included. *)
Theorem aged_iff_overdue (today : date) (settings : SettingsConfig)
    (rules : RulesConfig) (df : list TransformedRow) (i : nat)
    (r' : FlaggedRow) :
  apply_shortage_logic today df settings rules !! i = Some r' ->
  (0 <= aging_days_threshold settings ->
     (Age_Bucket r' = "Aged"
      <-> exists d,
            to_datetime true (Payment_Due_Date (raw (transformed r'))) = Some d
            /\ Calendar.toordinal d + aging_days_threshold settings
               < Calendar.toordinal today))
  /\ (aging_days_threshold settings < 0 -> Age_Bucket r' = "Aged").
Proof.
  intros Hi. apply map_lookup_Some in Hi. destruct Hi as (r & _ & ->).
  unfold shortage_row; cbv zeta; cbn [transformed Days_Past_Due Age_Bucket].
  unfold shortage_payment_due, days_between, clip_fill.
  destruct (to_datetime true (Payment_Due_Date (raw r))) as [d|];
    cbn [option_map default]; cbv [id].
  - destruct (Z.ltb_spec (aging_days_threshold settings)
                (Z.max 0 (Calendar.toordinal today - Calendar.toordinal d))).
    + split; [|reflexivity]. intros Hth. split; [|reflexivity].
      intros _. exists d. split; [reflexivity|lia].
    + split; [|intros; lia]. intros Hth. split; [discriminate|].
      intros (d' & [= <-] & Hlt). lia.
  - destruct (Z.ltb_spec (aging_days_threshold settings) 0).
    + split; [intros; lia | reflexivity].
    + split; [|intros; lia]. intros _. split; [discriminate|].
      intros (d & Hd & _). discriminate.
Qed.

(** A record without a due date, with the threshold of ninety days. *)
Lemma aged_iff_overdue_witness :
  let r := Fixtures.transformed_row (Some 5%Q) true false (Some "PAID")
             DateNull in
  let r' := shortage_row Fixtures.today Fixtures.settings Fixtures.rules r in
  apply_shortage_logic Fixtures.today [r] Fixtures.settings Fixtures.rules
    !! 0%nat = Some r'
  /\ Age_Bucket r' = "Current"
  /\ (0 <= aging_days_threshold Fixtures.settings ->
        (Age_Bucket r' = "Aged"
         <-> exists d,
               to_datetime true (Payment_Due_Date (raw (transformed r')))
                 = Some d
               /\ Calendar.toordinal d + aging_days_threshold Fixtures.settings
                  < Calendar.toordinal Fixtures.today))
  /\ (aging_days_threshold Fixtures.settings < 0 -> Age_Bucket r' = "Aged").
Proof.
  intros r r'. split; [reflexivity|]. split; [reflexivity|].
  exact (aged_iff_overdue Fixtures.today Fixtures.settings Fixtures.rules
           [r] 0%nat r' eq_refl).
Defined.

(** ** Letter case *)

Lemma upper_char_idem (c : ascii) :
  Str.upper_char (Str.upper_char c) = Str.upper_char c.
Proof. destruct c as [[] [] [] [] [] [] [] []]; reflexivity. Qed.

Lemma upper_lower_char (c : ascii) :
  (N_of_ascii c <? 128)%N = true ->
  Str.upper_char (Str.lower_char c) = Str.upper_char c.
Proof.
  destruct c as [[] [] [] [] [] [] [] []]; intros H;
    solve [reflexivity | discriminate H].
Qed.

Lemma lower_upper_char (c : ascii) :
  Str.lower_char (Str.upper_char c) = Str.lower_char c.
Proof. destruct c as [[] [] [] [] [] [] [] []]; reflexivity. Qed.

Lemma space_upper_char (c : ascii) :
  Str.is_space (Str.upper_char c) = Str.is_space c.
Proof. destruct c as [[] [] [] [] [] [] [] []]; reflexivity. Qed.

Lemma map_chars_compose (f g h : ascii -> ascii) (s : string) :
  (forall c, f (g c) = h c) ->
  Str.map_chars f (Str.map_chars g s) = Str.map_chars h s.
Proof.
  intros H. induction s as [|c s IH]; simpl; [reflexivity|].
  rewrite H, IH. reflexivity.
Qed.

Lemma upper_idem (s : string) : Str.upper (Str.upper s) = Str.upper s.
Proof. apply map_chars_compose, upper_char_idem. Qed.

(** On ASCII text, lower-casing before upper-casing changes nothing. *)
Lemma upper_lower (s : string) :
  ascii_text s -> Str.upper (Str.lower s) = Str.upper s.
Proof.
  unfold ascii_text, Str.upper, Str.lower.
  induction s as [|c s IH]; cbn [Str.all_chars Str.map_chars];
    [reflexivity|].
  rewrite andb_true_iff. intros [Hc Hs].
  rewrite (upper_lower_char c Hc), (IH Hs). reflexivity.
Qed.

Lemma lower_upper (s : string) : Str.lower (Str.upper s) = Str.lower s.
Proof. apply map_chars_compose, lower_upper_char. Qed.

(** The flag of a row depends on the status through its upper-casing. *)
Lemma shortage_flag_status (today : date) (settings : SettingsConfig)
    (rules : RulesConfig) (r : TransformedRow) (a b : string) :
  Str.upper a = Str.upper b ->
  Shortage_Flag (shortage_row today settings rules (with_status (Some a) r))
  = Shortage_Flag (shortage_row today settings rules (with_status (Some b) r)).
Proof.
  intros H. unfold shortage_row, with_status.
  cbn [Shortage_Flag raw Invoice_Status Invoice_Delta Any_Deductions
       Child_Invoice_Present option_map].
  rewrite H. reflexivity.
Qed.

(** X10. Letter case of the invoice status does not matter to the shortage
    flag: a record gets the same flag with its status written in upper
    case as with the status as it came, and, when the status is a text of
    ASCII characters, with its status written in lower case. *)
Theorem shortage_flag_ignores_status_case (today : date)
    (settings : SettingsConfig) (rules : RulesConfig) (r : TransformedRow)
    (status : string) :
  let flag s :=
    Shortage_Flag
      (shortage_row today settings rules (with_status (Some s) r)) in
  flag (Str.upper status) = flag status
  /\ (ascii_text status -> flag (Str.lower status) = flag status).
Proof.
  cbv zeta. split.
  - apply shortage_flag_status, upper_idem.
  - intros H. apply shortage_flag_status, upper_lower, H.
Qed.

(** A record with deductions and a delta of five, whose status is written
    [Paid]: flagged as it came, and as [paid]. *)
Lemma shortage_flag_ignores_status_case_witness :
  let r := Fixtures.transformed_row (Some 5%Q) true false (Some "Paid")
             DateNull in
  let flag s :=
    Shortage_Flag
      (shortage_row Fixtures.today Fixtures.settings Fixtures.rules
         (with_status (Some s) r)) in
  ascii_text "Paid"
  /\ flag "paid" = flag "Paid"
  /\ flag "Paid" = true.
Proof.
  intros r flag. split; [reflexivity|]. split; [|reflexivity].
  apply (shortage_flag_ignores_status_case Fixtures.today Fixtures.settings
           Fixtures.rules r "Paid").
  reflexivity.
Defined.

(** X11. Only the entries of the allow-list that upper-casing leaves
    unchanged can match: dropping every other entry from
    [eligible_statuses] changes nothing in the evaluated frame.  In
    particular an allow-list whose entries all hold a lower-case letter
    flags no record. *)
Theorem eligible_statuses_upper_only (today : date)
    (settings : SettingsConfig) (rules : RulesConfig)
    (df : list TransformedRow) :
  apply_shortage_logic today df settings rules
  = apply_shortage_logic today df settings
      (with_eligible_statuses
         (filter (fun e => Str.upper e = e) (eligible_statuses rules)) rules)
  /\ (Forall (fun e => Str.upper e <> e) (eligible_statuses rules) ->
      Forall (fun r' => Shortage_Flag r' = false)
        (apply_shortage_logic today df settings rules)).
Proof.
  assert (Hisin : forall c,
            isin (option_map Str.upper c)
              (list_to_set (eligible_statuses rules))
            = isin (option_map Str.upper c)
                (list_to_set
                   (filter (fun e => Str.upper e = e)
                      (eligible_statuses rules)))).
  { intros [s|]; [|reflexivity]. cbn [option_map isin].
    apply bool_decide_ext. rewrite !elem_of_list_to_set, list_elem_of_filter.
    split; [|tauto]. intros H. split; [apply upper_idem | exact H]. }
  split.
  - unfold apply_shortage_logic. apply map_ext. intros r.
    unfold shortage_row, with_eligible_statuses. cbn [eligible_statuses].
    rewrite <- Hisin. reflexivity.
  - intros Hall. unfold apply_shortage_logic. apply Forall_map.
    apply Forall_forall. intros r _.
    destruct (Shortage_Flag (shortage_row today settings rules r)) eqn:E;
      [|reflexivity].
    apply shortage_row_flag in E. destruct E as (_ & _ & (s & _ & Hin)).
    rewrite Forall_forall in Hall. specialize (Hall _ Hin).
    rewrite upper_idem in Hall. congruence.
Qed.

(** ** Date objects *)

(** X12. On a due date that is a date object or is missing, which is what
    ingestion delivers, the two stages read the same date whatever
    [date_format] says: the payment year Transform derives is the year of
    the date the shortage evaluation counts the days from. *)
Theorem due_date_agrees_on_date_objects (today : date)
    (settings : SettingsConfig) (rules : RulesConfig) (r : RawRow) :
  (forall s, Payment_Due_Date r <> DateText s) ->
  let t := transform_row settings r in
  transform_payment_due settings (Payment_Due_Date r)
  = shortage_payment_due (Payment_Due_Date (raw t))
  /\ Payment_Year t
     = option_map year (shortage_payment_due (Payment_Due_Date (raw t)))
  /\ Days_Past_Due (shortage_row today settings rules t)
     = clip_fill
         (days_between today
            (transform_payment_due settings (Payment_Due_Date r))).
Proof.
  intros Hobj. cbv zeta.
  unfold shortage_row, transform_row;
    cbn [raw Payment_Due_Date Payment_Year Days_Past_Due].
  unfold transform_payment_due, shortage_payment_due.
  destruct (Payment_Due_Date r) as [d|s|]; cbn [to_datetime].
  - repeat split.
  - exfalso. exact (Hobj s eq_refl).
  - repeat split.
Qed.

(** The record of [test_transform_adds_expected_columns], due on 1 June
    2024, under the month-first configuration. *)
Lemma due_date_agrees_on_date_objects_witness :
  let r := Fixtures.raw_row (Some 105%Q) (Some 100%Q) (Some "CHILD-123")
             (DateValue (Date 2024 6 1)) in
  let settings := Fixtures.settings_monthfirst in
  let t := transform_row settings r in
  (forall s, Payment_Due_Date r <> DateText s)
  /\ transform_payment_due settings (Payment_Due_Date r)
     = shortage_payment_due (Payment_Due_Date (raw t))
  /\ Payment_Year t
     = option_map year (shortage_payment_due (Payment_Due_Date (raw t)))
  /\ Days_Past_Due (shortage_row Fixtures.today settings Fixtures.rules t)
     = clip_fill
         (days_between Fixtures.today
            (transform_payment_due settings (Payment_Due_Date r))).
Proof.
  intros r settings t.
  assert (Hobj : forall s, Payment_Due_Date r <> DateText s)
    by (intros s; discriminate).
  split; [exact Hobj|].
  exact (due_date_agrees_on_date_objects Fixtures.today settings
           Fixtures.rules r Hobj).
Defined.

(** ** Transform, twice *)

Lemma fillna_idem (v : Q) (c : option Q) :
  Float.fillna v (Float.fillna v c) = Float.fillna v c.
Proof. destruct c; reflexivity. Qed.

(** X13. Transform is idempotent: applied to the raw columns of a frame it
    has already transformed, with the same settings, it gives that frame
    again.  Its only change to a raw column is to put zero where an amount
    is missing. *)
Theorem transform_idempotent (settings : SettingsConfig) (df : list RawRow) :
  transform_invoices (map raw (transform_invoices df settings)) settings
  = transform_invoices df settings.
Proof.
  unfold transform_invoices. rewrite !map_map. apply map_ext. intros r.
  unfold transform_row.
  cbn [raw Invoice_Date Payment_Due_Date Invoice_Status Actual_Paid_Amount
       Paid_Amount_Currency Invoice_Creation_Date Randomized_Invoice
       Invoice_Amount Invoice_Currency Any_Deductions
       Randomized_Latest_Child_Invoice Randomized_PO].
  rewrite !fillna_idem. reflexivity.
Qed.

(** ** The tables of shortages *)

Lemma annual_shortages_table (df : list FlaggedRow) (settings : SettingsConfig) :
  annual_shortages (compute_kpis df settings)
  = map (fun y => annual_shortage_row (round_decimals settings) y
                    (GroupBy.members payment_year
                       (filter (fun r => Shortage_Flag r = true) df) y))
        (GroupBy.keys payment_year
           (filter (fun r => Shortage_Flag r = true) df)).
Proof.
  unfold compute_kpis. cbv zeta. cbn [annual_shortages].
  unfold GroupBy.agg. rewrite map_map. reflexivity.
Qed.

Lemma aged_shortages_table (df : list FlaggedRow) (settings : SettingsConfig) :
  aged_shortages_by_year (compute_kpis df settings)
  = map (fun y => aged_shortage_row (round_decimals settings) y
                    (GroupBy.members payment_year
                       (filter is_aged
                          (filter (fun r => Shortage_Flag r = true) df)) y))
        (GroupBy.keys payment_year
           (filter is_aged (filter (fun r => Shortage_Flag r = true) df))).
Proof.
  unfold compute_kpis. cbv zeta. cbn [aged_shortages_by_year].
  unfold GroupBy.agg. rewrite map_map. reflexivity.
Qed.

Lemma members_flagged (df : list FlaggedRow) (y : Z) :
  GroupBy.members payment_year (filter (fun r => Shortage_Flag r = true) df) y
  = flagged_of_year df y.
Proof.
  unfold GroupBy.members, flagged_of_year. apply list_filter_filter.
Qed.

Lemma members_aged_flagged (df : list FlaggedRow) (y : Z) :
  GroupBy.members payment_year
    (filter is_aged (filter (fun r => Shortage_Flag r = true) df)) y
  = aged_flagged_of_year df y.
Proof.
  unfold GroupBy.members, aged_flagged_of_year.
  rewrite !list_filter_filter. apply list_filter_iff. intros r. tauto.
Qed.

Lemma filter_all {A : Type} (P : A -> Prop) `{forall x, Decision (P x)}
    (l : list A) :
  Forall P l -> filter P l = l.
Proof.
  induction 1 as [|x l Hx _ IH]; [reflexivity|].
  rewrite filter_cons_True by exact Hx. f_equal. exact IH.
Qed.

(** In a group of flagged records the sum of the flags is the size of the
    group. *)
Lemma sum_bool_flagged (g : list FlaggedRow) :
  Forall (fun r => Shortage_Flag r = true) g ->
  Agg.sum_bool Shortage_Flag g = Z.of_nat (length g).
Proof.
  intros H. unfold Agg.sum_bool. rewrite filter_all by exact H. reflexivity.
Qed.

Lemma flagged_of_year_flagged (df : list FlaggedRow) (y : Z) :
  Forall (fun r => Shortage_Flag r = true) (flagged_of_year df y).
Proof.
  apply Forall_forall. intros r Hr. apply list_elem_of_filter in Hr. tauto.
Qed.

Lemma aged_flagged_of_year_flagged (df : list FlaggedRow) (y : Z) :
  Forall (fun r => Shortage_Flag r = true) (aged_flagged_of_year df y).
Proof.
  apply Forall_forall. intros r Hr. apply list_elem_of_filter in Hr. tauto.
Qed.

(** X14. The table [annual_shortages] has exactly one row for every payment
    year found among the flagged records and no other row, in ascending
    order of year.  The row of a year holds the number of flagged records
    of that year, the total of their shortage amounts and the mean of those
    amounts, both rounded to the configured decimals; the mean is taken
    over the amounts that are present and is missing when none is. *)
Theorem annual_shortages_rows (df : list FlaggedRow)
    (settings : SettingsConfig) :
  let table := annual_shortages (compute_kpis df settings) in
  let years := map AnnualShortages.Payment_Year table in
  let decimals := round_decimals settings in
  StronglySorted Z.lt years
  /\ NoDup years
  /\ (forall y, y ∈ years <->
        exists r, r ∈ df /\ Shortage_Flag r = true /\ payment_year r = Some y)
  /\ Forall
       (fun t =>
          let g := flagged_of_year df (AnnualShortages.Payment_Year t) in
          let total := Float.sum (map Shortage_Amount_USD g) in
          let present :=
            length (filter (fun r => is_Some (Shortage_Amount_USD r)) g) in
          AnnualShortages.Shortage_Count t = Z.of_nat (length g)
          /\ AnnualShortages.Total_Shortage_USD t = Float.round decimals total
          /\ AnnualShortages.Mean_Shortage_USD t
             = if decide (present = 0%nat) then None
               else Some (Float.round decimals
                            (total / inject_Z (Z.of_nat present))%Q))
       table.
Proof.
  intros table years decimals.
  assert (Hyears : years
                   = GroupBy.keys payment_year
                       (filter (fun r => Shortage_Flag r = true) df)).
  { unfold years, table. rewrite annual_shortages_table, map_map. simpl.
    apply map_id. }
  assert (Hsorted : StronglySorted Z.lt years)
    by (rewrite Hyears; apply keys_sorted).
  split; [exact Hsorted|]. split; [apply sorted_lt_NoDup, Hsorted|]. split.
  - intros y. rewrite Hyears, keys_elem. split.
    + intros (r & Hr & Hy). apply list_elem_of_filter in Hr.
      destruct Hr as [Hflag Hr]. exists r. auto.
    + intros (r & Hr & Hflag & Hy). exists r. split; [|exact Hy].
      apply list_elem_of_filter. auto.
  - unfold table. rewrite annual_shortages_table. apply Forall_map.
    apply Forall_forall. intros y _.
    cbn [annual_shortage_row AnnualShortages.Payment_Year
         AnnualShortages.Shortage_Count AnnualShortages.Total_Shortage_USD
         AnnualShortages.Mean_Shortage_USD].
    rewrite members_flagged.
    rewrite sum_bool_flagged by apply flagged_of_year_flagged.
    split; [reflexivity|]. split; [reflexivity|].
    unfold Agg.mean, Agg.count, Agg.sum.
    set (n := length (filter _ (flagged_of_year df y))).
    destruct (Z.eqb_spec (Z.of_nat n) 0) as [E|E]; case_decide;
      try reflexivity; lia.
Qed.

(** X15. The table [aged_shortages_by_year] has exactly one row for every
    payment year found among the records that are both flagged and aged,
    and no other row, in ascending order of year; the row of a year holds
    the number of those records and the total of their shortage amounts,
    rounded to the configured decimals. *)
Theorem aged_shortages_by_year_rows (df : list FlaggedRow)
    (settings : SettingsConfig) :
  let table := aged_shortages_by_year (compute_kpis df settings) in
  let years := map AgedShortages.Payment_Year table in
  let decimals := round_decimals settings in
  StronglySorted Z.lt years
  /\ NoDup years
  /\ (forall y, y ∈ years <->
        exists r, r ∈ df /\ Shortage_Flag r = true /\ Age_Bucket r = "Aged"
                  /\ payment_year r = Some y)
  /\ Forall
       (fun t =>
          let g := aged_flagged_of_year df (AgedShortages.Payment_Year t) in
          AgedShortages.Shortage_Count t = Z.of_nat (length g)
          /\ AgedShortages.Total_Shortage_USD t
             = Float.round decimals (Float.sum (map Shortage_Amount_USD g)))
       table.
Proof.
  intros table years decimals.
  assert (Hyears : years
                   = GroupBy.keys payment_year
                       (filter is_aged
                          (filter (fun r => Shortage_Flag r = true) df))).
  { unfold years, table. rewrite aged_shortages_table, map_map. simpl.
    apply map_id. }
  assert (Hsorted : StronglySorted Z.lt years)
    by (rewrite Hyears; apply keys_sorted).
  split; [exact Hsorted|]. split; [apply sorted_lt_NoDup, Hsorted|]. split.
  - intros y. rewrite Hyears, keys_elem. split.
    + intros (r & Hr & Hy). rewrite !list_elem_of_filter in Hr.
      destruct Hr as (Haged & Hflag & Hr). exists r. auto.
    + intros (r & Hr & Hflag & Haged & Hy). exists r. split; [|exact Hy].
      rewrite !list_elem_of_filter. auto.
  - unfold table. rewrite aged_shortages_table. apply Forall_map.
    apply Forall_forall. intros y _.
    cbn [aged_shortage_row AgedShortages.Payment_Year
         AgedShortages.Shortage_Count AgedShortages.Total_Shortage_USD].
    rewrite members_aged_flagged.
    rewrite sum_bool_flagged by apply aged_flagged_of_year_flagged.
    split; reflexivity.
Qed.

(** ** The tables, side by side *)

Lemma Qplus_0_l_eq (q : Q) : (0 + q)%Q = q.
Proof.
  destruct q as [n d]. unfold Qplus. cbn [Qnum Qden].
  rewrite Z.mul_1_r. reflexivity.
Qed.

(** Records that are not flagged and carry a zero amount do not count in a
    total. *)
Lemma sum_skip_unflagged (l : list FlaggedRow) :
  zero_when_unflagged l ->
  Float.sum (map Shortage_Amount_USD l)
  = Float.sum
      (map Shortage_Amount_USD (filter (fun r => Shortage_Flag r = true) l)).
Proof.
  unfold zero_when_unflagged.
  induction 1 as [|r l Hr _ IH]; [reflexivity|].
  destruct (Shortage_Flag r) eqn:E.
  - rewrite filter_cons_True by exact E. cbn [map Float.sum].
    rewrite IH. reflexivity.
  - rewrite filter_cons_False by congruence. cbn [map Float.sum].
    rewrite Hr by reflexivity. rewrite Qplus_0_l_eq. exact IH.
Qed.

Lemma zero_when_unflagged_filter (P : FlaggedRow -> Prop)
    `{forall x, Decision (P x)} (df : list FlaggedRow) :
  zero_when_unflagged df -> zero_when_unflagged (filter P df).
Proof.
  unfold zero_when_unflagged. rewrite !Forall_forall. intros H0 r Hr.
  apply list_elem_of_filter in Hr. apply H0. tauto.
Qed.

Lemma evaluated_zero_when_unflagged (today : date) (settings : SettingsConfig)
    (rules : RulesConfig) (df : list TransformedRow) :
  zero_when_unflagged (apply_shortage_logic today df settings rules).
Proof.
  unfold zero_when_unflagged, apply_shortage_logic. apply Forall_map.
  apply Forall_forall. intros r _ Hflag.
  destruct (shortage_row_amount today settings rules r) as (q & Hq & _ & Hz).
  rewrite Hq, (Hz Hflag). reflexivity.
Qed.

Lemma aged_flagged_as_filter (df : list FlaggedRow) (y : Z) :
  aged_flagged_of_year df y
  = filter (fun r => Shortage_Flag r = true) (aged_of_year df y).
Proof.
  unfold aged_flagged_of_year, aged_of_year. rewrite list_filter_filter.
  apply list_filter_iff. intros r. tauto.
Qed.

Lemma aged_flagged_in_flagged (df : list FlaggedRow) (y : Z) :
  aged_flagged_of_year df y = filter is_aged (flagged_of_year df y).
Proof.
  unfold aged_flagged_of_year, flagged_of_year. rewrite list_filter_filter.
  apply list_filter_iff. intros r. tauto.
Qed.

Lemma elem_of_map_intro {A B : Type} (f : A -> B) (l : list A) (x : A) :
  x ∈ l -> f x ∈ map f l.
Proof.
  intros H. apply list_elem_of_In, in_map, list_elem_of_In, H.
Qed.

(** X16. The tables agree with one another.  Every row of
    [aged_shortages_by_year] has a row of the same year in
    [aged_invoices_by_year], with the same shortage count, and with the
    same total shortage amount as soon as the records that are not flagged
    carry a zero amount, which is how the shortage evaluation leaves them.
    It also has a row of the same year in [annual_shortages], whose count
    is at least as large. *)
Theorem aged_tables_agree (df : list FlaggedRow) (settings : SettingsConfig) :
  let k := compute_kpis df settings in
  Forall
    (fun t =>
       (exists t',
          t' ∈ aged_invoices_by_year k
          /\ AgedInvoices.Payment_Year t' = AgedShortages.Payment_Year t
          /\ AgedInvoices.Shortage_Count t' = AgedShortages.Shortage_Count t
          /\ (zero_when_unflagged df ->
                AgedInvoices.Total_Shortage_USD t'
                = AgedShortages.Total_Shortage_USD t))
       /\ (exists t'',
             t'' ∈ annual_shortages k
             /\ AnnualShortages.Payment_Year t'' = AgedShortages.Payment_Year t
             /\ AgedShortages.Shortage_Count t
                <= AnnualShortages.Shortage_Count t''))
    (aged_shortages_by_year k)
  /\ (forall today df0 settings0 rules,
        zero_when_unflagged (apply_shortage_logic today df0 settings0 rules)).
Proof.
  cbv zeta. split; [|intros; apply evaluated_zero_when_unflagged].
  rewrite aged_shortages_table, aged_invoices_table, annual_shortages_table.
  apply Forall_map. apply Forall_forall. intros y Hy.
  apply keys_elem in Hy. destruct Hy as (r & Hr & Hyr).
  rewrite !list_elem_of_filter in Hr. destruct Hr as (Haged & Hflag & Hr).
  rewrite members_aged_flagged.
  cbn [aged_shortage_row AgedShortages.Payment_Year
       AgedShortages.Shortage_Count AgedShortages.Total_Shortage_USD].
  rewrite sum_bool_flagged by apply aged_flagged_of_year_flagged.
  split.
  - exists (aged_invoice_row (round_decimals settings) y
              (GroupBy.members payment_year (filter is_aged df) y)).
    split.
    { apply (elem_of_map_intro
               (fun y0 => aged_invoice_row (round_decimals settings) y0
                            (GroupBy.members payment_year
                               (filter is_aged df) y0))).
      apply keys_elem. exists r. split; [|exact Hyr].
      apply list_elem_of_filter. auto. }
    rewrite members_aged.
    cbn [aged_invoice_row AgedInvoices.Payment_Year
         AgedInvoices.Shortage_Count AgedInvoices.Total_Shortage_USD].
    split; [reflexivity|]. split.
    + unfold Agg.sum_bool. rewrite aged_flagged_as_filter. reflexivity.
    + intros Hzero. unfold Agg.sum. f_equal.
      rewrite aged_flagged_as_filter. apply sum_skip_unflagged.
      apply zero_when_unflagged_filter, Hzero.
  - exists (annual_shortage_row (round_decimals settings) y
              (GroupBy.members payment_year
                 (filter (fun r0 => Shortage_Flag r0 = true) df) y)).
    split.
    { apply (elem_of_map_intro
               (fun y0 => annual_shortage_row (round_decimals settings) y0
                            (GroupBy.members payment_year
                               (filter (fun r0 => Shortage_Flag r0 = true) df)
                               y0))).
      apply keys_elem. exists r. split; [|exact Hyr].
      apply list_elem_of_filter. auto. }
    rewrite members_flagged.
    cbn [annual_shortage_row AnnualShortages.Payment_Year
         AnnualShortages.Shortage_Count].
    split; [reflexivity|].
    rewrite sum_bool_flagged by apply flagged_of_year_flagged.
    rewrite aged_flagged_in_flagged.
    pose proof (length_filter is_aged (flagged_of_year df y)). lia.
Qed.

(** ** Counting by year *)

Lemma sum_counts_map_of_nat {A : Type} (f : A -> nat) (l : list A) :
  sum_counts (map (fun x => Z.of_nat (f x)) l) = Z.of_nat (sum_list_with f l).
Proof.
  unfold sum_counts. induction l as [|x l IH]; simpl; [reflexivity|].
  rewrite IH. lia.
Qed.

(** Among keys without repeats, a key is met once when it is there, and a
    missing key is never met. *)
Lemma count_key_once (ks : list Z) (c : option Z) (k0 : Z) :
  NoDup ks ->
  c = Some k0 ->
  sum_list_with (fun k => if decide (c = Some k) then 1 else 0)%nat ks
  = (if decide (k0 ∈ ks) then 1 else 0)%nat.
Proof.
  intros Hnd ->. induction Hnd as [|k ks Hk Hnd IH]; simpl.
  - destruct (decide (k0 ∈ [])) as [H|H]; [inversion H|reflexivity].
  - rewrite IH.
    destruct (decide (Some k0 = Some k)) as [E|E],
             (decide (k0 ∈ ks)) as [Hin|Hin],
             (decide (k0 ∈ k :: ks)) as [Hc|Hc]; try reflexivity; exfalso.
    + injection E as ->. contradiction.
    + injection E as ->. contradiction.
    + apply Hc. injection E as ->. left.
    + apply Hc. right. exact Hin.
    + apply elem_of_cons in Hc. destruct Hc as [->|Hc]; auto.
Qed.

Lemma count_key_none (ks : list Z) (c : option Z) :
  c = None ->
  sum_list_with (fun k => if decide (c = Some k) then 1 else 0)%nat ks = 0%nat.
Proof.
  intros ->. induction ks as [|k ks IH]; [reflexivity|].
  cbn [sum_list_with]. rewrite IH.
  destruct (decide (None = Some k)); [discriminate|reflexivity].
Qed.

(** The groups of distinct keys that cover the keys of the rows share out
    the rows that have a key. *)
Lemma members_share_out {A : Type} (key : A -> option Z) (ks : list Z)
    (rows : list A) :
  NoDup ks ->
  (forall r k, r ∈ rows -> key r = Some k -> k ∈ ks) ->
  sum_list_with (fun k => length (GroupBy.members key rows k)) ks
  = length (filter (fun r => is_Some (key r)) rows).
Proof.
  intros Hnd. unfold GroupBy.members.
  induction rows as [|r rows IH]; intros Hcover.
  - simpl. clear. induction ks; simpl; auto.
  - assert (Hrest : forall r0 k, r0 ∈ rows -> key r0 = Some k -> k ∈ ks)
      by (intros r0 k H0; apply Hcover; right; exact H0).
    specialize (IH Hrest).
    assert (Hsplit :
      sum_list_with (fun k => length (filter (fun r0 => key r0 = Some k)
                                        (r :: rows))) ks
      = (sum_list_with
           (fun k => if decide (key r = Some k) then 1 else 0) ks
         + sum_list_with
             (fun k => length (filter (fun r0 => key r0 = Some k) rows)) ks)%nat).
    { clear. induction ks as [|k ks IHk]; simpl; [reflexivity|].
      rewrite IHk, filter_cons. case_decide; simpl; lia. }
    rewrite Hsplit, IH, filter_cons.
    destruct (key r) as [k0|] eqn:Ek.
    + rewrite (count_key_once ks (Some k0) k0 Hnd eq_refl).
      rewrite decide_True by (apply (Hcover r k0); [left|exact Ek]).
      rewrite decide_True by eauto. reflexivity.
    + rewrite (count_key_none ks None eq_refl).
      rewrite decide_False by (intros [k Hk]; discriminate). reflexivity.
Qed.

Lemma keys_share_out {A : Type} (key : A -> option Z) (rows : list A) :
  sum_list_with (fun k => length (GroupBy.members key rows k))
    (GroupBy.keys key rows)
  = length (filter (fun r => is_Some (key r)) rows).
Proof.
  apply members_share_out.
  - apply sorted_lt_NoDup, keys_sorted.
  - intros r k Hr Hk. apply keys_elem. eauto.
Qed.

Lemma length_filter_split {A : Type} (P : A -> Prop)
    `{forall x, Decision (P x)} (l : list A) :
  length l = (length (filter P l) + length (filter (fun x => ~ P x) l))%nat.
Proof.
  induction l as [|x l IH]; [reflexivity|].
  rewrite !filter_cons. simpl. repeat case_decide; simpl; try lia; tauto.
Qed.

(** X17. [total_shortage] has a single row, and its count is shared out by
    year: the counts of [annual_shortages] add up to the total count less
    the flagged records that have no payment year.  When every flagged
    record has a payment year the yearly counts add up to the total. *)
Theorem annual_counts_add_up (df : list FlaggedRow)
    (settings : SettingsConfig) :
  let k := compute_kpis df settings in
  let without_year :=
    filter (fun r => Shortage_Flag r = true /\ payment_year r = None) df in
  exists t,
    total_shortage k = [t]
    /\ TotalShortage.Shortage_Count t
       = Z.of_nat
           (length (filter (fun r => Shortage_Flag r = true) df))
    /\ sum_counts (map AnnualShortages.Shortage_Count (annual_shortages k))
       + Z.of_nat (length without_year)
       = TotalShortage.Shortage_Count t.
Proof.
  cbv zeta. eexists. split; [reflexivity|].
  cbn [TotalShortage.Shortage_Count]. split; [reflexivity|].
  rewrite annual_shortages_table, map_map.
  set (flagged := filter (fun r => Shortage_Flag r = true) df).
  assert (Hcount : forall y,
            AnnualShortages.Shortage_Count
              (annual_shortage_row (round_decimals settings) y
                 (GroupBy.members payment_year flagged y))
            = Z.of_nat (length (GroupBy.members payment_year flagged y))).
  { intros y. cbn [annual_shortage_row AnnualShortages.Shortage_Count].
    apply sum_bool_flagged. unfold flagged. rewrite members_flagged.
    apply flagged_of_year_flagged. }
  rewrite (map_ext _ _ Hcount).
  rewrite (sum_counts_map_of_nat
             (fun y => length (GroupBy.members payment_year flagged y))).
  rewrite keys_share_out.
  rewrite (length_filter_split (fun r => is_Some (payment_year r)) flagged).
  assert (Hnone : filter (fun r => ~ is_Some (payment_year r)) flagged
                  = filter (fun r => Shortage_Flag r = true
                                     /\ payment_year r = None) df).
  { unfold flagged. rewrite list_filter_filter. apply list_filter_iff.
    intros r. rewrite <- eq_None_not_Some. tauto. }
  rewrite Hnone. lia.
Qed.

(** ** Frames without shortages *)

Lemma round_zero (decimals : Z) : Float.round decimals 0 = 0%Q.
Proof.
  unfold Float.round. destruct (0 <=? decimals); cbv zeta.
  - transitivity (Qred 0); [|reflexivity]. apply Qred_complete.
    unfold Qdiv.
    assert (E : Float.rint (0 * inject_Z (10 ^ decimals)) = 0)
      by reflexivity.
    rewrite E. apply Qmult_0_l.
  - transitivity (Qred 0); [|reflexivity]. apply Qred_complete.
    assert (E : Float.rint (0 / inject_Z (10 ^ (- decimals))) = 0).
    { unfold Qdiv. destruct (Qinv (inject_Z (10 ^ (- decimals)))) as [n d].
      reflexivity. }
    rewrite E. apply Qmult_0_l.
Qed.

Lemma filter_none {A : Type} (P : A -> Prop) `{forall x, Decision (P x)}
    (l : list A) :
  Forall (fun x => ~ P x) l -> filter P l = [].
Proof.
  induction 1 as [|x l Hx _ IH]; [reflexivity|].
  rewrite filter_cons_False by exact Hx. exact IH.
Qed.

(** X18. When no record is flagged, and in particular on an empty frame,
    nothing fails: [total_shortage] is the single row of count zero and
    total zero, and [annual_shortages] and [aged_shortages_by_year] are
    empty tables.  Likewise [aged_invoices_by_year] is empty when no aged
    record has a payment year. *)
Theorem tables_without_shortages (df : list FlaggedRow)
    (settings : SettingsConfig) :
  Forall (fun r => Shortage_Flag r = false) df ->
  let k := compute_kpis df settings in
  total_shortage k
  = [ {| TotalShortage.Shortage_Count := 0;
         TotalShortage.Total_Shortage_USD := 0 |} ]
  /\ annual_shortages k = []
  /\ aged_shortages_by_year k = []
  /\ (Forall (fun r => Age_Bucket r = "Aged" -> payment_year r = None) df ->
      aged_invoices_by_year k = []).
Proof.
  intros Hnone. cbv zeta.
  assert (Hflagged : filter (fun r => Shortage_Flag r = true) df = []).
  { apply filter_none. eapply Forall_impl; [exact Hnone|].
    intros r H. cbn in *. congruence. }
  split; [|split; [|split]].
  - unfold compute_kpis. cbv zeta. cbn [total_shortage].
    rewrite Hflagged. unfold Agg.sum. cbn [map Float.sum length].
    rewrite round_zero. reflexivity.
  - rewrite annual_shortages_table, Hflagged. reflexivity.
  - rewrite aged_shortages_table, Hflagged. reflexivity.
  - intros Hyear. rewrite aged_invoices_table.
    assert (Hkeys : omap payment_year (filter is_aged df) = []).
    { clear -Hyear. induction Hyear as [|r l Hr _ IH]; [reflexivity|].
      rewrite filter_cons. case_decide as Ha; [|exact IH].
      cbn [omap list_omap]. rewrite (Hr Ha). exact IH. }
    unfold GroupBy.keys. rewrite Hkeys. reflexivity.
Qed.

(** Two aged records, neither of them flagged: the tables of shortages are
    empty, the table of aged invoices is not. *)
Lemma tables_without_shortages_witness :
  let df :=
    [ Fixtures.evaluated_row (Some 2023) false 0 110 (Some "INV-1") "Aged";
      Fixtures.evaluated_row (Some 2024) false 0 120 (Some "INV-2") "Aged" ] in
  let k := compute_kpis df Fixtures.settings in
  Forall (fun r => Shortage_Flag r = false) df
  /\ length (aged_invoices_by_year k) = 2%nat
  /\ total_shortage k
     = [ {| TotalShortage.Shortage_Count := 0;
            TotalShortage.Total_Shortage_USD := 0 |} ]
  /\ annual_shortages k = []
  /\ aged_shortages_by_year k = []
  /\ (Forall (fun r => Age_Bucket r = "Aged" -> payment_year r = None) df ->
      aged_invoices_by_year k = []).
Proof.
  intros df k.
  assert (Hnone : Forall (fun r => Shortage_Flag r = false) df)
    by (repeat constructor).
  split; [exact Hnone|]. split; [reflexivity|].
  exact (tables_without_shortages df Fixtures.settings Hnone).
Defined.

(** ** The currency filter of ingestion *)

Lemma compliant_mask_iff (expected : string) (w : RawRow) :
  Io.compliant_mask expected w = true <-> currency_compliant expected w.
Proof.
  unfold Io.compliant_mask, currency_compliant. cbv zeta.
  rewrite andb_true_iff, !upper_eq_matches. reflexivity.
Qed.

Lemma filter_currency_compliant (df : list RawRow) (expected : string) :
  Forall (currency_compliant expected) (Io._filter_currency df expected).
Proof.
  apply Forall_forall. intros w Hw. apply list_elem_of_filter in Hw.
  apply compliant_mask_iff. tauto.
Qed.

(** X19. The currency filter of ingestion keeps exactly the rows whose two
    currencies equal the expected one, letter case apart, in their order;
    rows with a missing currency are dropped.  Filtering again changes
    nothing, and a frame of compliant rows is returned whole. *)
Theorem filter_currency_keeps_compliant (df : list RawRow)
    (expected : string) :
  let out := Io._filter_currency df expected in
  (forall w, w ∈ out <-> w ∈ df /\ currency_compliant expected w)
  /\ sublist out df
  /\ Io._filter_currency out expected = out
  /\ (Forall (currency_compliant expected) df -> out = df).
Proof.
  cbv zeta. split; [|split; [|split]].
  - intros w. unfold Io._filter_currency.
    rewrite list_elem_of_filter, compliant_mask_iff. tauto.
  - apply sublist_filter.
  - unfold Io._filter_currency. apply filter_all.
    apply Forall_forall. intros w Hw. apply list_elem_of_filter in Hw. tauto.
  - intros Hall. unfold Io._filter_currency. apply filter_all.
    eapply Forall_impl; [exact Hall|]. intros w. apply compliant_mask_iff.
Qed.

(** ** From ingestion to the gate *)

(** X20. What the gate asks of an ingested frame.  Take the rows the
    currency filter of ingestion lets through, transform them and evaluate
    them.  The currency check of the gate then always passes, so the gate
    never raises the currency error on such a frame; and the gate passes
    only when at least one row is left, every row has its dates, status,
    currencies and identifiers present and no negative amount, and every
    row has three dates that can be read and are not later than today. *)
Theorem ingested_frame_gate (today : date) (settings : SettingsConfig)
    (rules : RulesConfig) (raw_df : list RawRow) :
  let ingested := Io._filter_currency raw_df (currency_expected settings) in
  let flagged :=
    apply_shortage_logic today (transform_invoices ingested settings)
      settings rules in
  snd (_validate_currency (currency_expected settings) flagged) = inr tt
  /\ snd (run_quality_checks today settings rules flagged)
     <> inl currency_error
  /\ (snd (run_quality_checks today settings rules flagged) = inr tt ->
      ingested <> []
      /\ Forall raw_schema_ok ingested
      /\ Forall (dates_ok today) ingested).
Proof.
  cbv zeta.
  set (ingested := Io._filter_currency raw_df (currency_expected settings)).
  set (flagged := apply_shortage_logic today
                    (transform_invoices ingested settings) settings rules).
  assert (Hcur : Forall (fun r => currency_compliant (currency_expected settings)
                                    (raw (transformed r))) flagged).
  { unfold flagged, apply_shortage_logic, transform_invoices.
    rewrite !Forall_map. apply (filter_currency_compliant raw_df). }
  assert (Hschema : Forall schema_ok flagged -> Forall raw_schema_ok ingested).
  { unfold flagged, apply_shortage_logic, transform_invoices.
    rewrite !Forall_map. intros H. eapply Forall_impl; [exact H|].
    intros w. apply evaluated_row_raw_ok. }
  assert (Hdates : Forall (fun r => dates_ok today (raw (transformed r))) flagged
                   -> Forall (dates_ok today) ingested).
  { unfold flagged, apply_shortage_logic, transform_invoices.
    rewrite !Forall_map. intros H. exact H. }
  assert (Hempty : flagged <> [] -> ingested <> []).
  { unfold flagged, apply_shortage_logic, transform_invoices.
    destruct ingested; simpl; congruence. }
  split; [|split].
  - rewrite validate_currency_run. cbn [snd].
    apply compliant_forallb in Hcur. rewrite Hcur. reflexivity.
  - destruct flagged as [|r rest] eqn:Ef.
    + rewrite run_quality_checks_run. discriminate.
    + assert (Hne : r :: rest <> []) by discriminate.
      destruct (run_quality_checks_cases today settings rules _ Hne)
        as [(_ & f & fs & H)|[(_ & Hc & _)|(_ & _ & H)]].
      * rewrite H. discriminate.
      * contradiction.
      * rewrite H. intros He. apply validate_dates_error in He.
        destruct (date_error_not_currency_error He).
  - intros Hpass.
    assert (Hne : flagged <> []).
    { intros E. rewrite E, run_quality_checks_run in Hpass. discriminate. }
    destruct (run_quality_checks_cases today settings rules _ Hne)
      as [(_ & f & fs & H)|[(_ & _ & H)|(Hs & _ & H)]];
      rewrite H in Hpass; try discriminate.
    apply dates_pass in Hpass. auto.
Qed.

(** ** Reading booleans *)

Lemma lstrip_app_space (p s : string) :
  Str.all_chars Str.is_space p = true ->
  Str.lstrip (p ++ s) = Str.lstrip s.
Proof.
  induction p as [|c p IH]; simpl; [reflexivity|].
  intros H. apply andb_true_iff in H. destruct H as [Hc Hp].
  rewrite Hc. apply IH, Hp.
Qed.

Lemma rstrip_app_space (s p : string) :
  Str.all_chars Str.is_space p = true ->
  Str.rstrip (s ++ p) = Str.rstrip s.
Proof.
  intros Hp. induction s as [|c s IH]; simpl.
  - apply rstrip_empty, Hp.
  - rewrite IH. reflexivity.
Qed.

Lemma lstrip_app (s p : string) :
  Str.lstrip (s ++ p)
  = if Str.all_chars Str.is_space s then Str.lstrip p else Str.lstrip s ++ p.
Proof.
  induction s as [|c s IH]; simpl; [reflexivity|].
  destruct (Str.is_space c); simpl; [exact IH|reflexivity].
Qed.

(** Whitespace around a text does not survive trimming. *)
Lemma strip_pad (p1 s p2 : string) :
  Str.all_chars Str.is_space p1 = true ->
  Str.all_chars Str.is_space p2 = true ->
  Str.strip (p1 ++ s ++ p2) = Str.strip s.
Proof.
  intros H1 H2. unfold Str.strip. rewrite lstrip_app_space by exact H1.
  rewrite lstrip_app. destruct (Str.all_chars Str.is_space s) eqn:Es.
  - apply lstrip_empty in H2. rewrite H2.
    apply lstrip_empty in Es. rewrite Es. reflexivity.
  - apply rstrip_app_space, H2.
Qed.

Lemma lstrip_upper (s : string) :
  Str.lstrip (Str.upper s) = Str.upper (Str.lstrip s).
Proof.
  unfold Str.upper. induction s as [|c s IH]; simpl; [reflexivity|].
  rewrite space_upper_char. destruct (Str.is_space c); [exact IH|reflexivity].
Qed.

Lemma rstrip_upper (s : string) :
  Str.rstrip (Str.upper s) = Str.upper (Str.rstrip s).
Proof.
  unfold Str.upper. induction s as [|c s IH]; simpl; [reflexivity|].
  rewrite IH, space_upper_char.
  destruct (Str.rstrip s); simpl; [|reflexivity].
  destruct (Str.is_space c); reflexivity.
Qed.

Lemma strip_upper (s : string) :
  Str.strip (Str.upper s) = Str.upper (Str.strip s).
Proof. unfold Str.strip. rewrite lstrip_upper, rstrip_upper. reflexivity. Qed.

(** X21. [_to_bool] reads a text whatever its letter case and whatever
    whitespace surrounds it: a text that reads as a boolean reads as the
    same boolean once upper-cased and padded with blanks. *)
Theorem to_bool_ignores_case_and_padding (s p1 p2 : string) (b : bool) :
  Str.all_chars Str.is_space p1 = true ->
  Str.all_chars Str.is_space p2 = true ->
  Io._to_bool (Io.VStr s) = inr b ->
  Io._to_bool (Io.VStr (p1 ++ Str.upper s ++ p2)) = inr b.
Proof.
  intros H1 H2. unfold Io._to_bool. cbv zeta.
  rewrite (strip_pad p1 (Str.upper s) p2 H1 H2), strip_upper, lower_upper.
  destruct (bool_decide (Str.lower (Str.strip s) ∈ Io.TRUE_VALUES));
    [auto|].
  destruct (bool_decide (Str.lower (Str.strip s) ∈ Io.FALSE_VALUES));
    [auto|discriminate].
Qed.

Lemma to_bool_ignores_case_and_padding_witness :
  Str.all_chars Str.is_space "  " = true
  /\ Str.all_chars Str.is_space " " = true
  /\ Io._to_bool (Io.VStr "yes") = inr true
  /\ Io._to_bool (Io.VStr ("  " ++ Str.upper "yes" ++ " ")) = inr true.
Proof.
  split; [reflexivity|]. split; [reflexivity|]. split; [reflexivity|].
  exact (to_bool_ignores_case_and_padding "yes" "  " " " true
           eq_refl eq_refl eq_refl).
Defined.

(** ** The header of an ingested file *)

Lemma filter_nil_iff {A : Type} (P : A -> Prop) `{forall x, Decision (P x)}
    (l : list A) :
  filter P l = [] <-> Forall (fun x => ~ P x) l.
Proof.
  induction l as [|x l IH]; [split; constructor|].
  rewrite filter_cons, Forall_cons. case_decide as Hx.
  - split; [discriminate | intros [Hn _]; contradiction].
  - rewrite IH. tauto.
Qed.

(** X22. The header check passes exactly when every required column is in
    the header, whatever other columns the header has or lacks; otherwise
    it raises a [ValueError] that lists the required columns that are
    missing, and only those. *)
Theorem assert_required_columns_iff (columns : list string) :
  (Io._assert_required_columns columns = inr tt
   <-> forall c, c ∈ Io.REQUIRED_COLUMNS -> c ∈ columns)
  /\ (forall e, Io._assert_required_columns columns = inl e ->
        exists missing,
          e = ValueError
                ("Missing required columns: " ++ Io.py_repr_list missing)
          /\ missing <> []
          /\ forall c, c ∈ missing <->
                       c ∈ Io.REQUIRED_COLUMNS /\ c ∉ columns).
Proof.
  unfold Io._assert_required_columns. cbv zeta.
  destruct (filter (fun column => column ∉ columns) Io.REQUIRED_COLUMNS)
    as [|m ms] eqn:E.
  - split; [|discriminate]. split; [|reflexivity]. intros _.
    apply filter_nil_iff in E. rewrite Forall_forall in E.
    intros c Hc. specialize (E c Hc). cbn in E.
    destruct (decide (c ∈ columns)); tauto.
  - split.
    + split; [discriminate|]. intros Hall. exfalso.
      assert (Hm : m ∈ filter (fun column => column ∉ columns)
                         Io.REQUIRED_COLUMNS) by (rewrite E; left).
      apply list_elem_of_filter in Hm. destruct Hm as [Hm1 Hm2].
      apply Hm1, Hall, Hm2.
    + intros e [= <-]. exists (m :: ms). split; [reflexivity|].
      split; [discriminate|]. intros c. rewrite <- E, list_elem_of_filter.
      tauto.
Qed.

Lemma filter_ext_elem {A : Type} (P Q : A -> Prop)
    `{forall x, Decision (P x)} `{forall x, Decision (Q x)} (l : list A) :
  (forall x, x ∈ l -> P x <-> Q x) -> filter P l = filter Q l.
Proof.
  induction l as [|x l IH]; intros Hext; [reflexivity|].
  rewrite !filter_cons.
  assert (Hx : P x <-> Q x) by (apply Hext; left).
  assert (Hl : filter P l = filter Q l)
    by (apply IH; intros y Hy; apply Hext; right; exact Hy).
  rewrite Hl. repeat case_decide; tauto.
Qed.

Lemma add_missing_fold {V : Type} (na : V) (names : list string)
    (df : Io.Frame V) :
  NoDup names ->
  let added := filter (fun c => c ∉ Io.header df) names in
  foldl (fun df column =>
           if bool_decide (column ∈ Io.header df) then df
           else Io.add_column column na df)
        df names
  = {| Io.nrows := Io.nrows df;
       Io.cols := (Io.cols df
                   ++ map (fun c => (c, replicate (Io.nrows df) na)) added)%list |}.
Proof.
  intros Hnd. revert df. induction Hnd as [|c names Hc Hnd IH]; intros df.
  - cbn. rewrite app_nil_r. destruct df; reflexivity.
  - cbn [foldl]. rewrite filter_cons. cbv zeta.
    destruct (decide (c ∈ Io.header df)) as [Hin|Hin].
    + rewrite bool_decide_eq_true_2 by exact Hin.
      rewrite decide_False by tauto. apply IH.
    + rewrite bool_decide_eq_false_2 by exact Hin.
      rewrite decide_True by exact Hin.
      rewrite IH. cbv zeta. unfold Io.add_column at 1 2. cbn [Io.nrows Io.cols].
      f_equal. rewrite <- app_assoc. cbn [app map]. f_equal. f_equal. f_equal.
      apply filter_ext_elem. intros x Hx.
      unfold Io.header, Io.add_column. cbn [Io.cols].
      rewrite map_app, elem_of_app. cbn [map fst].
      rewrite list_elem_of_singleton.
      split; [tauto|]. intros H [H' | ->]; [tauto|contradiction].
Qed.

Lemma expected_columns_NoDup : NoDup Io.EXPECTED_COLUMNS.
Proof. apply (bool_decide_eq_true_1 _). vm_compute. reflexivity. Qed.

Lemma add_missing_closed {V : Type} (na : V) (df : Io.Frame V) :
  Io._add_missing_optional_columns na df
  = {| Io.nrows := Io.nrows df;
       Io.cols :=
         (Io.cols df
          ++ map (fun c => (c, replicate (Io.nrows df) na))
               (filter (fun c => c ∉ Io.header df) Io.EXPECTED_COLUMNS))%list |}.
Proof.
  unfold Io._add_missing_optional_columns.
  apply (add_missing_fold na Io.EXPECTED_COLUMNS df expected_columns_NoDup).
Qed.

(** X23. [_add_missing_optional_columns] only adds: the columns of the
    frame stay as they are and where they are, the number of rows does not
    change, and the expected columns the header lacks are appended in the
    order of [EXPECTED_COLUMNS], each filled with the missing value.
    Afterwards every expected column is there, so a second call changes
    nothing; and when the header check has passed, none of the columns
    added is a required one. *)
Theorem add_missing_optional_columns_adds {V : Type} (na : V)
    (df : Io.Frame V) :
  let out := Io._add_missing_optional_columns na df in
  let added := filter (fun c => c ∉ Io.header df) Io.EXPECTED_COLUMNS in
  Io.nrows out = Io.nrows df
  /\ Io.cols out
     = (Io.cols df
        ++ map (fun c => (c, replicate (Io.nrows df) na)) added)%list
  /\ (forall c, c ∈ Io.EXPECTED_COLUMNS -> c ∈ Io.header out)
  /\ Io._add_missing_optional_columns na out = out
  /\ (Io._assert_required_columns (Io.header df) = inr tt ->
      forall c, c ∈ added -> c ∉ Io.REQUIRED_COLUMNS).
Proof.
  cbv zeta. rewrite (add_missing_closed na df).
  set (added := filter (fun c => c ∉ Io.header df) Io.EXPECTED_COLUMNS).
  assert (Hall : forall c, c ∈ Io.EXPECTED_COLUMNS ->
            c ∈ Io.header
                  {| Io.nrows := Io.nrows df;
                     Io.cols :=
                       (Io.cols df
                        ++ map (fun c0 => (c0, replicate (Io.nrows df) na))
                             added)%list |}).
  { intros c Hc. unfold Io.header. cbn [Io.cols].
    rewrite map_app, map_map. cbn [fst]. rewrite map_id, elem_of_app.
    destruct (decide (c ∈ map fst (Io.cols df))) as [Hin|Hin]; [left; exact Hin|].
    right. apply list_elem_of_filter. split; assumption. }
  split; [reflexivity|]. split; [reflexivity|]. split; [exact Hall|]. split.
  - rewrite add_missing_closed. cbn [Io.nrows Io.cols].
    assert (E : filter
                  (fun c => c ∉ Io.header
                              {| Io.nrows := Io.nrows df;
                                 Io.cols :=
                                   (Io.cols df
                                    ++ map (fun c0 =>
                                              (c0, replicate (Io.nrows df) na))
                                         added)%list |})
                  Io.EXPECTED_COLUMNS = []).
    { apply filter_none. apply Forall_forall. intros c Hc Hn.
      apply Hn, Hall, Hc. }
    rewrite E. cbn [map]. rewrite app_nil_r. reflexivity.
  - intros Hreq c Hc Hr. apply list_elem_of_filter in Hc.
    destruct Hc as [Hc _]. apply Hc.
    unfold Io._assert_required_columns in Hreq. cbv zeta in Hreq.
    destruct (filter (fun column => column ∉ Io.header df)
                Io.REQUIRED_COLUMNS) as [|m ms] eqn:E; [|discriminate].
    apply filter_nil_iff in E. rewrite Forall_forall in E.
    specialize (E c Hr). cbn in E.
    destruct (decide (c ∈ Io.header df)); tauto.
Qed.

(** ** Loading the rules *)

(** X24. How [load_rules] fails.  A path with nothing at it raises
    [FileNotFoundError].  A document that Python takes for false (an empty
    file, [false], [0], an empty text, list or mapping) is read as the
    empty mapping, so that the first key looked up, [eligible_statuses], is
    reported as a [KeyError]; a document that is true and not a mapping
    raises a [ValueError].  In a mapping the keys are looked up in the
    order [eligible_statuses], [shortage_required_flags],
    [use_strict_currency_check], and the first one missing is the one
    reported. *)
Theorem load_rules_failures (safe_load : string -> config_error + yaml)
    (str_of : yaml -> string) (fs : gmap string node) (path : string) :
  (fs !! path = None ->
     Utils.load_rules safe_load str_of fs path
     = inl (FileNotFoundError ("Configuration file not found: " ++ path)))
  /\ (forall text document,
        fs !! path = Some (File text) ->
        safe_load text = inr document ->
        (Utils.truthy document = false ->
           Utils.load_rules safe_load str_of fs path
           = inl (KeyError "eligible_statuses"))
        /\ (Utils.truthy document = true ->
            (forall entries, document <> YDict entries) ->
            Utils.load_rules safe_load str_of fs path
            = inl (ConfigValueError ("Unexpected YAML structure in " ++ path)))
        /\ (forall entries statuses,
              document = YDict entries ->
              (assoc "eligible_statuses" entries = None ->
                 Utils.load_rules safe_load str_of fs path
                 = inl (KeyError "eligible_statuses"))
              /\ (assoc "eligible_statuses" entries = Some (YList statuses) ->
                  assoc "shortage_required_flags" entries = None ->
                  Utils.load_rules safe_load str_of fs path
                  = inl (KeyError "shortage_required_flags")))).
Proof.
  split.
  - intros Hnone. unfold Utils.load_rules, Utils.load_yaml. rewrite Hnone.
    reflexivity.
  - intros text document Hfile Hparse.
    unfold Utils.load_rules, Utils.load_yaml. rewrite Hfile, Hparse. cbv zeta.
    split; [|split].
    + intros Hfalse. rewrite Hfalse. reflexivity.
    + intros Htrue Hnot. rewrite Htrue.
      destruct document; try reflexivity. exfalso. eapply Hnot. reflexivity.
    + intros entries statuses ->. cbn [Utils.truthy].
      destruct entries as [|entry entries].
      * split; [reflexivity | discriminate].
      * set (es := entry :: entries). split.
        -- intros Hmiss. unfold Utils.getitem. rewrite Hmiss. reflexivity.
        -- intros Hst Hfl. unfold Utils.getitem. rewrite Hst, Hfl. reflexivity.
Qed.

Lemma load_rules_inv (safe_load : string -> config_error + yaml)
    (str_of : yaml -> string) (fs : gmap string node) (path : string)
    (rules : RulesConfig) :
  Utils.load_rules safe_load str_of fs path = inr rules ->
  exists raw statuses_value statuses,
    Utils.load_yaml safe_load fs path = inr raw
    /\ assoc "eligible_statuses" raw = Some statuses_value
    /\ Utils.iterate statuses_value = inr statuses
    /\ eligible_statuses rules
       = map (fun status => Str.upper (Utils.py_str str_of status)) statuses.
Proof.
  unfold Utils.load_rules.
  destruct (Utils.load_yaml safe_load fs path) as [e|raw]; [discriminate|].
  unfold Utils.getitem.
  destruct (assoc "eligible_statuses" raw) as [sv|] eqn:Es; [|discriminate].
  destruct (Utils.iterate sv) as [e|statuses] eqn:Ei; [discriminate|].
  destruct (assoc "shortage_required_flags" raw) as [fv|]; [|discriminate].
  destruct (Utils.iterate fv) as [e|flags]; [discriminate|].
  destruct (assoc "use_strict_currency_check" raw) as [strict|];
    [|discriminate].
  intros [= <-]. exists raw, sv, statuses. repeat split; assumption.
Qed.

(** X25. With rules loaded by [load_rules], the status of an invoice is
    matched against the configured statuses without regard to letter case
    on either side: every eligible status of the loaded rules is in upper
    case, and a record is flagged exactly when its delta exceeds the
    tolerance, it has deductions or a child invoice, and its status equals
    one of the statuses of the configuration file once both are
    upper-cased. *)
Theorem loaded_rules_match_ignoring_case
    (safe_load : string -> config_error + yaml) (str_of : yaml -> string)
    (fs : gmap string node) (path : string) (rules : RulesConfig)
    (today : date) (settings : SettingsConfig) (r : TransformedRow) :
  Utils.load_rules safe_load str_of fs path = inr rules ->
  exists entries statuses_value statuses,
    Utils.load_yaml safe_load fs path = inr entries
    /\ assoc "eligible_statuses" entries = Some statuses_value
    /\ Utils.iterate statuses_value = inr statuses
    /\ Forall (fun e => Str.upper e = e) (eligible_statuses rules)
    /\ (Shortage_Flag (shortage_row today settings rules r) = true <->
          (exists delta, Invoice_Delta r = Some delta
                         /\ (tolerance_small_delta_usd settings < delta)%Q)
          /\ (Any_Deductions (raw r) = true \/ Child_Invoice_Present r = true)
          /\ (exists status configured,
                Invoice_Status (raw r) = Some status
                /\ configured ∈ statuses
                /\ Str.upper (Utils.py_str str_of configured)
                   = Str.upper status)).
Proof.
  intros Hload.
  destruct (load_rules_inv safe_load str_of fs path rules Hload)
    as (raw0 & sv & statuses & Hraw & Hsv & Hit & Hel).
  exists raw0, sv, statuses.
  split; [exact Hraw|]. split; [exact Hsv|]. split; [exact Hit|]. split.
  - rewrite Hel. apply Forall_map. apply Forall_forall. intros v _.
    apply upper_idem.
  - rewrite shortage_row_flag, Hel. split.
    + intros (Hd & Hev & (status & Hs & Hin)).
      split; [exact Hd|]. split; [exact Hev|].
      apply list_elem_of_In, in_map_iff in Hin.
      destruct Hin as (v & Hv & Hvin). apply list_elem_of_In in Hvin.
      exists status, v. auto.
    + intros (Hd & Hev & (status & v & Hs & Hvin & Hv)).
      split; [exact Hd|]. split; [exact Hev|].
      exists status. split; [exact Hs|].
      rewrite <- Hv.
      apply (elem_of_map_intro
               (fun status0 => Str.upper (Utils.py_str str_of status0))).
      exact Hvin.
Qed.

(** A rules file whose statuses are written [Paid] and
    [queued_for_payment], and a record whose status is [PAID]. *)
Lemma loaded_rules_match_ignoring_case_witness :
  let rules :=
    {| eligible_statuses := ["PAID"; "QUEUED_FOR_PAYMENT"];
       shortage_required_flags := ["Any Deductions"; "Child_Invoice_Present"];
       use_strict_currency_check := true |} in
  let r := Fixtures.transformed_row (Some 5%Q) true false (Some "PAID")
             DateNull in
  Utils.load_rules MoreFixtures.parse MoreFixtures.str_of
    MoreFixtures.rules_files MoreFixtures.rules_path = inr rules
  /\ Shortage_Flag
       (shortage_row Fixtures.today Fixtures.settings rules r) = true
  /\ exists entries statuses_value statuses,
       Utils.load_yaml MoreFixtures.parse MoreFixtures.rules_files
         MoreFixtures.rules_path = inr entries
       /\ assoc "eligible_statuses" entries = Some statuses_value
       /\ Utils.iterate statuses_value = inr statuses
       /\ Forall (fun e => Str.upper e = e) (eligible_statuses rules)
       /\ (Shortage_Flag
             (shortage_row Fixtures.today Fixtures.settings rules r) = true <->
             (exists delta, Invoice_Delta r = Some delta
                /\ (tolerance_small_delta_usd Fixtures.settings < delta)%Q)
             /\ (Any_Deductions (raw r) = true
                 \/ Child_Invoice_Present r = true)
             /\ (exists status configured,
                   Invoice_Status (raw r) = Some status
                   /\ configured ∈ statuses
                   /\ Str.upper (Utils.py_str MoreFixtures.str_of configured)
                      = Str.upper status)).
Proof.
  intros rules r.
  assert (Hload : Utils.load_rules MoreFixtures.parse MoreFixtures.str_of
                    MoreFixtures.rules_files MoreFixtures.rules_path
                  = inr rules) by (vm_compute; reflexivity).
  split; [exact Hload|]. split; [vm_compute; reflexivity|].
  exact (loaded_rules_match_ignoring_case MoreFixtures.parse
           MoreFixtures.str_of MoreFixtures.rules_files
           MoreFixtures.rules_path rules Fixtures.today Fixtures.settings r
           Hload).
Defined.

(** ** Exports *)

Lemma elem_of_flat_map {A B : Type} (f : A -> list B) (l : list A) (y : B) :
  y ∈ flat_map f l <-> exists x, x ∈ l /\ y ∈ f x.
Proof.
  rewrite list_elem_of_In, in_flat_map. split.
  - intros (x & Hx & Hy). exists x. rewrite !list_elem_of_In. auto.
  - intros (x & Hx & Hy). exists x. rewrite <- !list_elem_of_In. auto.
Qed.

Lemma export_analytics_fold (joinpath : string -> string -> string)
    (parent : string -> string) (tables : gmap string kpi_table)
    (settings : SettingsConfig) (m : list (string * string))
    (events : list event) (paths : list (string * string)) :
  foldl
    (fun '(events, output_paths) '(key, filename) =>
       match tables !! key with
       | None => (events, output_paths)
       | Some table =>
           let path := joinpath (output_processed_dir settings) filename in
           let '(written, _) := write_csv parent (KpiTable table) path in
           ((events ++ written)%list, (output_paths ++ [(key, path)])%list)
       end)
    (events, paths) m
  = ((events ++ flat_map (csv_events joinpath parent tables settings) m)%list,
     (paths ++ omap (csv_path joinpath tables settings) m)%list).
Proof.
  revert events paths. induction m as [|[key filename] m IH];
    intros events paths.
  - cbn. rewrite !app_nil_r. reflexivity.
  - cbn [foldl flat_map omap list_omap].
    unfold csv_events at 1, csv_path at 1. cbn [fst snd].
    destruct (tables !! key) as [table|].
    + cbv zeta. unfold write_csv, ensure_directories. cbn [map app].
      rewrite IH, <- !app_assoc. reflexivity.
    + rewrite IH. reflexivity.
Qed.

Lemma export_analytics_closed (joinpath : string -> string -> string)
    (parent : string -> string) (tables : gmap string kpi_table)
    (settings : SettingsConfig) :
  export_analytics_tables joinpath parent tables settings
  = (flat_map (csv_events joinpath parent tables settings) mapping,
     omap (csv_path joinpath tables settings) mapping).
Proof.
  unfold export_analytics_tables. rewrite export_analytics_fold. reflexivity.
Qed.

(** X26. [export_analytics_tables] writes, as CSV files of the output
    directory, exactly the tables of the dictionary whose key is one of the
    four it knows, each under the file name of its key, and returns the
    path of each table written under the key of the table.  A table under
    any other key is never written, a known key that is absent is skipped
    without error, and nothing is ever removed. *)
Theorem export_analytics_tables_writes (joinpath : string -> string -> string)
    (parent : string -> string) (tables : gmap string kpi_table)
    (settings : SettingsConfig) :
  let out := output_processed_dir settings in
  let events :=
    fst (export_analytics_tables joinpath parent tables settings) in
  let paths :=
    snd (export_analytics_tables joinpath parent tables settings) in
  (forall path data,
     ToCsv path data ∈ events <->
     exists key filename table,
       (key, filename) ∈ mapping
       /\ tables !! key = Some table
       /\ path = joinpath out filename
       /\ data = KpiTable table)
  /\ (forall key path,
        (key, path) ∈ paths <->
        exists filename,
          (key, filename) ∈ mapping
          /\ is_Some (tables !! key)
          /\ path = joinpath out filename)
  /\ Forall (fun ev => match ev with
                       | MakeDirs _ | ToCsv _ _ => True
                       | _ => False
                       end) events.
Proof.
  cbv zeta. rewrite export_analytics_closed. cbn [fst snd].
  split; [|split].
  - intros path data. rewrite elem_of_flat_map. split.
    + intros ([key filename] & Hm & Hev). unfold csv_events in Hev.
      cbn [fst snd] in Hev. destruct (tables !! key) as [table|] eqn:Et;
        [|inversion Hev].
      cbv zeta in Hev. rewrite !elem_of_cons in Hev.
      destruct Hev as [Hev|[Hev|Hev]]; [discriminate| |inversion Hev].
      injection Hev as Hp Hd. exists key, filename, table. auto.
    + intros (key & filename & table & Hm & Et & -> & ->).
      exists (key, filename). split; [exact Hm|].
      unfold csv_events. cbn [fst snd]. rewrite Et. cbv zeta.
      right. left.
  - intros key path. rewrite list_elem_of_omap. split.
    + intros ([key' filename] & Hm & Hp). unfold csv_path in Hp.
      cbn [fst snd] in Hp. destruct (tables !! key') as [table|] eqn:Et;
        [|discriminate].
      injection Hp as Hk Hp. subst key'. exists filename. rewrite Et. eauto.
    + intros (filename & Hm & [table Et] & ->).
      exists (key, filename). split; [exact Hm|].
      unfold csv_path. cbn [fst snd]. rewrite Et. reflexivity.
  - apply Forall_forall. intros ev Hev. apply elem_of_flat_map in Hev.
    destruct Hev as ([key filename] & _ & Hev). unfold csv_events in Hev.
    cbn [fst snd] in Hev. destruct (tables !! key); [|inversion Hev].
    cbv zeta in Hev. rewrite !elem_of_cons in Hev.
    destruct Hev as [->|[->|Hev]]; [exact I|exact I|inversion Hev].
Qed.

(** X27. [export_shortage_outputs] writes two files and nothing else: the
    whole evaluated frame, then the flagged records alone.  The second
    frame holds the flagged records of the first, in their order, and as
    many records as [total_shortage] counts for the same frame. *)
Theorem export_shortage_outputs_writes (joinpath : string -> string -> string)
    (parent : string -> string) (df : list FlaggedRow)
    (settings : SettingsConfig) :
  let out := output_processed_dir settings in
  let flagged_path := joinpath out "shortages_flagged.parquet" in
  let shortages_only := joinpath out "shortages_only.parquet" in
  exists records,
    export_shortage_outputs joinpath parent df settings
    = ([ MakeDirs (parent flagged_path);
         ToParquet flagged_path (FlaggedFrame df);
         MakeDirs (parent shortages_only);
         ToParquet shortages_only (FlaggedFrame records) ],
       [ ("shortages_flagged", flagged_path);
         ("shortages_only", shortages_only) ])
    /\ (forall r, r ∈ records <-> r ∈ df /\ Shortage_Flag r = true)
    /\ sublist records df
    /\ Forall
         (fun t => TotalShortage.Shortage_Count t = Z.of_nat (length records))
         (total_shortage (compute_kpis df settings)).
Proof.
  cbv zeta. exists (filter (fun r => Shortage_Flag r = true) df).
  split; [reflexivity|]. split; [|split].
  - intros r. rewrite list_elem_of_filter. tauto.
  - apply sublist_filter.
  - repeat constructor.
Qed.

(** ** The pipeline *)

(** On a frame that is not empty the gate never answers with the error of
    the emptiness check. *)
Lemma gate_not_empty_error (today : date) (settings : SettingsConfig)
    (rules : RulesConfig) (df : list FlaggedRow) :
  df <> [] ->
  snd (run_quality_checks today settings rules df)
  <> inl (ValueError "Quality check failed: dataframe is empty.").
Proof.
  intros Hne. rewrite run_quality_checks_run.
  destruct df as [|r df]; [congruence|].
  destruct (Pandera.failures (_build_schema settings) (r :: df));
    [|discriminate].
  rewrite validate_currency_run. cbn [snd].
  destruct (forallb _ (r :: df)); [|discriminate].
  intros H. unfold _validate_dates in H. cbv zeta in H.
  apply for_each_raised_by in H;
    [|intros col; apply validate_date_column_read_only].
  destruct H as ([name get] & _ & H).
  rewrite validate_date_column_run in H. cbn [snd] in H.
  destruct (existsb isna _); [discriminate|].
  destruct (existsb (is_future today) _); discriminate.
Qed.

Lemma evaluated_not_empty (today : date) (settings : SettingsConfig)
    (rules : RulesConfig) (df : list RawRow) :
  raw_empty df = false ->
  apply_shortage_logic today (transform_invoices df settings) settings rules
  <> [].
Proof. destruct df; [discriminate|]. intros _. discriminate. Qed.

(** X28. A run of the pipeline that stops has written no data: whether a
    configuration fails to load, ingestion fails, the ingested frame is
    empty or the quality gate raises, the only effect there can have been
    is the creation of the output directory.  The gate, in particular, is
    passed before the first export; and since an empty frame stops the run
    before the gate, the gate never stops it with its own emptiness
    error. *)
Theorem run_pipeline_stops_before_writing
    (joinpath : string -> string -> string) (parent : string -> string)
    (project_root : string)
    (load_settings : string -> config_error + SettingsConfig)
    (load_rules : string -> config_error + RulesConfig)
    (ingest_invoices : SettingsConfig -> string + list RawRow)
    (today : date) (f : failure) :
  let run :=
    run_pipeline joinpath parent project_root load_settings load_rules
      ingest_invoices today in
  snd run = inl f ->
  Forall (fun ev => ~ is_write ev) (fst run)
  /\ f <> GateFailed (ValueError "Quality check failed: dataframe is empty.").
Proof.
  cbv zeta. unfold run_pipeline. cbv zeta.
  destruct (load_settings _) as [e|settings];
    [intros [= <-]; split; [constructor|discriminate]|].
  destruct (load_rules _) as [e|rules];
    [intros [= <-]; split; [constructor|discriminate]|].
  destruct (ingest_invoices settings) as [what|invoices_raw];
    [intros [= <-]; split; [repeat constructor; auto|discriminate]|].
  destruct (raw_empty invoices_raw) eqn:Eempty;
    [intros [= <-]; split; [repeat constructor; auto|discriminate]|].
  pose proof (gate_not_empty_error today settings rules _
                (evaluated_not_empty today settings rules invoices_raw Eempty))
    as Hgate.
  destruct (run_quality_checks today settings rules _) as [df' [e|u]].
  - intros [= <-]. split; [repeat constructor; auto|].
    cbn [snd] in Hgate. congruence.
  - destruct (export_clean_dataset _ _ _ _) as [events1 clean_path].
    destruct (export_shortage_outputs _ _ _ _) as [events2 shortage_paths].
    destruct (export_analytics_tables _ _ _ _) as [events3 analytics_paths].
    discriminate.
Qed.

(** A run whose one ingested record is due tomorrow: the gate stops it,
    with the output directory created and nothing written. *)
Lemma run_pipeline_stops_before_writing_witness :
  let run :=
    run_pipeline MoreFixtures.joinpath MoreFixtures.parent "."
      MoreFixtures.load_settings MoreFixtures.load_rules
      (MoreFixtures.ingest [MoreFixtures.future_raw_row]) Fixtures.today in
  let f :=
    GateFailed
      (ValueError "Future-dated values found in column Payment Due Date") in
  snd run = inl f
  /\ fst run = [MakeDirs "data/processed"]
  /\ Forall (fun ev => ~ is_write ev) (fst run)
  /\ f <> GateFailed (ValueError "Quality check failed: dataframe is empty.").
Proof.
  intros run f.
  assert (Hrun : snd run = inl f) by (vm_compute; reflexivity).
  split; [exact Hrun|]. split; [vm_compute; reflexivity|].
  exact (run_pipeline_stops_before_writing MoreFixtures.joinpath
           MoreFixtures.parent "." MoreFixtures.load_settings
           MoreFixtures.load_rules
           (MoreFixtures.ingest [MoreFixtures.future_raw_row]) Fixtures.today
           f Hrun).
Defined.

Lemma tables_dict_lookups (k : KpiTables) :
  tables_dict k !! "total_shortage"
  = Some (TotalShortageTable (total_shortage k))
  /\ tables_dict k !! "annual_shortages"
     = Some (AnnualShortagesTable (annual_shortages k))
  /\ tables_dict k !! "aged_shortages_by_year"
     = Some (AgedShortagesTable (aged_shortages_by_year k))
  /\ tables_dict k !! "aged_invoices_by_year"
     = Some (AgedInvoicesTable (aged_invoices_by_year k)).
Proof. unfold tables_dict. repeat split; by simplify_map_eq. Qed.

Lemma export_analytics_all_keys (joinpath : string -> string -> string)
    (parent : string -> string) (k : KpiTables) (settings : SettingsConfig) :
  map fst (snd (export_analytics_tables joinpath parent (tables_dict k)
                  settings))
  = map fst mapping.
Proof.
  rewrite export_analytics_closed. cbn [snd]. unfold mapping.
  destruct (tables_dict_lookups k) as (H1 & H2 & H3 & H4).
  cbn [omap list_omap]. unfold csv_path. cbn [fst snd].
  rewrite H1, H2, H3, H4. reflexivity.
Qed.

(** X29. A run of the pipeline that completes has loaded both
    configurations, ingested a frame that is not empty and passed the
    quality gate on the evaluated frame.  Its effects are, in this order:
    the output directory is created, the transformed frame is exported as
    the clean dataset, the evaluated frame and its flagged records are
    exported, and the four tables computed from the evaluated frame are
    exported.  The dictionary returned has the seven keys
    [clean_dataset], [shortages_flagged], [shortages_only] and the names of
    the four tables. *)
Theorem run_pipeline_completes
    (joinpath : string -> string -> string) (parent : string -> string)
    (project_root : string)
    (load_settings : string -> config_error + SettingsConfig)
    (load_rules : string -> config_error + RulesConfig)
    (ingest_invoices : SettingsConfig -> string + list RawRow)
    (today : date) (paths : list (string * string)) :
  let run :=
    run_pipeline joinpath parent project_root load_settings load_rules
      ingest_invoices today in
  snd run = inr paths ->
  exists settings rules invoices_raw,
    load_settings (joinpath (joinpath project_root "config") "settings.yaml")
    = inr settings
    /\ load_rules (joinpath (joinpath project_root "config") "rules.yaml")
       = inr rules
    /\ ingest_invoices settings = inr invoices_raw
    /\ invoices_raw <> []
    /\ let transformed := transform_invoices invoices_raw settings in
       let flagged := apply_shortage_logic today transformed settings rules in
       snd (run_quality_checks today settings rules flagged) = inr tt
       /\ fst run
          = (MakeDirs (output_processed_dir settings)
             :: fst (export_clean_dataset joinpath parent transformed settings)
             ++ fst (export_shortage_outputs joinpath parent flagged settings)
             ++ fst (export_analytics_tables joinpath parent
                       (tables_dict (compute_kpis flagged settings))
                       settings))%list
       /\ map fst paths
          = [ "clean_dataset"; "shortages_flagged"; "shortages_only";
              "total_shortage"; "annual_shortages";
              "aged_shortages_by_year"; "aged_invoices_by_year" ].
Proof.
  cbv zeta. unfold run_pipeline. cbv zeta.
  destruct (load_settings _) as [e|settings] eqn:Eset; [discriminate|].
  destruct (load_rules _) as [e|rules] eqn:Erul; [discriminate|].
  destruct (ingest_invoices settings) as [what|invoices_raw] eqn:Eing;
    [discriminate|].
  destruct (raw_empty invoices_raw) eqn:Eempty; [discriminate|].
  set (transformed := transform_invoices invoices_raw settings).
  set (flagged := apply_shortage_logic today transformed settings rules).
  pose proof (run_quality_checks_read_only today settings rules flagged)
    as Hro.
  destruct (run_quality_checks today settings rules flagged)
    as [df' [e|[]]] eqn:Egate; [discriminate|].
  cbn [fst] in Hro. subst df'.
  pose proof (export_analytics_all_keys joinpath parent
                (compute_kpis flagged settings) settings) as Hkeys.
  destruct (export_clean_dataset joinpath parent transformed settings)
    as [events1 clean_path] eqn:Eclean.
  destruct (export_shortage_outputs joinpath parent flagged settings)
    as [events2 shortage_paths] eqn:Eshort.
  destruct (export_analytics_tables joinpath parent
              (tables_dict (compute_kpis flagged settings)) settings)
    as [events3 analytics_paths] eqn:Etab.
  cbn [fst snd] in *. intros [= <-].
  exists settings, rules, invoices_raw.
  split; [reflexivity|]. split; [reflexivity|]. split; [exact Eing|].
  split; [destruct invoices_raw; discriminate|].
  fold transformed. fold flagged. rewrite Egate, Eclean, Eshort, Etab.
  cbn [fst snd]. split; [reflexivity|]. split; [reflexivity|].
  unfold export_shortage_outputs in Eshort. cbv zeta in Eshort.
  unfold write_parquet in Eshort. injection Eshort as _ <-.
  cbn [map fst app]. rewrite Hkeys. reflexivity.
Qed.

(** A run whose one ingested record passes the gate. *)
Lemma run_pipeline_completes_witness :
  let run :=
    run_pipeline MoreFixtures.joinpath MoreFixtures.parent "."
      MoreFixtures.load_settings MoreFixtures.load_rules
      (MoreFixtures.ingest [MoreFixtures.good_raw_row]) Fixtures.today in
  let paths :=
    [ ("clean_dataset", "data/processed/invoices_clean.parquet");
      ("shortages_flagged", "data/processed/shortages_flagged.parquet");
      ("shortages_only", "data/processed/shortages_only.parquet");
      ("total_shortage", "data/processed/total_shortage.csv");
      ("annual_shortages", "data/processed/annual_shortages.csv");
      ("aged_shortages_by_year", "data/processed/aged_shortages_by_year.csv");
      ("aged_invoices_by_year", "data/processed/aged_invoices_by_year.csv") ] in
  snd run = inr paths
  /\ exists settings rules invoices_raw,
       MoreFixtures.load_settings
         (MoreFixtures.joinpath (MoreFixtures.joinpath "." "config")
            "settings.yaml") = inr settings
       /\ MoreFixtures.load_rules
            (MoreFixtures.joinpath (MoreFixtures.joinpath "." "config")
               "rules.yaml") = inr rules
       /\ MoreFixtures.ingest [MoreFixtures.good_raw_row] settings
          = inr invoices_raw
       /\ invoices_raw <> []
       /\ let transformed := transform_invoices invoices_raw settings in
          let flagged :=
            apply_shortage_logic Fixtures.today transformed settings rules in
          snd (run_quality_checks Fixtures.today settings rules flagged)
          = inr tt
          /\ fst run
             = (MakeDirs (output_processed_dir settings)
                :: fst (export_clean_dataset MoreFixtures.joinpath
                          MoreFixtures.parent transformed settings)
                ++ fst (export_shortage_outputs MoreFixtures.joinpath
                          MoreFixtures.parent flagged settings)
                ++ fst (export_analytics_tables MoreFixtures.joinpath
                          MoreFixtures.parent
                          (tables_dict (compute_kpis flagged settings))
                          settings))%list
          /\ map fst paths
             = [ "clean_dataset"; "shortages_flagged"; "shortages_only";
                 "total_shortage"; "annual_shortages";
                 "aged_shortages_by_year"; "aged_invoices_by_year" ].
Proof.
  intros run paths.
  assert (Hrun : snd run = inr paths) by (vm_compute; reflexivity).
  split; [exact Hrun|].
  exact (run_pipeline_completes MoreFixtures.joinpath MoreFixtures.parent "."
           MoreFixtures.load_settings MoreFixtures.load_rules
           (MoreFixtures.ingest [MoreFixtures.good_raw_row]) Fixtures.today
           paths Hrun).
Defined.
